(** * Activity scheduling and task execution core of the chat-bot pool

    A shallow embedding of [src/bot_activity_manager.py] and
    [src/performance_optimizer.py].

    Modelling conventions.
    - Python floats are read as exact rationals ([Q]); the two-argument
      builtins [min]/[max] are written out with the comparison CPython
      performs.
    - [datetime.now()] is an explicit [Clock] argument; every call of the
      [random] module is an explicit draw argument.
    - The dictionaries [bot_states], [activity_patterns], [active_tasks] and
      [error_counts] are [gmap]s keyed by strings.
    - Exceptions are a result type; the [logger] calls that matter are kept
      as a list of log records. *)

From Stdlib Require Import QArith Qminmax Lqa ZArith List String Ascii DecimalString.
From Stdlib Require Import Sorting.Sorted Sorting.Permutation.
From stdpp Require Import base gmap strings list fin_maps.

Local Open Scope Q_scope.

(** ** Python builtins used by the source *)

(** [a < b] on numbers. *)
Definition Qltb (a b : Q) : bool := negb (Qle_bool b a).

(** [min(a, b)]: the second argument replaces the first only when it is
    strictly smaller. *)
Definition py_min (a b : Q) : Q := if Qltb b a then b else a.

(** [max(a, b)]: the second argument replaces the first only when it is
    strictly greater. *)
Definition py_max (a b : Q) : Q := if Qltb a b then b else a.

(** [h in range(lo, hi)] *)
Definition in_range (h lo hi : nat) : bool := (lo <=? h)%nat && (h <? hi)%nat.

(** One reading of the wall clock: the timestamp in seconds, the hour of the
    day ([datetime.now().hour]) and the calendar day ([datetime.now().date()],
    as a day number). *)
Record Clock := {
  now : Q;
  hour : nat;
  today : Z
}.

(** [(now - t).total_seconds() / 3600] *)
Definition hours_since (c : Clock) (t : Q) : Q := (now c - t) / 3600.

(** Exceptions raised by the modelled code. *)
Inductive exn :=
| AttributeError (obj attr : string)
| ValueError (msg : string)
| CollaboratorError (msg : string).

Inductive result (A : Type) :=
| Ok (a : A)
| Raise (e : exn).
Arguments Ok {A} a.
Arguments Raise {A} e.

(** ** bot_activity_manager.py: enumerations *)

Inductive ActivityMode := NORMAL | ENERGETIC | CALM | SLEEPY | SOCIAL | FOCUSED.

Inductive MoodState := HAPPY | NEUTRAL | TIRED | EXCITED | MELANCHOLY.

Definition MoodState_eqb (a b : MoodState) : bool :=
  match a, b with
  | HAPPY, HAPPY | NEUTRAL, NEUTRAL | TIRED, TIRED
  | EXCITED, EXCITED | MELANCHOLY, MELANCHOLY => true
  | _, _ => false
  end.

(** ** class ActivityState *)

(** The [activity_patterns] dictionary of a state: its four keys are set by
    the constructor and only ever overwritten. *)
Record Patterns := {
  morning : Q;
  afternoon : Q;
  evening : Q;
  night : Q
}.

Record ActivityState := {
  bot_id : string;
  activity_rate : Q;
  is_active : bool;
  last_activity : Q;
  offline_since : option Q;
  total_messages : nat;
  errors_count : nat;
  activity_mode : ActivityMode;
  mood_state : MoodState;
  energy_level : Q;
  social_factor : Q;
  last_mood_change : Q;
  conversation_count_today : nat;
  positive_interactions : nat;
  negative_interactions : nat;
  preferred_active_hours : list nat;
  sleep_schedule : nat * nat;
  activity_patterns : Patterns
}.

(** [ActivityState.__init__] (the [bot_instance] handle is the external
    runtime and is not part of the record). *)
Definition ActivityState_init (c : Clock) (bid : string) (rate : Q)
    (active : bool) (last : option Q) : ActivityState :=
  {| bot_id := bid;
     activity_rate := rate;
     is_active := active;
     last_activity := match last with Some t => t | None => now c end;
     offline_since := None;
     total_messages := 0;
     errors_count := 0;
     activity_mode := NORMAL;
     mood_state := NEUTRAL;
     energy_level := 50;
     social_factor := 50;
     last_mood_change := now c;
     conversation_count_today := 0;
     positive_interactions := 0;
     negative_interactions := 0;
     preferred_active_hours := seq 9 13;
     sleep_schedule := (23%nat, 7%nat);
     activity_patterns :=
       {| morning := 0.8; afternoon := 1.0; evening := 0.9; night := 0.3 |} |}.

(** Attribute assignments. *)
Definition set_activity_rate (v : Q) (s : ActivityState) : ActivityState :=
  {| bot_id := bot_id s; activity_rate := v; is_active := is_active s;
     last_activity := last_activity s; offline_since := offline_since s;
     total_messages := total_messages s; errors_count := errors_count s;
     activity_mode := activity_mode s; mood_state := mood_state s;
     energy_level := energy_level s; social_factor := social_factor s;
     last_mood_change := last_mood_change s;
     conversation_count_today := conversation_count_today s;
     positive_interactions := positive_interactions s;
     negative_interactions := negative_interactions s;
     preferred_active_hours := preferred_active_hours s;
     sleep_schedule := sleep_schedule s;
     activity_patterns := activity_patterns s |}.

Definition set_presence (a : bool) (off : option Q) (s : ActivityState) : ActivityState :=
  {| bot_id := bot_id s; activity_rate := activity_rate s; is_active := a;
     last_activity := last_activity s; offline_since := off;
     total_messages := total_messages s; errors_count := errors_count s;
     activity_mode := activity_mode s; mood_state := mood_state s;
     energy_level := energy_level s; social_factor := social_factor s;
     last_mood_change := last_mood_change s;
     conversation_count_today := conversation_count_today s;
     positive_interactions := positive_interactions s;
     negative_interactions := negative_interactions s;
     preferred_active_hours := preferred_active_hours s;
     sleep_schedule := sleep_schedule s;
     activity_patterns := activity_patterns s |}.

Definition set_last_activity (t : Q) (s : ActivityState) : ActivityState :=
  {| bot_id := bot_id s; activity_rate := activity_rate s; is_active := is_active s;
     last_activity := t; offline_since := offline_since s;
     total_messages := total_messages s; errors_count := errors_count s;
     activity_mode := activity_mode s; mood_state := mood_state s;
     energy_level := energy_level s; social_factor := social_factor s;
     last_mood_change := last_mood_change s;
     conversation_count_today := conversation_count_today s;
     positive_interactions := positive_interactions s;
     negative_interactions := negative_interactions s;
     preferred_active_hours := preferred_active_hours s;
     sleep_schedule := sleep_schedule s;
     activity_patterns := activity_patterns s |}.

Definition set_total_messages (n : nat) (s : ActivityState) : ActivityState :=
  {| bot_id := bot_id s; activity_rate := activity_rate s; is_active := is_active s;
     last_activity := last_activity s; offline_since := offline_since s;
     total_messages := n; errors_count := errors_count s;
     activity_mode := activity_mode s; mood_state := mood_state s;
     energy_level := energy_level s; social_factor := social_factor s;
     last_mood_change := last_mood_change s;
     conversation_count_today := conversation_count_today s;
     positive_interactions := positive_interactions s;
     negative_interactions := negative_interactions s;
     preferred_active_hours := preferred_active_hours s;
     sleep_schedule := sleep_schedule s;
     activity_patterns := activity_patterns s |}.

Definition set_activity_mode (m : ActivityMode) (s : ActivityState) : ActivityState :=
  {| bot_id := bot_id s; activity_rate := activity_rate s; is_active := is_active s;
     last_activity := last_activity s; offline_since := offline_since s;
     total_messages := total_messages s; errors_count := errors_count s;
     activity_mode := m; mood_state := mood_state s;
     energy_level := energy_level s; social_factor := social_factor s;
     last_mood_change := last_mood_change s;
     conversation_count_today := conversation_count_today s;
     positive_interactions := positive_interactions s;
     negative_interactions := negative_interactions s;
     preferred_active_hours := preferred_active_hours s;
     sleep_schedule := sleep_schedule s;
     activity_patterns := activity_patterns s |}.

Definition set_mood_state (m : MoodState) (s : ActivityState) : ActivityState :=
  {| bot_id := bot_id s; activity_rate := activity_rate s; is_active := is_active s;
     last_activity := last_activity s; offline_since := offline_since s;
     total_messages := total_messages s; errors_count := errors_count s;
     activity_mode := activity_mode s; mood_state := m;
     energy_level := energy_level s; social_factor := social_factor s;
     last_mood_change := last_mood_change s;
     conversation_count_today := conversation_count_today s;
     positive_interactions := positive_interactions s;
     negative_interactions := negative_interactions s;
     preferred_active_hours := preferred_active_hours s;
     sleep_schedule := sleep_schedule s;
     activity_patterns := activity_patterns s |}.

Definition set_energy_level (e : Q) (s : ActivityState) : ActivityState :=
  {| bot_id := bot_id s; activity_rate := activity_rate s; is_active := is_active s;
     last_activity := last_activity s; offline_since := offline_since s;
     total_messages := total_messages s; errors_count := errors_count s;
     activity_mode := activity_mode s; mood_state := mood_state s;
     energy_level := e; social_factor := social_factor s;
     last_mood_change := last_mood_change s;
     conversation_count_today := conversation_count_today s;
     positive_interactions := positive_interactions s;
     negative_interactions := negative_interactions s;
     preferred_active_hours := preferred_active_hours s;
     sleep_schedule := sleep_schedule s;
     activity_patterns := activity_patterns s |}.

Definition set_social_factor (v : Q) (s : ActivityState) : ActivityState :=
  {| bot_id := bot_id s; activity_rate := activity_rate s; is_active := is_active s;
     last_activity := last_activity s; offline_since := offline_since s;
     total_messages := total_messages s; errors_count := errors_count s;
     activity_mode := activity_mode s; mood_state := mood_state s;
     energy_level := energy_level s; social_factor := v;
     last_mood_change := last_mood_change s;
     conversation_count_today := conversation_count_today s;
     positive_interactions := positive_interactions s;
     negative_interactions := negative_interactions s;
     preferred_active_hours := preferred_active_hours s;
     sleep_schedule := sleep_schedule s;
     activity_patterns := activity_patterns s |}.

Definition set_last_mood_change (t : Q) (s : ActivityState) : ActivityState :=
  {| bot_id := bot_id s; activity_rate := activity_rate s; is_active := is_active s;
     last_activity := last_activity s; offline_since := offline_since s;
     total_messages := total_messages s; errors_count := errors_count s;
     activity_mode := activity_mode s; mood_state := mood_state s;
     energy_level := energy_level s; social_factor := social_factor s;
     last_mood_change := t;
     conversation_count_today := conversation_count_today s;
     positive_interactions := positive_interactions s;
     negative_interactions := negative_interactions s;
     preferred_active_hours := preferred_active_hours s;
     sleep_schedule := sleep_schedule s;
     activity_patterns := activity_patterns s |}.

Definition set_daily_counters (conv pos neg : nat) (s : ActivityState) : ActivityState :=
  {| bot_id := bot_id s; activity_rate := activity_rate s; is_active := is_active s;
     last_activity := last_activity s; offline_since := offline_since s;
     total_messages := total_messages s; errors_count := errors_count s;
     activity_mode := activity_mode s; mood_state := mood_state s;
     energy_level := energy_level s; social_factor := social_factor s;
     last_mood_change := last_mood_change s;
     conversation_count_today := conv;
     positive_interactions := pos;
     negative_interactions := neg;
     preferred_active_hours := preferred_active_hours s;
     sleep_schedule := sleep_schedule s;
     activity_patterns := activity_patterns s |}.

Definition set_custom_config (hours : list nat) (sleep : nat * nat) (p : Patterns)
    (s : ActivityState) : ActivityState :=
  {| bot_id := bot_id s; activity_rate := activity_rate s; is_active := is_active s;
     last_activity := last_activity s; offline_since := offline_since s;
     total_messages := total_messages s; errors_count := errors_count s;
     activity_mode := activity_mode s; mood_state := mood_state s;
     energy_level := energy_level s; social_factor := social_factor s;
     last_mood_change := last_mood_change s;
     conversation_count_today := conversation_count_today s;
     positive_interactions := positive_interactions s;
     negative_interactions := negative_interactions s;
     preferred_active_hours := hours;
     sleep_schedule := sleep;
     activity_patterns := p |}.

(** [get_current_time_factor] *)
Definition get_current_time_factor (c : Clock) (s : ActivityState) : Q :=
  let current_hour := hour c in
  if in_range current_hour 6 12 then morning (activity_patterns s)
  else if in_range current_hour 12 18 then afternoon (activity_patterns s)
  else if in_range current_hour 18 22 then evening (activity_patterns s)
  else night (activity_patterns s).

(** [get_mood_factor] *)
Definition get_mood_factor (s : ActivityState) : Q :=
  match mood_state s with
  | HAPPY => 1.2
  | EXCITED => 1.4
  | NEUTRAL => 1.0
  | TIRED => 0.6
  | MELANCHOLY => 0.8
  end.

(** [get_energy_factor] *)
Definition get_energy_factor (s : ActivityState) : Q :=
  (energy_level s / 100.0) * 1.5 + 0.2.

(** The [mode_multipliers] table of [get_adjusted_activity_rate]. *)
Definition mode_multipliers (m : ActivityMode) : Q :=
  match m with
  | NORMAL => 1.0
  | ENERGETIC => 1.3
  | CALM => 0.8
  | SLEEPY => 0.4
  | SOCIAL => 1.5
  | FOCUSED => 0.9
  end.

(** [get_adjusted_activity_rate] *)
Definition get_adjusted_activity_rate (c : Clock) (s : ActivityState) : Q :=
  let base_rate := activity_rate s in
  let time_factor := get_current_time_factor c s in
  let mood_factor := get_mood_factor s in
  let energy_factor := get_energy_factor s in
  let mode_factor := mode_multipliers (activity_mode s) in
  let adjusted_rate := base_rate * time_factor * mood_factor * energy_factor * mode_factor in
  py_max 0.0 (py_min 1.0 adjusted_rate).

(** The random draws one call of [update_mood] may consume, in the order of
    the source: [random.uniform] for the energy change, [random.random] for
    the ladder gate, [random.choice] between TIRED and MELANCHOLY, then
    [random.random] for the natural change and the two draws of
    [_natural_mood_change]. *)
Record MoodDraws := {
  d_energy : Q;
  d_gate : Q;
  d_choice : bool;
  d_natural : Q;
  d_night : Q;
  d_option : bool
}.

(** [_natural_mood_change] *)
Definition _natural_mood_change (c : Clock) (d : MoodDraws) (s : ActivityState)
    : ActivityState :=
  let current_hour := hour c in
  if in_range current_hour 22 24 || in_range current_hour 0 6 then
    if Qltb (d_night d) 0.6 then
      let s := set_mood_state TIRED s in
      set_energy_level (py_max 0 (energy_level s - 10)) s
    else s
  else
    let mood_options :=
      if Qltb 70 (energy_level s) then (HAPPY, EXCITED)
      else if Qltb (energy_level s) 30 then (TIRED, MELANCHOLY)
      else (NEUTRAL, HAPPY) in
    set_mood_state (if d_option d then fst mood_options else snd mood_options) s.

(** [update_mood] *)
Definition update_mood (c : Clock) (d : MoodDraws) (interaction_type : string)
    (s : ActivityState) : ActivityState :=
  let s :=
    if String.eqb interaction_type "positive" then
      let s := set_daily_counters (conversation_count_today s)
                 (positive_interactions s + 1)%nat (negative_interactions s) s in
      let s := set_energy_level (py_min 100 (energy_level s + d_energy d)) s in
      match mood_state s with
      | TIRED | MELANCHOLY =>
          if Qltb (d_gate d) 0.3 then set_mood_state NEUTRAL s else s
      | NEUTRAL =>
          if Qltb (d_gate d) 0.4 then set_mood_state HAPPY s else s
      | HAPPY =>
          if Qltb (d_gate d) 0.2 then set_mood_state EXCITED s else s
      | EXCITED => s
      end
    else if String.eqb interaction_type "negative" then
      let s := set_daily_counters (conversation_count_today s)
                 (positive_interactions s) (negative_interactions s + 1)%nat s in
      let s := set_energy_level (py_max 0 (energy_level s - d_energy d)) s in
      match mood_state s with
      | HAPPY | EXCITED =>
          if Qltb (d_gate d) 0.4 then set_mood_state NEUTRAL s else s
      | NEUTRAL =>
          if Qltb (d_gate d) 0.3
          then set_mood_state (if d_choice d then TIRED else MELANCHOLY) s
          else s
      | TIRED | MELANCHOLY => s
      end
    else s in
  let time_since_last_change := hours_since c (last_mood_change s) in
  if Qltb 2 time_since_last_change then
    if Qltb (d_natural d) 0.1 then
      set_last_mood_change (now c) (_natural_mood_change c d s)
    else s
  else s.

(** [update_activity_mode] *)
Definition update_activity_mode (c : Clock) (s : ActivityState) : ActivityState :=
  let current_hour := hour c in
  let base_mode :=
    if in_range current_hour 22 24 || in_range current_hour 0 7 then SLEEPY
    else if in_range current_hour 7 12 then NORMAL
    else if in_range current_hour 12 18 then ENERGETIC
    else CALM in
  if MoodState_eqb (mood_state s) EXCITED && Qltb 80 (energy_level s) then
    set_activity_mode SOCIAL s
  else if MoodState_eqb (mood_state s) TIRED || Qltb (energy_level s) 20 then
    set_activity_mode SLEEPY s
  else if Qltb 75 (social_factor s) then
    set_activity_mode SOCIAL s
  else if (20 <? conversation_count_today s)%nat then
    set_activity_mode FOCUSED s
  else
    set_activity_mode base_mode s.

(** The draws of [daily_reset]: [random.uniform(20, 30)] and
    [random.random()]. *)
Record ResetDraws := {
  r_energy : Q;
  r_gate : Q
}.

(** [daily_reset] *)
Definition daily_reset (d : ResetDraws) (s : ActivityState) : ActivityState :=
  let s := set_daily_counters 0 0 0 s in
  let s :=
    if Qltb (energy_level s) 50
    then set_energy_level (py_min 100 (energy_level s + r_energy d)) s
    else s in
  if Qltb (r_gate d) 0.3 then set_mood_state NEUTRAL s else s.

(** ** performance monitors

    Two classes carry the name [PerformanceMonitor]: the one defined at the
    end of [bot_activity_manager.py] and the one of
    [performance_optimizer.py]. *)

(** [bot_activity_manager.PerformanceMonitor] *)
Record LoadMonitor := {
  cpu_usage : Q;
  memory_usage : Q;
  last_update : Q;
  high_load_threshold : Q;
  critical_load_threshold : Q
}.

Definition LoadMonitor_init (c : Clock) : LoadMonitor :=
  {| cpu_usage := 0.0; memory_usage := 0.0; last_update := now c;
     high_load_threshold := 80.0; critical_load_threshold := 95.0 |}.

(** What [psutil] reports when [update] samples the host. *)
Record LoadSample := {
  cpu_percent : Q;
  memory_percent : Q
}.

(** [PerformanceMonitor.update] *)
Definition LoadMonitor_update (c : Clock) (smp : LoadSample) (p : LoadMonitor)
    : LoadMonitor :=
  {| cpu_usage := cpu_percent smp; memory_usage := memory_percent smp;
     last_update := now c;
     high_load_threshold := high_load_threshold p;
     critical_load_threshold := critical_load_threshold p |}.

(** [PerformanceMonitor.is_high_load] *)
Definition is_high_load (p : LoadMonitor) : bool :=
  Qltb (high_load_threshold p) (cpu_usage p)
  || Qltb (high_load_threshold p) (memory_usage p).

(** [PerformanceMonitor.is_critical_load] *)
Definition is_critical_load (p : LoadMonitor) : bool :=
  Qltb (critical_load_threshold p) (cpu_usage p)
  || Qltb (critical_load_threshold p) (memory_usage p).

(** [performance_optimizer.PerformanceMonitor]: the [metrics] dictionary
    with its sample lists, the completed-task records [(task_name,
    execution_time)], the per-kind error counters and the active-task
    counter. *)
Record TaskMetrics := {
  cpu_samples : list (Q * Q);
  memory_samples : list (Q * Q);
  task_completion_times : list (string * Q);
  error_counts : gmap string nat;
  active_tasks_metric : Z
}.

Definition TaskMetrics_init : TaskMetrics :=
  {| cpu_samples := []; memory_samples := []; task_completion_times := [];
     error_counts := ∅; active_tasks_metric := 0 |}.

(** The methods each class defines. *)
Definition LoadMonitor_methods : list string :=
  ["update"; "is_high_load"; "is_critical_load"; "get_stats"]%string.

Definition TaskMetrics_methods : list string :=
  ["start_monitoring"; "stop_monitoring"; "_monitor_loop";
   "record_task_completion"; "record_error"; "get_performance_summary"]%string.

(** An object stored in [BotActivityManager.performance_monitor]. *)
Inductive MonitorObject :=
| OfLoadMonitor (p : LoadMonitor)
| OfTaskMetrics (p : TaskMetrics).

Definition methods_of (o : MonitorObject) : list string :=
  match o with
  | OfLoadMonitor _ => LoadMonitor_methods
  | OfTaskMetrics _ => TaskMetrics_methods
  end.

(** [hasattr(o, attr)] for the methods: whether the class of [o] defines
    [attr]. *)
Definition has_method (o : MonitorObject) (attr : string) : bool :=
  bool_decide (attr ∈ methods_of o).

(** [self.performance_monitor.update()]: the method of the first class;
    on an object of the second class the attribute lookup raises
    [AttributeError]. *)
Definition call_update (c : Clock) (smp : LoadSample) (o : MonitorObject)
    : result MonitorObject :=
  match o with
  | OfLoadMonitor p => Ok (OfLoadMonitor (LoadMonitor_update c smp p))
  | OfTaskMetrics _ => Raise (AttributeError "PerformanceMonitor" "update")
  end.

(** [self.performance_monitor.is_critical_load()] *)
Definition call_is_critical_load (o : MonitorObject) : result bool :=
  match o with
  | OfLoadMonitor p => Ok (is_critical_load p)
  | OfTaskMetrics _ => Raise (AttributeError "PerformanceMonitor" "is_critical_load")
  end.

(** [self.performance_monitor.is_high_load()] *)
Definition call_is_high_load (o : MonitorObject) : result bool :=
  match o with
  | OfLoadMonitor p => Ok (is_high_load p)
  | OfTaskMetrics _ => Raise (AttributeError "PerformanceMonitor" "is_high_load")
  end.

(** ** class BotActivityManager *)

(** The keys of the [bot_activity] configuration that [__init__] reads. *)
Record Config := {
  cfg_activity_rate_range : Q * Q;
  cfg_enable_offline_mode : bool;
  cfg_enable_mood_tracking : bool;
  cfg_enable_time_patterns : bool;
  cfg_rotation_enabled : bool;
  cfg_rotation_interval_minutes : Q;
  cfg_min_online_bots : nat;
  cfg_max_online_bots : nat
}.

(** The values [config.get] falls back to. *)
Definition default_config : Config :=
  {| cfg_activity_rate_range := (0.1, 0.6);
     cfg_enable_offline_mode := true;
     cfg_enable_mood_tracking := true;
     cfg_enable_time_patterns := true;
     cfg_rotation_enabled := true;
     cfg_rotation_interval_minutes := 60;
     cfg_min_online_bots := 2;
     cfg_max_online_bots := 3 |}.

Record BotActivityManager := {
  manager_bot_id : string;
  memory_db : bool;
  activity_rate_range : Q * Q;
  enable_offline_mode : bool;
  enable_mood_tracking : bool;
  enable_time_patterns : bool;
  enable_bot_rotation : bool;
  rotation_interval : Q;
  min_online_bots : nat;
  max_online_bots : nat;
  last_rotation : Q;
  bot_states : gmap string ActivityState;
  last_rate_change : Q;
  rate_change_interval : Q;
  last_daily_reset : Z;
  manager_activity_patterns : gmap string nat;
  performance_monitor : MonitorObject
}.

(** [BotActivityManager.__init__].  [interval_minutes] is the draw of
    [random.randint(10, 30)].  The monitor is built from the class that the
    constructor imports, [from .performance_optimizer import
    PerformanceMonitor]: inside [__init__] that import binds the name, so
    the class defined at the end of this module is not the one
    instantiated. *)
Definition BotActivityManager_init (c : Clock) (interval_minutes : Q)
    (cfg : Config) (bid : string) (db : bool) : BotActivityManager :=
  {| manager_bot_id := bid;
     memory_db := db;
     activity_rate_range := cfg_activity_rate_range cfg;
     enable_offline_mode := cfg_enable_offline_mode cfg;
     enable_mood_tracking := cfg_enable_mood_tracking cfg;
     enable_time_patterns := cfg_enable_time_patterns cfg;
     enable_bot_rotation := cfg_rotation_enabled cfg;
     rotation_interval := cfg_rotation_interval_minutes cfg * 60;
     min_online_bots := cfg_min_online_bots cfg;
     max_online_bots := cfg_max_online_bots cfg;
     last_rotation := now c;
     bot_states := ∅;
     last_rate_change := now c;
     rate_change_interval := interval_minutes * 60;
     last_daily_reset := today c;
     manager_activity_patterns := ∅;
     performance_monitor := OfTaskMetrics TaskMetrics_init |}.

Definition set_bot_states (bs : gmap string ActivityState) (m : BotActivityManager)
    : BotActivityManager :=
  {| manager_bot_id := manager_bot_id m; memory_db := memory_db m;
     activity_rate_range := activity_rate_range m;
     enable_offline_mode := enable_offline_mode m;
     enable_mood_tracking := enable_mood_tracking m;
     enable_time_patterns := enable_time_patterns m;
     enable_bot_rotation := enable_bot_rotation m;
     rotation_interval := rotation_interval m;
     min_online_bots := min_online_bots m; max_online_bots := max_online_bots m;
     last_rotation := last_rotation m;
     bot_states := bs;
     last_rate_change := last_rate_change m;
     rate_change_interval := rate_change_interval m;
     last_daily_reset := last_daily_reset m;
     manager_activity_patterns := manager_activity_patterns m;
     performance_monitor := performance_monitor m |}.

Definition set_last_rotation (t : Q) (m : BotActivityManager) : BotActivityManager :=
  {| manager_bot_id := manager_bot_id m; memory_db := memory_db m;
     activity_rate_range := activity_rate_range m;
     enable_offline_mode := enable_offline_mode m;
     enable_mood_tracking := enable_mood_tracking m;
     enable_time_patterns := enable_time_patterns m;
     enable_bot_rotation := enable_bot_rotation m;
     rotation_interval := rotation_interval m;
     min_online_bots := min_online_bots m; max_online_bots := max_online_bots m;
     last_rotation := t;
     bot_states := bot_states m;
     last_rate_change := last_rate_change m;
     rate_change_interval := rate_change_interval m;
     last_daily_reset := last_daily_reset m;
     manager_activity_patterns := manager_activity_patterns m;
     performance_monitor := performance_monitor m |}.

Definition set_rate_change (t interval : Q) (m : BotActivityManager) : BotActivityManager :=
  {| manager_bot_id := manager_bot_id m; memory_db := memory_db m;
     activity_rate_range := activity_rate_range m;
     enable_offline_mode := enable_offline_mode m;
     enable_mood_tracking := enable_mood_tracking m;
     enable_time_patterns := enable_time_patterns m;
     enable_bot_rotation := enable_bot_rotation m;
     rotation_interval := rotation_interval m;
     min_online_bots := min_online_bots m; max_online_bots := max_online_bots m;
     last_rotation := last_rotation m;
     bot_states := bot_states m;
     last_rate_change := t;
     rate_change_interval := interval;
     last_daily_reset := last_daily_reset m;
     manager_activity_patterns := manager_activity_patterns m;
     performance_monitor := performance_monitor m |}.

Definition set_last_daily_reset (d : Z) (m : BotActivityManager) : BotActivityManager :=
  {| manager_bot_id := manager_bot_id m; memory_db := memory_db m;
     activity_rate_range := activity_rate_range m;
     enable_offline_mode := enable_offline_mode m;
     enable_mood_tracking := enable_mood_tracking m;
     enable_time_patterns := enable_time_patterns m;
     enable_bot_rotation := enable_bot_rotation m;
     rotation_interval := rotation_interval m;
     min_online_bots := min_online_bots m; max_online_bots := max_online_bots m;
     last_rotation := last_rotation m;
     bot_states := bot_states m;
     last_rate_change := last_rate_change m;
     rate_change_interval := rate_change_interval m;
     last_daily_reset := d;
     manager_activity_patterns := manager_activity_patterns m;
     performance_monitor := performance_monitor m |}.

Definition set_manager_activity_patterns (p : gmap string nat) (m : BotActivityManager)
    : BotActivityManager :=
  {| manager_bot_id := manager_bot_id m; memory_db := memory_db m;
     activity_rate_range := activity_rate_range m;
     enable_offline_mode := enable_offline_mode m;
     enable_mood_tracking := enable_mood_tracking m;
     enable_time_patterns := enable_time_patterns m;
     enable_bot_rotation := enable_bot_rotation m;
     rotation_interval := rotation_interval m;
     min_online_bots := min_online_bots m; max_online_bots := max_online_bots m;
     last_rotation := last_rotation m;
     bot_states := bot_states m;
     last_rate_change := last_rate_change m;
     rate_change_interval := rate_change_interval m;
     last_daily_reset := last_daily_reset m;
     manager_activity_patterns := p;
     performance_monitor := performance_monitor m |}.

Definition set_performance_monitor (o : MonitorObject) (m : BotActivityManager)
    : BotActivityManager :=
  {| manager_bot_id := manager_bot_id m; memory_db := memory_db m;
     activity_rate_range := activity_rate_range m;
     enable_offline_mode := enable_offline_mode m;
     enable_mood_tracking := enable_mood_tracking m;
     enable_time_patterns := enable_time_patterns m;
     enable_bot_rotation := enable_bot_rotation m;
     rotation_interval := rotation_interval m;
     min_online_bots := min_online_bots m; max_online_bots := max_online_bots m;
     last_rotation := last_rotation m;
     bot_states := bot_states m;
     last_rate_change := last_rate_change m;
     rate_change_interval := rate_change_interval m;
     last_daily_reset := last_daily_reset m;
     manager_activity_patterns := manager_activity_patterns m;
     performance_monitor := o |}.

(** In-place mutation of the state object stored under [bid]. *)
Definition update_bot (bid : string) (f : ActivityState -> ActivityState)
    (m : BotActivityManager) : BotActivityManager :=
  set_bot_states (alter f bid (bot_states m)) m.

(** [for bot_id, state in self.bot_states.items(): state := f bot_id state] *)
Definition for_each_bot (f : string -> ActivityState -> ActivityState)
    (bs : gmap string ActivityState) : gmap string ActivityState :=
  map_imap (fun k s => Some (f k s)) bs.

(** The optional [custom_config] of [register_bot]: each key may be absent.
    [activity_patterns.update] overwrites the four time-of-day entries it
    names. *)
Record CustomConfig := {
  cc_preferred_active_hours : option (list nat);
  cc_sleep_schedule : option (nat * nat);
  cc_morning : option Q;
  cc_afternoon : option Q;
  cc_evening : option Q;
  cc_night : option Q
}.

Definition apply_custom_config (cc : CustomConfig) (s : ActivityState) : ActivityState :=
  let p := activity_patterns s in
  set_custom_config
    (default (preferred_active_hours s) (cc_preferred_active_hours cc))
    (default (sleep_schedule s) (cc_sleep_schedule cc))
    {| morning := default (morning p) (cc_morning cc);
       afternoon := default (afternoon p) (cc_afternoon cc);
       evening := default (evening p) (cc_evening cc);
       night := default (night p) (cc_night cc) |}
    s.

(** [register_bot]; [initial_rate] is the draw of [random.uniform] over the
    configured range. *)
Definition register_bot (c : Clock) (initial_rate : Q) (bid : string)
    (custom_config : option CustomConfig) (m : BotActivityManager)
    : BotActivityManager :=
  let state := ActivityState_init c bid initial_rate true (Some (now c)) in
  let state :=
    match custom_config with
    | Some cc => apply_custom_config cc state
    | None => state
    end in
  set_bot_states (<[bid := state]> (bot_states m)) m.

(** [_set_bot_offline]: the two assignments come first; the calls to the
    runtime and to the database that follow are inside the same [try] and
    do not touch the record. *)
Definition _set_bot_offline (c : Clock) (s : ActivityState) : ActivityState :=
  set_presence false (Some (now c)) s.

(** [_set_bot_online] *)
Definition _set_bot_online (c : Clock) (s : ActivityState) : ActivityState :=
  set_last_activity (now c) (set_presence true None s).

(** [for bot_id in sel: await self._set_bot_offline(bot_id, self.bot_states[bot_id])] *)
Definition bots_offline (c : Clock) (sel : list string)
    (bs : gmap string ActivityState) : gmap string ActivityState :=
  foldl (fun acc bid => alter (_set_bot_offline c) bid acc) bs sel.

(** [for bot_id in sel: await self._set_bot_online(bot_id, self.bot_states[bot_id])] *)
Definition bots_online (c : Clock) (sel : list string)
    (bs : gmap string ActivityState) : gmap string ActivityState :=
  foldl (fun acc bid => alter (_set_bot_online c) bid acc) bs sel.

(** [[bid for bid, state in self.bot_states.items() if state.is_active]] *)
Definition active_bots (bs : gmap string ActivityState) : list string :=
  (map_to_list (filter (fun kv => is_active kv.2 = true) bs)).*1.

(** [[bid for bid, state in self.bot_states.items() if not state.is_active]] *)
Definition inactive_bots (bs : gmap string ActivityState) : list string :=
  (map_to_list (filter (fun kv => is_active kv.2 = false) bs)).*1.

(** The number of online agents. *)
Definition online_count (bs : gmap string ActivityState) : nat :=
  length (active_bots bs).


(** [random.sample(population, k)] with the drawn selection [sel]; the
    library raises [ValueError] when the sample is larger than the
    population. *)
Definition random_sample (population : list string) (k : nat) (sel : list string)
    : result (list string) :=
  if (k <=? length population)%nat then Ok sel
  else Raise (ValueError "Sample larger than population or is negative").

(** [_check_daily_reset] *)
Definition _check_daily_reset (c : Clock) (d : string -> ResetDraws)
    (m : BotActivityManager) : BotActivityManager :=
  if (last_daily_reset m <? today c)%Z then
    let m := set_bot_states (for_each_bot (fun bid s => daily_reset (d bid) s) (bot_states m)) m in
    set_last_daily_reset (today c) m
  else m.

(** The energy decay at the end of the loop body of
    [_update_activity_states]. *)
Definition energy_decay (c : Clock) (s : ActivityState) : ActivityState :=
  let time_since_activity := hours_since c (last_activity s) in
  if Qltb 1 time_since_activity then
    let energy_decay := py_min (time_since_activity * 2) 10 in
    set_energy_level (py_max 0 (energy_level s - energy_decay)) s
  else s.

(** [_update_activity_states] *)
Definition _update_activity_states (c : Clock) (d : string -> MoodDraws)
    (m : BotActivityManager) : BotActivityManager :=
  set_bot_states
    (for_each_bot
       (fun bid s =>
          let s :=
            if enable_mood_tracking m
            then update_activity_mode c (update_mood c (d bid) "neutral" s)
            else s in
          energy_decay c s)
       (bot_states m))
    m.

(** The loop of [_update_activity_rates] over the items of [bot_states],
    in the order in which [items] lists them.  The base rate is assigned
    before the monitor is asked for the load, so the assignment of the bot
    being visited survives an exception of that call. *)
Fixpoint update_rates_loop (draw : string -> Q) (items : list (string * ActivityState))
    (m : BotActivityManager) : BotActivityManager * option exn :=
  match items with
  | [] => (m, None)
  | (bid, _) :: rest =>
      let base_rate := draw bid in
      let m := update_bot bid (set_activity_rate base_rate) m in
      match call_is_high_load (performance_monitor m) with
      | Raise e => (m, Some e)
      | Ok high =>
          let m :=
            if high
            then update_bot bid (fun s => set_activity_rate (activity_rate s * 0.7) s) m
            else m in
          update_rates_loop draw rest m
      end
  end.

(** [_update_activity_rates]; [next_minutes] is the draw of
    [random.randint(10, 30)].  Python visits the items of the dict in
    insertion order, which the map does not record: the loop is run on
    [map_to_list], and what is proved of this function holds of the loop
    in every order of its items. *)
Definition _update_activity_rates (c : Clock) (draw : string -> Q) (next_minutes : Q)
    (m : BotActivityManager) : BotActivityManager * option exn :=
  if Qltb (rate_change_interval m) (now c - last_rate_change m) then
    match update_rates_loop draw (map_to_list (bot_states m)) m with
    | (m, Some e) => (m, Some e)
    | (m, None) => (set_rate_change (now c) (next_minutes * 60) m, None)
    end
  else (m, None).

(** [f"{bot_id}_{current_hour}"] *)
Definition pattern_key (bid : string) (current_hour : nat) : string :=
  (bid ++ "_" ++ NilZero.string_of_uint (Nat.to_uint current_hour))%string.

(** [_apply_learned_patterns] *)
Definition _apply_learned_patterns (c : Clock) (patterns : gmap string nat)
    (bid : string) (s : ActivityState) : ActivityState :=
  match patterns !! pattern_key bid (hour c) with
  | Some activity_count =>
      if (10 <? activity_count)%nat then
        set_social_factor (py_min 100 (social_factor s + 5)) s
      else if (activity_count <? 3)%nat then
        set_social_factor (py_max 0 (social_factor s - 2)) s
      else s
  | None => s
  end.

(** One iteration of the loop of [_learn_activity_patterns]. *)
Definition learn_one (c : Clock) (m : BotActivityManager) (bid : string)
    : BotActivityManager :=
  match bot_states m !! bid with
  | Some s =>
      if (0 <? conversation_count_today s)%nat then
        let key := pattern_key bid (hour c) in
        let patterns := manager_activity_patterns m in
        let count := default 0%nat (patterns !! key) in
        let m := set_manager_activity_patterns (<[key := S count]> patterns) m in
        update_bot bid (_apply_learned_patterns c (manager_activity_patterns m) bid) m
      else m
  | None => m
  end.

(** [_learn_activity_patterns] *)
Definition _learn_activity_patterns (c : Clock) (m : BotActivityManager)
    : BotActivityManager :=
  if negb (memory_db m) then m
  else foldl (learn_one c) m (map_to_list (bot_states m)).*1.

(** The body of the loop of [_emergency_scale_down]. *)
Definition emergency_offline (c : Clock) (s : ActivityState) : ActivityState :=
  let s := set_energy_level (py_max 0 (energy_level s - 30)) s in
  let s := set_mood_state TIRED s in
  _set_bot_offline c s.

(** [_emergency_scale_down]; [sel] is the draw of [random.sample]. *)
Definition _emergency_scale_down (c : Clock) (sel : list string)
    (m : BotActivityManager) : BotActivityManager * option exn :=
  let active := active_bots (bot_states m) in
  if (1 <? length active)%nat then
    match random_sample active (length active / 2)%nat sel with
    | Ok bots_to_offline =>
        (set_bot_states
           (foldl (fun acc bid => alter (emergency_offline c) bid acc)
              (bot_states m) bots_to_offline) m, None)
    | Raise e => (m, Some e)
    end
  else (m, None).

(** [_monitor_performance] *)
Definition _monitor_performance (c : Clock) (smp : LoadSample) (sel : list string)
    (m : BotActivityManager) : BotActivityManager * option exn :=
  match call_update c smp (performance_monitor m) with
  | Raise e => (m, Some e)
  | Ok o =>
      let m := set_performance_monitor o m in
      match call_is_critical_load (performance_monitor m) with
      | Raise e => (m, Some e)
      | Ok true => _emergency_scale_down c sel m
      | Ok false => (m, None)
      end
  end.

(** [_manage_offline_bots]; [draw bid] is the [random.random()] of the
    iteration for [bid]. *)
Definition _manage_offline_bots (c : Clock) (draw : string -> Q)
    (m : BotActivityManager) : BotActivityManager :=
  if negb (enable_offline_mode m) then m
  else
    set_bot_states
      (for_each_bot
         (fun bid s =>
            let adjusted_rate :=
              if enable_time_patterns m then get_adjusted_activity_rate c s
              else activity_rate s in
            if negb (enable_bot_rotation m) then
              if Qltb adjusted_rate (draw bid) then
                if is_active s then _set_bot_offline c s else s
              else
                if negb (is_active s) then _set_bot_online c s else s
            else s)
         (bot_states m))
      m.

(** The draws of [_rotate_online_bots]: the selection among the online
    agents, the selection among the offline agents and
    [random.randint(1, 2)]. *)
Record RotationDraws := {
  rot_offline : list string;
  rot_online : list string;
  rot_randint : nat
}.

(** What a rotation leaves to be observed, in the order in which it
    happens: the calls of [_set_bot_offline] and [_set_bot_online], and the
    [asyncio.sleep] between the two loops of a swap. *)
Inductive PresenceEvent :=
| SetOffline (bid : string)
| Sleep (seconds : Q)
| SetOnline (bid : string).

(** [_rotate_online_bots]: the manager it leaves and the presence events
    it went through.  An exception inside the [try] is logged and the step
    returns. *)
Definition _rotate_online_bots (c : Clock) (d : RotationDraws)
    (m : BotActivityManager) : BotActivityManager * list PresenceEvent :=
  if negb (enable_bot_rotation m) || negb (enable_offline_mode m) then (m, [])
  else if Qltb (now c - last_rotation m) (rotation_interval m) then (m, [])
  else
    let m := set_last_rotation (now c) m in
    let active := active_bots (bot_states m) in
    let inactive := inactive_bots (bot_states m) in
    if (max_online_bots m <? length active)%nat then
      let num_to_offline := (length active - max_online_bots m)%nat in
      match random_sample active num_to_offline (rot_offline d) with
      | Ok bots_to_offline =>
          (set_bot_states (bots_offline c bots_to_offline (bot_states m)) m,
           SetOffline <$> bots_to_offline)
      | Raise _ => (m, [])
      end
    else if (length active <? min_online_bots m)%nat
            && negb (bool_decide (inactive = [])) then
      let num_to_online :=
        Nat.min (length inactive) (min_online_bots m - length active) in
      match random_sample inactive num_to_online (rot_online d) with
      | Ok bots_to_online =>
          (set_bot_states (bots_online c bots_to_online (bot_states m)) m,
           SetOnline <$> bots_to_online)
      | Raise _ => (m, [])
      end
    else if negb (bool_decide (inactive = [])) then
      let num_to_rotate :=
        Nat.min (Nat.min (length active) (length inactive)) (rot_randint d) in
      match random_sample active num_to_rotate (rot_offline d) with
      | Ok active_to_offline =>
          match random_sample inactive num_to_rotate (rot_online d) with
          | Ok inactive_to_online =>
              let bs := bots_offline c active_to_offline (bot_states m) in
              let bs := bots_online c inactive_to_online bs in
              (set_bot_states bs m,
               (SetOffline <$> active_to_offline) ++ [Sleep 5]
               ++ (SetOnline <$> inactive_to_online))
          | Raise _ => (m, [])
          end
      | Raise _ => (m, [])
      end
    else (m, []).



(** [update_bot_activity]; [user_count] is [context.get('user_count', 1)]
    when a non-empty context is passed, [energy_draw] is
    [random.uniform(1, 3)]. *)
Definition update_bot_activity (c : Clock) (d : MoodDraws) (energy_draw : Q)
    (bid : string) (interaction_type : string) (user_count : option Z)
    (m : BotActivityManager) : BotActivityManager :=
  update_bot bid
    (fun s =>
       let s := set_last_activity (now c) s in
       let s := set_total_messages (total_messages s + 1)%nat s in
       let s := set_daily_counters (conversation_count_today s + 1)%nat
                  (positive_interactions s) (negative_interactions s) s in
       let s := if enable_mood_tracking m then update_mood c d interaction_type s else s in
       let s :=
         match user_count with
         | Some n =>
             if (2 <? n)%Z then set_social_factor (py_min 100 (social_factor s + 2)) s
             else s
         | None => s
         end in
       if String.eqb interaction_type "positive"
       then set_energy_level (py_min 100 (energy_level s + energy_draw)) s
       else s)
    m.

(** [on_user_interaction]; [energy_draw] is [random.uniform(3, 8)]. *)
Definition on_user_interaction (c : Clock) (d : MoodDraws) (energy_draw : Q)
    (interaction_type : string) (m : BotActivityManager) : BotActivityManager :=
  update_bot (manager_bot_id m)
    (fun s =>
       let s := set_last_activity (now c) s in
       let s := set_total_messages (total_messages s + 1)%nat s in
       let s := set_daily_counters (conversation_count_today s + 1)%nat
                  (positive_interactions s) (negative_interactions s) s in
       let s := if enable_mood_tracking m then update_mood c d interaction_type s else s in
       set_energy_level (py_min 100 (energy_level s + energy_draw)) s)
    m.

(** [on_spontaneous_speech]; [energy_draw] is [random.uniform(1, 3)]. *)
Definition on_spontaneous_speech (c : Clock) (energy_draw : Q)
    (m : BotActivityManager) : BotActivityManager :=
  update_bot (manager_bot_id m)
    (fun s =>
       let s := set_last_activity (now c) s in
       let s := set_total_messages (total_messages s + 1)%nat s in
       set_energy_level (py_max 0 (energy_level s - energy_draw)) s)
    m.

(** [force_mood_change] *)
Definition force_mood_change (c : Clock) (bid : string) (new_mood : MoodState)
    (energy_change : Q) (m : BotActivityManager) : BotActivityManager :=
  update_bot bid
    (fun s =>
       let s := set_mood_state new_mood s in
       let s := set_energy_level (py_max 0 (py_min 100 (energy_level s + energy_change))) s in
       set_last_mood_change (now c) s)
    m.

(** ** start_management_loop *)

(** What one pass of the loop leaves behind: the step functions it entered,
    the [logger.error] of the handler and the [asyncio.sleep]. *)
Inductive LoopEvent :=
| Called (name : string)
| LoggedError (e : exn)
| Slept (seconds : Q).

Section ManagementLoop.
Context {St : Type}.

(** A step returns the state it leaves and the exception it raised, if
    any. *)
Definition Step : Type := St -> St * option exn.

(** The statements of the [try] block, in order: the first exception
    leaves the block. *)
Fixpoint run_steps (steps : list (string * Step)) (s : St)
    : St * list LoopEvent * option exn :=
  match steps with
  | [] => (s, [], None)
  | (name, f) :: rest =>
      match f s with
      | (s', Some e) => (s', [Called name], Some e)
      | (s', None) =>
          let '(s'', tr, r) := run_steps rest s' in
          (s'', Called name :: tr, r)
      end
  end.

(** One pass of [while True]: the [try] block ending in
    [asyncio.sleep(60)], or the handler that logs and sleeps. *)
Definition tick (steps : list (string * Step)) (s : St) : St * list LoopEvent :=
  match run_steps steps s with
  | (s', tr, None) => (s', tr ++ [Slept 60])
  | (s', tr, Some e) => (s', tr ++ [LoggedError e; Slept 60])
  end.

(** The first [n] passes of the loop; [steps_at i] are the steps of pass
    [i] with the clock reading and the draws of that pass. *)
Fixpoint management_loop (n : nat) (steps_at : nat -> list (string * Step))
    (i : nat) (s : St) : St * list LoopEvent :=
  match n with
  | O => (s, [])
  | S n' =>
      let '(s', tr) := tick (steps_at i) s in
      let '(s'', tr') := management_loop n' steps_at (S i) s' in
      (s'', tr ++ tr')
  end.
End ManagementLoop.

(** The clock reading and the draws of one pass. *)
Record TickInput := {
  t_clock : Clock;
  t_reset : string -> ResetDraws;
  t_mood : string -> MoodDraws;
  t_rate : string -> Q;
  t_next_minutes : Q;
  t_toggle : string -> Q;
  t_rotation : RotationDraws;
  t_load : LoadSample;
  t_emergency : list string
}.

(** A step that has no way to raise in the model. *)
Definition total_step (f : BotActivityManager -> BotActivityManager)
    : @Step BotActivityManager :=
  fun m => (f m, None).

(** The seven calls of the [try] block of [start_management_loop]. *)
Definition management_steps (i : TickInput)
    : list (string * @Step BotActivityManager) :=
  [ ("_check_daily_reset"%string, total_step (_check_daily_reset (t_clock i) (t_reset i)));
    ("_update_activity_states"%string, total_step (_update_activity_states (t_clock i) (t_mood i)));
    ("_update_activity_rates"%string, _update_activity_rates (t_clock i) (t_rate i) (t_next_minutes i));
    ("_manage_offline_bots"%string, total_step (_manage_offline_bots (t_clock i) (t_toggle i)));
    ("_rotate_online_bots"%string,
     total_step (fun m => (_rotate_online_bots (t_clock i) (t_rotation i) m).1));
    ("_monitor_performance"%string, _monitor_performance (t_clock i) (t_load i) (t_emergency i));
    ("_learn_activity_patterns"%string, total_step (_learn_activity_patterns (t_clock i))) ].

(** [start_management_loop], first [n] passes. *)
Definition start_management_loop (n : nat) (inputs : nat -> TickInput)
    (m : BotActivityManager) : BotActivityManager * list LoopEvent :=
  management_loop n (fun i => management_steps (inputs i)) 0 m.

(** ** performance_optimizer.py *)

Module TaskPriority.
Inductive t := LOW | NORMAL | HIGH | CRITICAL.

Definition value (p : t) : Z :=
  match p with
  | LOW => 1
  | NORMAL => 2
  | HIGH => 3
  | CRITICAL => 4
  end.
End TaskPriority.

(** The dataclass [TaskInfo]. *)
Record TaskInfo := {
  task_id : string;
  task_name : string;
  priority : TaskPriority.t;
  created_at : Q;
  timeout : option Q;
  retry_count : nat;
  max_retries : nat
}.

(** [task_info.retry_count += 1] *)
Definition incr_retry_count (i : TaskInfo) : TaskInfo :=
  {| task_id := task_id i; task_name := task_name i; priority := priority i;
     created_at := created_at i; timeout := timeout i;
     retry_count := S (retry_count i); max_retries := max_retries i |}.

(** How one run of a task body under [asyncio.wait_for] ends: it returns,
    it ends in [asyncio.TimeoutError], in another [Exception], or in
    [asyncio.CancelledError] (or another [BaseException] that is not an
    [Exception]), which passes both handlers of [_execute_task] and the
    handler of [_worker_loop]. *)
Inductive Outcome :=
| Completes (execution_time : Q)
| TimesOut
| Fails (e : exn)
| Cancelled.

(** A submitted callable with its arguments, seen through what its runs do:
    the argument is the number of earlier runs of the same submission. *)
Definition TaskFunc : Type := nat -> Outcome.

(** The tuple [(priority_value, task_id, task_func, args, kwargs,
    task_info)] put on the queue. *)
Record QueueItem := {
  priority_value : Z;
  item_id : string;
  task_func : TaskFunc;
  task_info : TaskInfo
}.

(** The order of the tuples as far as their first two components decide
    it: the number, then the string.  Two tuples that agree on both are
    not ordered by it: Python then goes on to compare the callables and
    the [TaskInfo] objects, which have no order ([TypeError]). *)
Definition item_ltb (a b : QueueItem) : bool :=
  (priority_value a <? priority_value b)%Z
  || ((priority_value a =? priority_value b)%Z && String.ltb (item_id a) (item_id b)).

(** [asyncio.PriorityQueue], by the contract of the library: the entries
    are mutually comparable, and they are retrieved lowest first.  The
    pending entries are kept in ascending order.  The contract covers
    queues whose entries differ in priority or task id ([distinct_ids]
    below is what the theorems on the order and on the fate of single
    tasks assume, and [entries_never_tie] shows that it is enough); for
    two entries that agree on both, which the library cannot order, the
    position given here (behind the pending one) stands for no behaviour
    of the program. *)
Fixpoint queue_put (x : QueueItem) (q : list QueueItem) : list QueueItem :=
  match q with
  | [] => [x]
  | y :: q' => if item_ltb x y then x :: y :: q' else y :: queue_put x q'
  end.

Definition queue_get (q : list QueueItem) : option (QueueItem * list QueueItem) :=
  match q with
  | [] => None
  | x :: q' => Some (x, q')
  end.

(** The log records of the task manager. *)
Inductive LogRecord :=
| LogSubmitted (id : string)
| LogStart (id : string)
| LogDone (id : string) (execution_time : Q)
| LogTimeout (id : string) (limit : Q)
| LogRetry (id : string) (attempt : nat)
| LogError (id : string) (e : exn).

(** Where the worker coroutine is suspended, or that it has ended: a
    [CancelledError] out of a task body leaves [while self.is_running]. *)
Inductive WorkerState :=
| Waiting
| Acquiring (item : QueueItem)
| Executing (item : QueueItem)
| Ended.

Record AsyncTaskManager := {
  max_concurrent_tasks : nat;
  active_tasks : gmap string TaskInfo;
  task_queue : list QueueItem;
  semaphore : nat;
  metrics : TaskMetrics;
  is_running : bool;
  worker_task : option WorkerState;
  log : list LogRecord
}.

(** [AsyncTaskManager.__init__] *)
Definition AsyncTaskManager_init (max_concurrent : nat) : AsyncTaskManager :=
  {| max_concurrent_tasks := max_concurrent;
     active_tasks := ∅;
     task_queue := [];
     semaphore := max_concurrent;
     metrics := TaskMetrics_init;
     is_running := false;
     worker_task := None;
     log := [] |}.

(** [start] *)
Definition start (st : AsyncTaskManager) : AsyncTaskManager :=
  if is_running st then st
  else
    {| max_concurrent_tasks := max_concurrent_tasks st;
       active_tasks := active_tasks st;
       task_queue := task_queue st;
       semaphore := semaphore st;
       metrics := metrics st;
       is_running := true;
       worker_task := Some Waiting;
       log := log st |}.

(** [record_task_completion] *)
Definition record_task_completion (name : string) (execution_time : Q)
    (p : TaskMetrics) : TaskMetrics :=
  {| cpu_samples := cpu_samples p; memory_samples := memory_samples p;
     task_completion_times := task_completion_times p ++ [(name, execution_time)];
     error_counts := error_counts p;
     active_tasks_metric := active_tasks_metric p |}.

(** [record_error] *)
Definition record_error (error_type : string) (p : TaskMetrics) : TaskMetrics :=
  {| cpu_samples := cpu_samples p; memory_samples := memory_samples p;
     task_completion_times := task_completion_times p;
     error_counts :=
       <[error_type := S (default 0%nat (error_counts p !! error_type))]> (error_counts p);
     active_tasks_metric := active_tasks_metric p |}.

(** [self.performance_monitor.metrics['active_tasks'] += n] *)
Definition add_active_metric (n : Z) (p : TaskMetrics) : TaskMetrics :=
  {| cpu_samples := cpu_samples p; memory_samples := memory_samples p;
     task_completion_times := task_completion_times p;
     error_counts := error_counts p;
     active_tasks_metric := (active_tasks_metric p + n)%Z |}.

(** The arguments of one call of [submit_task], with the two clock
    readings it takes: [int(time.time() * 1000)] and [datetime.now()]. *)
Record Submission := {
  sub_func : TaskFunc;
  sub_name : string;
  sub_priority : TaskPriority.t;
  sub_timeout : option Q;
  sub_millis : N;
  sub_now : Q
}.

(** [f"{task_name}_{int(time.time() * 1000)}"] *)
Definition make_task_id (name : string) (millis : N) : string :=
  (name ++ "_" ++ NilZero.string_of_uint (N.to_uint millis))%string.

(** [submit_task]: returns the task id and the manager with the entry
    queued. *)
Definition submit_task (s : Submission) (st : AsyncTaskManager)
    : string * AsyncTaskManager :=
  let id := make_task_id (sub_name s) (sub_millis s) in
  let info :=
    {| task_id := id; task_name := sub_name s; priority := sub_priority s;
       created_at := sub_now s; timeout := sub_timeout s;
       retry_count := 0; max_retries := 3 |} in
  let priority_value := (- TaskPriority.value (sub_priority s))%Z in
  let item :=
    {| priority_value := priority_value; item_id := id;
       task_func := sub_func s; task_info := info |} in
  (id,
   {| max_concurrent_tasks := max_concurrent_tasks st;
      active_tasks := active_tasks st;
      task_queue := queue_put item (task_queue st);
      semaphore := semaphore st;
      metrics := metrics st;
      is_running := is_running st;
      worker_task := worker_task st;
      log := log st ++ [LogSubmitted id] |}).

(** [task_info.timeout or 30.0] *)
Definition effective_timeout (i : TaskInfo) : Q :=
  match timeout i with
  | Some t => if Qeq_bool t 0 then 30.0 else t
  | None => 30.0
  end.

(** [_execute_task] up to the point where it awaits the task body: the
    entry in [active_tasks], the counter and the start record. *)
Definition execute_begin (item : QueueItem) (st : AsyncTaskManager) : AsyncTaskManager :=
  {| max_concurrent_tasks := max_concurrent_tasks st;
     active_tasks := <[item_id item := task_info item]> (active_tasks st);
     task_queue := task_queue st;
     semaphore := semaphore st;
     metrics := add_active_metric 1 (metrics st);
     is_running := is_running st;
     worker_task := worker_task st;
     log := log st ++ [LogStart (item_id item)] |}.

(** [_execute_task] from the end of the awaited body: the three ways out of
    the [try] that the function handles and the one it does not (a
    [CancelledError] is recorded nowhere), then the [finally] block. *)
Definition execute_finish (item : QueueItem) (st : AsyncTaskManager) : AsyncTaskManager :=
  let info := task_info item in
  let id := item_id item in
  let '(queue, mtr, records) :=
    match task_func item (retry_count info) with
    | Completes execution_time =>
        (task_queue st,
         record_task_completion (task_name info) execution_time (metrics st),
         [LogDone id execution_time])
    | TimesOut =>
        let mtr := record_error "timeout" (metrics st) in
        if (retry_count info <? max_retries info)%nat then
          let info := incr_retry_count info in
          let again :=
            {| priority_value := (- TaskPriority.value (priority info))%Z;
               item_id := id; task_func := task_func item; task_info := info |} in
          (queue_put again (task_queue st), mtr,
           [LogTimeout id (effective_timeout info); LogRetry id (retry_count info)])
        else
          (task_queue st, mtr, [LogTimeout id (effective_timeout info)])
    | Fails e =>
        (task_queue st, record_error "execution_error" (metrics st), [LogError id e])
    | Cancelled => (task_queue st, metrics st, [])
    end in
  {| max_concurrent_tasks := max_concurrent_tasks st;
     active_tasks := delete id (active_tasks st);
     task_queue := queue;
     semaphore := semaphore st;
     metrics := add_active_metric (-1) mtr;
     is_running := is_running st;
     worker_task := worker_task st;
     log := log st ++ records |}.

(** [_execute_task] as one call. *)
Definition _execute_task (item : QueueItem) (st : AsyncTaskManager) : AsyncTaskManager :=
  execute_finish item (execute_begin item st).

Definition set_worker (w : WorkerState) (queue : list QueueItem) (permits : nat)
    (st : AsyncTaskManager) : AsyncTaskManager :=
  {| max_concurrent_tasks := max_concurrent_tasks st;
     active_tasks := active_tasks st;
     task_queue := queue;
     semaphore := permits;
     metrics := metrics st;
     is_running := is_running st;
     worker_task := Some w;
     log := log st |}.

(** One resumption of [_worker_loop]:
    - waiting on [task_queue.get()]: an entry is taken, or the one-second
      wait expires and the loop goes round;
    - waiting on the semaphore: with a free permit the worker enters
      [_execute_task] and suspends on the task body;
    - suspended on the task body: the body ends, [_execute_task] finishes,
      the permit is released ([async with]) and the loop goes round, or,
      when the body ended in [CancelledError], the coroutine ends with
      [is_running] still set;
    - ended: nothing more happens. *)
Definition worker_step (st : AsyncTaskManager) : AsyncTaskManager :=
  match worker_task st with
  | None => st
  | Some Waiting =>
      if is_running st then
        match queue_get (task_queue st) with
        | Some (item, rest) => set_worker (Acquiring item) rest (semaphore st) st
        | None => st
        end
      else st
  | Some (Acquiring item) =>
      match semaphore st with
      | O => st
      | S permits =>
          execute_begin item (set_worker (Executing item) (task_queue st) permits st)
      end
  | Some (Executing item) =>
      let next :=
        match task_func item (retry_count (task_info item)) with
        | Cancelled => Ended
        | _ => Waiting
        end in
      let st := execute_finish item st in
      set_worker next (task_queue st) (S (semaphore st)) st
  | Some Ended => st
  end.

(** What can happen to a task manager: a caller submits, or the worker is
    resumed. *)
Inductive EngineEvent :=
| EvStart
| EvSubmit (s : Submission)
| EvWorker.

Definition engine_step (st : AsyncTaskManager) (e : EngineEvent) : AsyncTaskManager :=
  match e with
  | EvStart => start st
  | EvSubmit s => snd (submit_task s st)
  | EvWorker => worker_step st
  end.

Definition engine_run (st : AsyncTaskManager) (es : list EngineEvent) : AsyncTaskManager :=
  foldl engine_step st es.

(** The ids whose body was started, in order. *)
Definition started (l : list LogRecord) : list string :=
  omap (fun r => match r with LogStart id => Some id | _ => None end) l.

(** How many times the body of [id] was started. *)
Definition attempts (id : string) (l : list LogRecord) : nat :=
  length (filter (fun x => x = id) (started l)).

(** [error_counts.get(kind, 0)] *)
Definition error_count (kind : string) (st : AsyncTaskManager) : nat :=
  default 0%nat (error_counts (metrics st) !! kind).

(** ** Vocabulary of the specification *)

(** The clamp of the specification, on the library's [Qmin]/[Qmax]. *)
Definition clamp01 (x : Q) : Q := Qmax 0 (Qmin 1 x).

(** The mode table as the specification lists it. *)
Definition modeFactor (m : ActivityMode) : Q :=
  match m with
  | NORMAL => 1
  | ENERGETIC => 13 # 10
  | CALM => 4 # 5
  | SLEEPY => 2 # 5
  | SOCIAL => 3 # 2
  | FOCUSED => 9 # 10
  end.

(** The keys of the agents that are online, and of those that are offline. *)
Definition online_set (bs : gmap string ActivityState) : gset string :=
  dom (filter (fun kv => is_active kv.2 = true) bs).


(** The rotation step gets past its two guards: rotation and offline mode
    are enabled and the rotation interval has elapsed. *)
Definition rotation_runs (c : Clock) (m : BotActivityManager) : Prop :=
  enable_bot_rotation m = true /\ enable_offline_mode m = true
  /\ Qltb (now c - last_rotation m)%Q (rotation_interval m) = false.

(** ** Concrete inputs *)

Definition noon : Clock := {| now := 0; hour := 12; today := 0 |}.

Definition one_hour_later : Clock := {| now := 3600; hour := 13; today := 0 |}.

(** A manager built with the default configuration and a database. *)
Definition fresh_manager : BotActivityManager :=
  BotActivityManager_init noon 20 default_config "a" true.

(** Four agents registered, all online. *)
Definition four_online : BotActivityManager :=
  register_bot noon 0.5 "d" None
    (register_bot noon 0.5 "c" None
       (register_bot noon 0.5 "b" None
          (register_bot noon 0.5 "a" None fresh_manager))).

(** The same pool with agent d taken offline. *)
Definition three_online : BotActivityManager :=
  update_bot "d" (_set_bot_offline noon) four_online.

Definition take_b_offline : RotationDraws :=
  {| rot_offline := ["b"%string]; rot_online := []; rot_randint := 1 |}.


(** The names of the step functions a trace entered, and the number of
    sleeps it contains. *)
Definition called (tr : list LoopEvent) : list string :=
  omap (fun ev => match ev with Called name => Some name | _ => None end) tr.

Definition sleeps (tr : list LoopEvent) : nat :=
  length (omap (fun ev => match ev with Slept t => Some t | _ => None end) tr).

(** Per-step fault isolation as the specification words it: whatever
    happens, every step of the pass is entered. *)
Definition every_step_runs {St : Type} (steps : list (string * @Step St)) (s : St) : Prop :=
  forall name, name ∈ steps.*1 -> name ∈ called (tick steps s).2.

Definition calm_mood_draws : MoodDraws :=
  {| d_energy := 3; d_gate := 0.9; d_choice := true;
     d_natural := 0.9; d_night := 0.9; d_option := true |}.

Definition calm_reset_draws : ResetDraws := {| r_energy := 25; r_gate := 0.9 |}.

Definition no_rotation_draws : RotationDraws :=
  {| rot_offline := []; rot_online := []; rot_randint := 1 |}.

(** A pass at noon on a host under critical load (CPU at 96 percent). *)
Definition critical_tick : TickInput :=
  {| t_clock := noon;
     t_reset := fun _ => calm_reset_draws;
     t_mood := fun _ => calm_mood_draws;
     t_rate := fun _ => 0.3;
     t_next_minutes := 15;
     t_toggle := fun _ => 0.5;
     t_rotation := no_rotation_draws;
     t_load := {| cpu_percent := 96; memory_percent := 50 |};
     t_emergency := ["a"%string; "b"%string] |}.

(** The pool of four after agent a has talked once today. *)
Definition four_online_talking : BotActivityManager :=
  update_bot_activity noon calm_mood_draws 2 "a" "neutral" None four_online.

(** ** Everything that mutates the agent map *)

(** The calls through which a [BotActivityManager] changes: registration,
    the two presence transitions, a whole pass of the loop, each of its
    steps on its own, the emergency routine, and the callbacks. *)
Inductive ManagerOp :=
| OpRegisterBot (c : Clock) (initial_rate : Q) (bid : string) (cc : option CustomConfig)
| OpSetBotOffline (c : Clock) (bid : string)
| OpSetBotOnline (c : Clock) (bid : string)
| OpTick (i : TickInput)
| OpCheckDailyReset (c : Clock) (d : string -> ResetDraws)
| OpUpdateActivityStates (c : Clock) (d : string -> MoodDraws)
| OpUpdateActivityRates (c : Clock) (draw : string -> Q) (next_minutes : Q)
| OpManageOfflineBots (c : Clock) (draw : string -> Q)
| OpRotateOnlineBots (c : Clock) (d : RotationDraws)
| OpMonitorPerformance (c : Clock) (smp : LoadSample) (sel : list string)
| OpEmergencyScaleDown (c : Clock) (sel : list string)
| OpLearnActivityPatterns (c : Clock)
| OpUpdateBotActivity (c : Clock) (d : MoodDraws) (energy_draw : Q) (bid : string)
    (interaction_type : string) (user_count : option Z)
| OpOnUserInteraction (c : Clock) (d : MoodDraws) (energy_draw : Q)
    (interaction_type : string)
| OpOnSpontaneousSpeech (c : Clock) (energy_draw : Q)
| OpForceMoodChange (c : Clock) (bid : string) (new_mood : MoodState) (energy_change : Q).

Definition apply_op (m : BotActivityManager) (op : ManagerOp) : BotActivityManager :=
  match op with
  | OpRegisterBot c r bid cc => register_bot c r bid cc m
  | OpSetBotOffline c bid => update_bot bid (_set_bot_offline c) m
  | OpSetBotOnline c bid => update_bot bid (_set_bot_online c) m
  | OpTick i => (tick (management_steps i) m).1
  | OpCheckDailyReset c d => _check_daily_reset c d m
  | OpUpdateActivityStates c d => _update_activity_states c d m
  | OpUpdateActivityRates c draw next => (_update_activity_rates c draw next m).1
  | OpManageOfflineBots c draw => _manage_offline_bots c draw m
  | OpRotateOnlineBots c d => (_rotate_online_bots c d m).1
  | OpMonitorPerformance c smp sel => (_monitor_performance c smp sel m).1
  | OpEmergencyScaleDown c sel => (_emergency_scale_down c sel m).1
  | OpLearnActivityPatterns c => _learn_activity_patterns c m
  | OpUpdateBotActivity c d e bid it uc => update_bot_activity c d e bid it uc m
  | OpOnUserInteraction c d e it => on_user_interaction c d e it m
  | OpOnSpontaneousSpeech c e => on_spontaneous_speech c e m
  | OpForceMoodChange c bid mood change => force_mood_change c bid mood change m
  end.

Definition run_ops (m : BotActivityManager) (ops : list ManagerOp) : BotActivityManager :=
  foldl apply_op m ops.

(** [random.uniform(lo, hi)] returns a number between its bounds. *)
Definition uniform (lo hi d : Q) : Prop := lo <= d <= hi.

(** The energy draw of [update_mood] comes from [uniform(2, 5)] on a
    positive interaction and from [uniform(3, 7)] on a negative one. *)
Definition mood_draws_ok (interaction_type : string) (d : MoodDraws) : Prop :=
  (interaction_type = "positive"%string -> uniform 2 5 (d_energy d))
  /\ (interaction_type = "negative"%string -> uniform 3 7 (d_energy d)).

(** The [random.uniform] draws of an operation lie in the ranges the source
    passes. *)
Definition op_draws_ok (op : ManagerOp) : Prop :=
  match op with
  | OpTick i => forall bid, uniform 20 30 (r_energy (t_reset i bid))
  | OpCheckDailyReset _ d => forall bid, uniform 20 30 (r_energy (d bid))
  | OpUpdateBotActivity _ d e _ it _ => mood_draws_ok it d /\ uniform 1 3 e
  | OpOnUserInteraction _ d e it => mood_draws_ok it d /\ uniform 3 8 e
  | OpOnSpontaneousSpeech _ e => uniform 1 3 e
  | _ => True
  end.

(** Energy and social factor within their range. *)
Definition levels_in_range (s : ActivityState) : Prop :=
  (0 <= energy_level s <= 100) /\ (0 <= social_factor s <= 100).

(** Offline exactly when [offline_since] is set. *)
Definition presence_consistent (s : ActivityState) : Prop :=
  is_active s = false <-> offline_since s <> None.

(** A property of every registered agent. *)
Definition all_bots (P : ActivityState -> Prop) (m : BotActivityManager) : Prop :=
  forall k s, bot_states m !! k = Some s -> P s.

Definition lively_mood_draws : MoodDraws :=
  {| d_energy := 4; d_gate := 0.1; d_choice := true;
     d_natural := 0.05; d_night := 0.5; d_option := false |}.

(** A day in the life of agent a: praise in a group, a rebuke, a remark of
    its own, an emergency, a learning step, a daily reset and a whole pass
    of the loop. *)
Definition busy_day : list ManagerOp :=
  [ OpRegisterBot noon 0.5 "a" None;
    OpRegisterBot noon 0.4 "b" None;
    OpUpdateBotActivity one_hour_later lively_mood_draws 2 "a" "positive" (Some 3%Z);
    OpOnUserInteraction one_hour_later lively_mood_draws 8 "negative";
    OpOnSpontaneousSpeech one_hour_later 3;
    OpEmergencyScaleDown one_hour_later ["a"%string];
    OpLearnActivityPatterns one_hour_later;
    OpCheckDailyReset {| now := 90000; hour := 1; today := 1 |} (fun _ => calm_reset_draws);
    OpTick critical_tick ].

(** ** Vocabulary for the task manager *)

(** The worker resumed [n] times in a row. *)
Fixpoint run_worker (n : nat) (st : AsyncTaskManager) : AsyncTaskManager :=
  match n with
  | O => st
  | S n' => run_worker n' (worker_step st)
  end.

(** The order in which the queue hands out its entries: [a] is not behind
    [b]. *)
Definition item_le (a b : QueueItem) : Prop := item_ltb b a = false.

(** The two leading components of a queued tuple are those of its
    [TaskInfo], and the retry counter has not passed its limit. *)
Definition item_consistent (x : QueueItem) : Prop :=
  priority_value x = (- TaskPriority.value (priority (task_info x)))%Z
  /\ item_id x = task_id (task_info x)
  /\ (retry_count (task_info x) <= max_retries (task_info x))%nat.

(** First in, first out among equal priorities, as the specification words
    it: of two submissions of equal priority made one after the other to a
    running manager, the worker starts the first one first. *)
Definition fifo_among_equal_priority (first second : Submission) : Prop :=
  sub_priority first = sub_priority second ->
  let st := engine_run (AsyncTaskManager_init 10)
              [EvStart; EvSubmit first; EvSubmit second;
               EvWorker; EvWorker; EvWorker; EvWorker; EvWorker; EvWorker] in
  started (log st)
  = [make_task_id (sub_name first) (sub_millis first);
     make_task_id (sub_name second) (sub_millis second)].

Definition quick_task : TaskFunc := fun _ => Completes 0.1.

Definition hopeless_task : TaskFunc := fun _ => TimesOut.

Definition submit_b_first : Submission :=
  {| sub_func := quick_task; sub_name := "b"; sub_priority := TaskPriority.NORMAL;
     sub_timeout := None; sub_millis := 1700000000000; sub_now := 0 |}.

Definition submit_a_second : Submission :=
  {| sub_func := quick_task; sub_name := "a"; sub_priority := TaskPriority.NORMAL;
     sub_timeout := None; sub_millis := 1700000000001; sub_now := 0 |}.

Definition submit_hopeless : Submission :=
  {| sub_func := hopeless_task; sub_name := "tts"; sub_priority := TaskPriority.HIGH;
     sub_timeout := Some 5; sub_millis := 1700000000000; sub_now := 0 |}.

(** A task that always times out leaves exactly one timeout error behind,
    as the specification words it, on a manager started with ten permits
    and run until the task is gone. *)
Definition timeout_recorded_once (s : Submission) : Prop :=
  let st := run_worker 12 (snd (submit_task s (start (AsyncTaskManager_init 10)))) in
  task_queue st = [] /\ error_count "timeout" st = 1%nat.

(** What holds of a task manager whatever happens to it: the queue is in
    order, its entries are consistent, and the active set and the free
    permits follow the position of the worker. *)
Definition engine_invariant (st : AsyncTaskManager) : Prop :=
  StronglySorted item_le (task_queue st)
  /\ Forall item_consistent (task_queue st)
  /\ match worker_task st with
     | Some (Executing item) =>
         item_consistent item
         /\ active_tasks st = {[ item_id item := task_info item ]}
         /\ S (semaphore st) = max_concurrent_tasks st
     | Some (Acquiring item) =>
         item_consistent item
         /\ active_tasks st = ∅
         /\ semaphore st = max_concurrent_tasks st
     | _ => active_tasks st = ∅ /\ semaphore st = max_concurrent_tasks st
     end
  /\ (is_running st = false <-> worker_task st = None).

(** The entry that a timed-out task is queued again as. *)
Definition retried (item : QueueItem) : QueueItem :=
  {| priority_value := (- TaskPriority.value (priority (task_info item)))%Z;
     item_id := item_id item;
     task_func := task_func item;
     task_info := incr_retry_count (task_info item) |}.

(** The manager still holds the monitor object that [__init__] stored. *)
Definition stock_monitor (m : BotActivityManager) : Prop :=
  performance_monitor m = OfTaskMetrics TaskMetrics_init.

(** The ids for which a timeout was handled, in order, and how many times
    that happened for [id]: one [record_error('timeout')] each. *)
Definition timed_out (l : list LogRecord) : list string :=
  omap (fun r => match r with LogTimeout id _ => Some id | _ => None end) l.

Definition timeouts (id : string) (l : list LogRecord) : nat :=
  length (filter (fun x => x = id) (timed_out l)).

(** The queued entries that carry [id]. *)
Definition pending (id : string) (q : list QueueItem) : list QueueItem :=
  filter (fun x => item_id x = id) q.

(** The entry the worker has taken from the queue, if any. *)
Definition worker_item (w : option WorkerState) : option QueueItem :=
  match w with
  | Some (Acquiring x) | Some (Executing x) => Some x
  | _ => None
  end.

(** No entry with [id] is queued or in the hands of the worker. *)
Definition gone (id : string) (st : AsyncTaskManager) : Prop :=
  pending id (task_queue st) = []
  /\ forall x, worker_item (worker_task st) = Some x -> item_id x <> id.

(** Every run of the task body ends in a timeout. *)
Definition always_times_out (f : TaskFunc) : Prop := forall j, f j = TimesOut.

(** The entry that [submit_task] queues. *)
Definition submitted_item (s : Submission) : QueueItem :=
  {| priority_value := (- TaskPriority.value (sub_priority s))%Z;
     item_id := make_task_id (sub_name s) (sub_millis s);
     task_func := sub_func s;
     task_info :=
       {| task_id := make_task_id (sub_name s) (sub_millis s);
          task_name := sub_name s; priority := sub_priority s;
          created_at := sub_now s; timeout := sub_timeout s;
          retry_count := 0; max_retries := 3 |} |}.

(** An event that does not submit a task under [id]. *)
Definition other_id (id : string) (e : EngineEvent) : Prop :=
  match e with
  | EvSubmit s => make_task_id (sub_name s) (sub_millis s) <> id
  | _ => True
  end.

(** Where a task that always times out stands, in terms of the queue, the
    worker and the log: [n] is its retry limit, [a0] and [t0] the attempts
    and timeouts logged under its id before it was submitted. *)
Inductive task_phase (id : string) (n a0 t0 : nat)
    (q : list QueueItem) (w : option WorkerState) (l : list LogRecord) : Prop :=
| phase_pending (x : QueueItem) :
    pending id q = [x] ->
    (forall y, worker_item w = Some y -> item_id y <> id) ->
    always_times_out (task_func x) -> max_retries (task_info x) = n ->
    (retry_count (task_info x) <= n)%nat ->
    attempts id l = (a0 + retry_count (task_info x))%nat ->
    timeouts id l = (t0 + retry_count (task_info x))%nat ->
    task_phase id n a0 t0 q w l
| phase_acquiring (x : QueueItem) :
    pending id q = [] -> w = Some (Acquiring x) -> item_id x = id ->
    always_times_out (task_func x) -> max_retries (task_info x) = n ->
    (retry_count (task_info x) <= n)%nat ->
    attempts id l = (a0 + retry_count (task_info x))%nat ->
    timeouts id l = (t0 + retry_count (task_info x))%nat ->
    task_phase id n a0 t0 q w l
| phase_executing (x : QueueItem) :
    pending id q = [] -> w = Some (Executing x) -> item_id x = id ->
    always_times_out (task_func x) -> max_retries (task_info x) = n ->
    (retry_count (task_info x) <= n)%nat ->
    attempts id l = (a0 + retry_count (task_info x) + 1)%nat ->
    timeouts id l = (t0 + retry_count (task_info x))%nat ->
    task_phase id n a0 t0 q w l
| phase_gone :
    pending id q = [] ->
    (forall y, worker_item w = Some y -> item_id y <> id) ->
    attempts id l = (a0 + n + 1)%nat ->
    timeouts id l = (t0 + n + 1)%nat ->
    task_phase id n a0 t0 q w l.

(** The worker resumptions an entry can still cost: three for each run it
    has left. *)
Definition weight (x : QueueItem) : nat :=
  (3 * (max_retries (task_info x) - retry_count (task_info x) + 1))%nat.

(** A bound on the worker resumptions until the queue is drained. *)
Definition work_left (st : AsyncTaskManager) : nat :=
  (sum_list (weight <$> task_queue st)
   + match worker_task st with
     | Some (Acquiring x) => weight x - 1
     | Some (Executing x) => weight x - 2
     | _ => 0
     end)%nat.

(** ** Further functions of bot_activity_manager.py *)

(** The keys [should_bot_respond] reads from [interaction_context], each
    with the default of its [get]: ['unknown'], [False], [False],
    ['neutral']. *)
Record InteractionContext := {
  ctx_type : string;
  ctx_is_mention : bool;
  ctx_is_continuation : bool;
  ctx_sentiment : string
}.

(** The rate [should_bot_respond] compares its draw with, before the final
    [min(1.0, _)]; an absent or empty context applies no adjustment. *)
Definition effective_rate (c : Clock) (ctx : option InteractionContext)
    (s : ActivityState) : Q :=
  let effective_rate := get_adjusted_activity_rate c s in
  match ctx with
  | None => effective_rate
  | Some ctx =>
      let effective_rate :=
        if ctx_is_mention ctx then effective_rate * 1.5 else effective_rate in
      let effective_rate :=
        if ctx_is_continuation ctx then
          match activity_mode s with
          | SOCIAL => effective_rate * 1.2
          | SLEEPY => effective_rate * 0.7
          | _ => effective_rate
          end
        else effective_rate in
      if String.eqb (ctx_sentiment ctx) "positive"
         && (MoodState_eqb (mood_state s) HAPPY || MoodState_eqb (mood_state s) EXCITED)
      then effective_rate * 1.3
      else if String.eqb (ctx_sentiment ctx) "negative"
              && MoodState_eqb (mood_state s) MELANCHOLY
      then effective_rate * 1.1
      else effective_rate
  end.

(** [should_bot_respond]; [draw] is [random.random()]. *)
Definition should_bot_respond (c : Clock) (draw : Q) (bid : string)
    (ctx : option InteractionContext) (m : BotActivityManager) : bool :=
  match bot_states m !! bid with
  | None => false
  | Some state =>
      if negb (is_active state) then false
      else Qltb draw (py_min 1.0 (effective_rate c ctx state))
  end.

(** The rungs of the mood ladder of [update_mood]: TIRED and MELANCHOLY at
    the bottom, then NEUTRAL, HAPPY, EXCITED. *)
Definition mood_rank (m : MoodState) : nat :=
  match m with
  | TIRED | MELANCHOLY => 0
  | NEUTRAL => 1
  | HAPPY => 2
  | EXCITED => 3
  end.

(** The natural mood change of [update_mood] does not fire: the last
    change is at most two hours old, or the draw is not below 0.1. *)
Definition no_natural_change (c : Clock) (d : MoodDraws) (s : ActivityState) : Prop :=
  Qltb 2 (hours_since c (last_mood_change s)) = false \/ Qltb (d_natural d) 0.1 = false.

(** [class ResourceManager]: the configured sizes, the interval in
    minutes, the time of the last cleanup, and the times at which
    [_perform_cleanup] ran (the semaphore is left to the library). *)
Record ResourceManager := {
  max_concurrent_audio : nat;
  audio_queue_size : nat;
  cleanup_interval : Q;
  last_cleanup : Q;
  cleanups : list Q
}.

(** [ResourceManager.__init__] with the defaults of [config.get]. *)
Definition ResourceManager_init (c : Clock) : ResourceManager :=
  {| max_concurrent_audio := 2; audio_queue_size := 10; cleanup_interval := 30;
     last_cleanup := now c; cleanups := [] |}.

(** [cleanup_if_needed] *)
Definition cleanup_if_needed (c : Clock) (r : ResourceManager) : ResourceManager :=
  if Qltb (cleanup_interval r * 60) (now c - last_cleanup r) then
    {| max_concurrent_audio := max_concurrent_audio r;
       audio_queue_size := audio_queue_size r;
       cleanup_interval := cleanup_interval r;
       last_cleanup := now c;
       cleanups := cleanups r ++ [now c] |}
  else r.

(** Consecutive entries of a list of times lie more than [gap] apart. *)
Fixpoint spaced (gap : Q) (prev : Q) (times : list Q) : Prop :=
  match times with
  | [] => True
  | t :: rest => gap < t - prev /\ spaced gap t rest
  end.

(** ** Further functions of performance_optimizer.py *)

(** The warnings of one pass of [_monitor_loop]. *)
Inductive MonitorWarning :=
| HighCpu (percent : Q)
| HighMemory (percent : Q).

(** One pass of the [try] block of [PerformanceMonitor._monitor_loop] at
    time [t] with the readings of [psutil]: both samples are appended, both
    lists are cut to the samples newer than one hour, and the two warning
    thresholds are checked.  The three [datetime.now()] of a pass are one
    reading [t] of the clock. *)
Definition monitor_pass (t : Q) (cpu_percent memory_percent : Q) (p : TaskMetrics)
    : TaskMetrics * list MonitorWarning :=
  let cpu := cpu_samples p ++ [(t, cpu_percent)] in
  let mem := memory_samples p ++ [(t, memory_percent)] in
  let cutoff_time := t - 3600 in
  let keep := fun m : Q * Q => Qltb cutoff_time (fst m) in
  ({| cpu_samples := List.filter keep cpu;
      memory_samples := List.filter keep mem;
      task_completion_times := task_completion_times p;
      error_counts := error_counts p;
      active_tasks_metric := active_tasks_metric p |},
   (if Qltb 80 cpu_percent then [HighCpu cpu_percent] else [])
   ++ (if Qltb 85 memory_percent then [HighMemory memory_percent] else [])).

(** The passes of the monitor loop at the given times and readings. *)
Definition monitor_passes (p : TaskMetrics) (readings : list (Q * (Q * Q))) : TaskMetrics :=
  foldl (fun acc r => fst (monitor_pass (fst r) (fst (snd r)) (snd (snd r)) acc)) p readings.

(** The times of the readings do not go back. *)
Fixpoint clock_advances (prev : Q) (readings : list (Q * (Q * Q))) : Prop :=
  match readings with
  | [] => True
  | r :: rest => prev <= fst r /\ clock_advances (fst r) rest
  end.

(** What the log says of the fate of tasks: submissions, completed runs,
    failed runs and retries. *)
Definition submitted (l : list LogRecord) : nat :=
  length (omap (fun r => match r with LogSubmitted id => Some id | _ => None end) l).

Definition completed (l : list LogRecord) : nat :=
  length (omap (fun r => match r with LogDone id _ => Some id | _ => None end) l).

Definition failed (l : list LogRecord) : nat :=
  length (omap (fun r => match r with LogError id _ => Some id | _ => None end) l).

Definition retried_count (l : list LogRecord) : nat :=
  length (omap (fun r => match r with LogRetry id _ => Some id | _ => None end) l).

(** The worker has taken an entry from the queue and not finished it. *)
Definition held (st : AsyncTaskManager) : nat :=
  match worker_item (worker_task st) with
  | Some _ => 1
  | None => 0
  end.

(** No run of the task body ends in a timeout. *)
Definition never_times_out (f : TaskFunc) : Prop := forall j, f j <> TimesOut.

(** Where a task that never times out stands: [a0] and [t0] are the
    attempts and timeouts logged under its id before it was submitted. *)
Inductive single_run_phase (id : string) (a0 t0 : nat)
    (q : list QueueItem) (w : option WorkerState) (l : list LogRecord) : Prop :=
| single_pending (x : QueueItem) :
    pending id q = [x] ->
    (forall y, worker_item w = Some y -> item_id y <> id) ->
    never_times_out (task_func x) ->
    attempts id l = a0 -> timeouts id l = t0 ->
    single_run_phase id a0 t0 q w l
| single_acquiring (x : QueueItem) :
    pending id q = [] -> w = Some (Acquiring x) -> item_id x = id ->
    never_times_out (task_func x) ->
    attempts id l = a0 -> timeouts id l = t0 ->
    single_run_phase id a0 t0 q w l
| single_executing (x : QueueItem) :
    pending id q = [] -> w = Some (Executing x) -> item_id x = id ->
    never_times_out (task_func x) ->
    attempts id l = (a0 + 1)%nat -> timeouts id l = t0 ->
    single_run_phase id a0 t0 q w l
| single_gone :
    pending id q = [] ->
    (forall y, worker_item w = Some y -> item_id y <> id) ->
    attempts id l = (a0 + 1)%nat -> timeouts id l = t0 ->
    single_run_phase id a0 t0 q w l.

(** The pool of four with only agent a online. *)
Definition one_online : BotActivityManager :=
  update_bot "b" (_set_bot_offline noon)
    (update_bot "c" (_set_bot_offline noon) three_online).

Definition bring_d_online : RotationDraws :=
  {| rot_offline := []; rot_online := ["d"%string]; rot_randint := 1 |}.

(** The ids that a sequence of operations registers. *)
Definition registered_ids (ops : list ManagerOp) : list string :=
  omap (fun op => match op with OpRegisterBot _ _ bid _ => Some bid | _ => None end) ops.

(** The rate update of [_update_activity_rates] is due. *)
Definition rate_change_due (c : Clock) (m : BotActivityManager) : Prop :=
  Qltb (rate_change_interval m) (now c - last_rate_change m) = true.

(** The rate [_manage_offline_bots] compares its draw with. *)
Definition toggle_rate (c : Clock) (m : BotActivityManager) (s : ActivityState) : Q :=
  if enable_time_patterns m then get_adjusted_activity_rate c s else activity_rate s.

(** A configuration with the rotation switched off, and two agents
    registered under it. *)
Definition legacy_config : Config :=
  {| cfg_activity_rate_range := (0.1, 0.6);
     cfg_enable_offline_mode := true;
     cfg_enable_mood_tracking := true;
     cfg_enable_time_patterns := true;
     cfg_rotation_enabled := false;
     cfg_rotation_interval_minutes := 60;
     cfg_min_online_bots := 2;
     cfg_max_online_bots := 3 |}.

Definition legacy_pool : BotActivityManager :=
  register_bot noon 0.5 "b" None
    (register_bot noon 0.5 "a" None
       (BotActivityManager_init noon 20 legacy_config "a" true)).

(** The same interaction, addressed to the agent by a mention. *)
Definition as_mention (ctx : InteractionContext) : InteractionContext :=
  {| ctx_type := ctx_type ctx; ctx_is_mention := true;
     ctx_is_continuation := ctx_is_continuation ctx;
     ctx_sentiment := ctx_sentiment ctx |}.

Definition plain_message : InteractionContext :=
  {| ctx_type := "message"; ctx_is_mention := false;
     ctx_is_continuation := false; ctx_sentiment := "neutral" |}.

(** A monitor of this module's class after a series of [update] calls. *)
Definition LoadMonitor_updates (p : LoadMonitor) (readings : list (Clock * LoadSample))
    : LoadMonitor :=
  foldl (fun p r => LoadMonitor_update (fst r) (snd r) p) p readings.


(** The runs that ended in [CancelledError]: the first one ends the
    worker. *)
Definition cancelled_runs (st : AsyncTaskManager) : nat :=
  match worker_task st with
  | Some Ended => 1
  | _ => 0
  end.

(** The books of the task manager: the active-task counter follows the
    worker, the completion records and the error counter agree with the
    log, and every entry that was created (by a submission or by a retry)
    is queued, in the hands of the worker, or finished in one of the four
    ways. *)
Definition engine_books (st : AsyncTaskManager) : Prop :=
  active_tasks_metric (metrics st)
  = match worker_task st with Some (Executing _) => 1%Z | _ => 0%Z end
  /\ length (task_completion_times (metrics st)) = completed (log st)
  /\ error_count "execution_error" st = failed (log st)
  /\ (submitted (log st) + retried_count (log st)
      = length (task_queue st) + held st + completed (log st) + failed (log st)
        + length (timed_out (log st)) + cancelled_runs st)%nat.

Definition failing_task : TaskFunc := fun _ => Fails (ValueError "bad input").

Definition submit_failing : Submission :=
  {| sub_func := failing_task; sub_name := "stt"; sub_priority := TaskPriority.LOW;
     sub_timeout := None; sub_millis := 1700000000002; sub_now := 0 |}.

(** The time of the last of a series of readings, [t0] when there is
    none. *)
Definition last_time (t0 : Q) (readings : list (Q * (Q * Q))) : Q :=
  foldl (fun _ r => fst r) t0 readings.

(** The CPU and the memory samples that a series of readings holds. *)
Definition cpu_readings (readings : list (Q * (Q * Q))) : list (Q * Q) :=
  List.map (fun r => (fst r, fst (snd r))) readings.

Definition memory_readings (readings : list (Q * (Q * Q))) : list (Q * Q) :=
  List.map (fun r => (fst r, snd (snd r))) readings.

(** [cleanup_if_needed] called at each of a series of clock readings. *)
Definition cleanup_calls (r : ResourceManager) (clocks : list Clock) : ResourceManager :=
  foldl (fun r c => cleanup_if_needed c r) r clocks.

(** What [_apply_learned_patterns] does to a state when the counter of
    its key stands at [count]. *)
Definition learned_social (count : nat) (s : ActivityState) : ActivityState :=
  if (10 <? count)%nat then set_social_factor (py_min 100 (social_factor s + 5)) s
  else if (count <? 3)%nat then set_social_factor (py_max 0 (social_factor s - 2)) s
  else s.

(** ** What the theorems on single tasks assume *)

(** The entries in the hands of the task manager: those queued and the one
    the worker has taken. *)
Definition entries (st : AsyncTaskManager) : list QueueItem :=
  task_queue st
  ++ match worker_item (worker_task st) with Some x => [x] | None => [] end.

(** The task ids of the submissions of a run, in order. *)
Definition submitted_ids (events : list EngineEvent) : list string :=
  omap (fun e =>
          match e with
          | EvSubmit s => Some (make_task_id (sub_name s) (sub_millis s))
          | _ => None
          end) events.

(** Every submission of the run has a task id of its own: no two
    submissions carry the same name in the same millisecond.  Queued
    tuples then always differ in their second component, and the queue
    never has to compare beyond it. *)
Definition distinct_ids (events : list EngineEvent) : Prop :=
  NoDup (submitted_ids events).

(** No run of the task body ends in [CancelledError]. *)
Definition never_cancelled (f : TaskFunc) : Prop := forall j, f j <> Cancelled.

(** No submission of the run has a body that ends in [CancelledError]. *)
Definition no_cancellation (events : list EngineEvent) : Prop :=
  Forall (fun e =>
            match e with
            | EvSubmit s => never_cancelled (sub_func s)
            | _ => True
            end) events.

(** The worker has not ended and no entry in hand can end it. *)
Definition cancel_free (st : AsyncTaskManager) : Prop :=
  worker_task st <> Some Ended
  /\ Forall (fun x => never_cancelled (task_func x)) (entries st).

(** * Properties *)

(** ** Comparisons and clamps *)

Lemma Qltb_true (a b : Q) : Qltb a b = true <-> a < b.
Proof.
  unfold Qltb. rewrite negb_true_iff. split.
  - intros H. apply Qnot_le_lt. intros Hle.
    apply Qle_bool_iff in Hle. congruence.
  - intros H. destruct (Qle_bool b a) eqn:E; [|reflexivity].
    apply Qle_bool_iff in E. exfalso. apply (Qlt_not_le _ _ H E).
Qed.

Lemma Qltb_false (a b : Q) : Qltb a b = false <-> b <= a.
Proof.
  unfold Qltb. rewrite negb_false_iff. apply Qle_bool_iff.
Qed.

Lemma py_min_Qmin (a b : Q) : py_min a b == Qmin a b.
Proof.
  unfold py_min. destruct (Qltb b a) eqn:E.
  - apply Qltb_true in E. symmetry. apply Q.min_r. apply Qlt_le_weak, E.
  - apply Qltb_false in E. symmetry. apply Q.min_l, E.
Qed.

Lemma py_max_Qmax (a b : Q) : py_max a b == Qmax a b.
Proof.
  unfold py_max. destruct (Qltb a b) eqn:E.
  - apply Qltb_true in E. symmetry. apply Q.max_r. apply Qlt_le_weak, E.
  - apply Qltb_false in E. symmetry. apply Q.max_l, E.
Qed.

Lemma py_min_le_l (a b : Q) : py_min a b <= a.
Proof. rewrite py_min_Qmin. apply Q.le_min_l. Qed.

Lemma py_min_glb (a b z : Q) : z <= a -> z <= b -> z <= py_min a b.
Proof. intros. rewrite py_min_Qmin. apply Q.min_glb; assumption. Qed.

Lemma py_max_ge_l (a b : Q) : a <= py_max a b.
Proof. rewrite py_max_Qmax. apply Q.le_max_l. Qed.

Lemma py_max_lub (a b z : Q) : a <= z -> b <= z -> py_max a b <= z.
Proof. intros. rewrite py_max_Qmax. apply Q.max_lub; assumption. Qed.

Lemma mode_multipliers_table (m : ActivityMode) : mode_multipliers m == modeFactor m.
Proof. destruct m; reflexivity. Qed.

(** Extreme inputs: full energy, full rate, the largest factors. *)
Example adjusted_rate_saturates :
  let c := {| now := 0; hour := 13; today := 0 |} in
  let s := set_activity_mode SOCIAL
             (set_mood_state EXCITED
                (set_energy_level 100 (ActivityState_init c "a" 1 true None))) in
  get_adjusted_activity_rate c s = 1.0.
Proof. reflexivity. Qed.

Example adjusted_rate_zero_rate :
  let c := {| now := 0; hour := 3; today := 0 |} in
  let s := set_energy_level 0 (ActivityState_init c "a" 0 true None) in
  get_adjusted_activity_rate c s = 0.0.
Proof. reflexivity. Qed.

(** C1: for every state and clock reading, [get_adjusted_activity_rate]
    lies in [0,1] and is the clamp to [0,1] of base rate times time, mood,
    energy and mode factors, with the mode factors Normal 1.0, Energetic
    1.3, Calm 0.8, Sleepy 0.4, Social 1.5, Focused 0.9. *)
Theorem C1_adjusted_rate_is_clamped_product (c : Clock) (s : ActivityState) :
  0 <= get_adjusted_activity_rate c s <= 1
  /\ get_adjusted_activity_rate c s ==
       clamp01 (activity_rate s * get_current_time_factor c s * get_mood_factor s
                * get_energy_factor s * modeFactor (activity_mode s)).
Proof.
  unfold get_adjusted_activity_rate, clamp01.
  set (x := activity_rate s * get_current_time_factor c s * get_mood_factor s
            * get_energy_factor s * mode_multipliers (activity_mode s)).
  assert (Hx : activity_rate s * get_current_time_factor c s * get_mood_factor s
               * get_energy_factor s * modeFactor (activity_mode s) == x).
  { unfold x. rewrite mode_multipliers_table. reflexivity. }
  split.
  - split.
    + apply Qle_trans with 0.0; [discriminate | apply py_max_ge_l].
    + apply py_max_lub; [discriminate|].
      apply Qle_trans with 1.0; [apply py_min_le_l | discriminate].
  - rewrite Hx, py_max_Qmax, py_min_Qmin.
    assert (E0 : 0.0 == 0) by reflexivity.
    assert (E1 : 1.0 == 1) by reflexivity.
    rewrite E0, E1. reflexivity.
Qed.

Local Close Scope Q_scope.
Local Set Warnings "-clear-no-such-hyp".

(** ** The online set of a [bot_states] dictionary *)

Lemma elem_of_online_set bs k :
  k ∈ online_set bs <-> exists s, bs !! k = Some s /\ is_active s = true.
Proof.
  unfold online_set. rewrite elem_of_dom. unfold is_Some.
  setoid_rewrite map_lookup_filter_Some. reflexivity.
Qed.









Lemma dom_foldl_alter (f : ActivityState -> ActivityState) sel
    (bs : gmap string ActivityState) :
  dom (foldl (fun acc bid => alter f bid acc) bs sel) = dom bs.
Proof.
  revert bs. induction sel as [|k sel IH]; intros bs; simpl; [reflexivity|].
  rewrite IH. apply dom_alter_L.
Qed.



Lemma online_set_subseteq_dom bs : online_set bs ⊆ dom bs.
Proof.
  intros k H. apply elem_of_online_set in H as [s [E _]].
  apply elem_of_dom. eauto.
Qed.









(** ** Rotation *)

Lemma dom_bots_offline c sel bs : dom (bots_offline c sel bs) = dom bs.
Proof. apply dom_foldl_alter. Qed.

Lemma dom_bots_online c sel bs : dom (bots_online c sel bs) = dom bs.
Proof. apply dom_foldl_alter. Qed.












(** ** Emergency scale-down *)




(** The three calls raise exactly on an object whose class does not define
    the method called. *)
Lemma monitor_calls_follow_classes (c : Clock) (smp : LoadSample) (o : MonitorObject) :
  (has_method o "update" = false
   <-> call_update c smp o = Raise (AttributeError "PerformanceMonitor" "update"))
  /\ (has_method o "is_critical_load" = false
      <-> call_is_critical_load o
          = Raise (AttributeError "PerformanceMonitor" "is_critical_load"))
  /\ (has_method o "is_high_load" = false
      <-> call_is_high_load o = Raise (AttributeError "PerformanceMonitor" "is_high_load")).
Proof.
  destruct o; simpl; repeat split; intros H; try reflexivity;
    try discriminate H; vm_compute in H; discriminate H.
Qed.


Lemma stock_monitor_raises c smp sel m :
  stock_monitor m ->
  _monitor_performance c smp sel m
  = (m, Some (AttributeError "PerformanceMonitor" "update")).
Proof. intros H. unfold _monitor_performance. rewrite H. reflexivity. Qed.

Lemma stock_monitor_update_rates_loop draw items m :
  stock_monitor m -> stock_monitor (update_rates_loop draw items m).1.
Proof.
  intros H. destruct items as [|[bid s0] rest]; simpl; [exact H|].
  change (performance_monitor (update_bot bid (set_activity_rate (draw bid)) m))
    with (performance_monitor m).
  rewrite H. exact H.
Qed.

Lemma stock_monitor_learn c m :
  stock_monitor m -> stock_monitor (_learn_activity_patterns c m).
Proof.
  intros H. unfold _learn_activity_patterns.
  destruct (negb (memory_db m)); [exact H|].
  revert H. generalize ((map_to_list (bot_states m)).*1). intros l. revert m.
  induction l as [|bid l IH]; intros m H; simpl; [exact H|].
  apply IH. unfold learn_one.
  destruct (bot_states m !! bid); [|exact H].
  destruct (_ <? _)%nat; exact H.
Qed.

Lemma stock_monitor_rotate c d m :
  stock_monitor m -> stock_monitor (_rotate_online_bots c d m).1.
Proof.
  intros H. unfold _rotate_online_bots.
  destruct (_ || _); [exact H|].
  destruct (Qltb _ _); [exact H|]. cbv zeta.
  repeat match goal with
         | |- stock_monitor (if ?b then _ else _).1 => destruct b
         | |- stock_monitor (match ?r with Ok _ => _ | Raise _ => _ end).1 => destruct r
         end;
    exact H.
Qed.

Lemma stock_monitor_tick i m :
  stock_monitor m -> stock_monitor (tick (management_steps i) m).1.
Proof.
  intros H. unfold tick, management_steps, run_steps, total_step.
  assert (H1 : stock_monitor (_check_daily_reset (t_clock i) (t_reset i) m)).
  { unfold _check_daily_reset. destruct (_ <? _)%Z; exact H. }
  set (m1 := _check_daily_reset (t_clock i) (t_reset i) m) in *. clearbody m1.
  assert (H2 : stock_monitor (_update_activity_states (t_clock i) (t_mood i) m1)) by exact H1.
  set (m2 := _update_activity_states (t_clock i) (t_mood i) m1) in *. clearbody m2.
  assert (H3 : stock_monitor
                 (_update_activity_rates (t_clock i) (t_rate i) (t_next_minutes i) m2).1).
  { unfold _update_activity_rates. destruct (Qltb _ _); [|exact H2].
    pose proof (stock_monitor_update_rates_loop (t_rate i)
                  (map_to_list (bot_states m2)) m2 H2) as Hl.
    destruct (update_rates_loop _ _ _) as [m' [e|]]; exact Hl. }
  destruct (_update_activity_rates _ _ _ m2) as [m3 [e|]]; [exact H3|].
  cbn [fst] in H3.
  assert (H4 : stock_monitor (_manage_offline_bots (t_clock i) (t_toggle i) m3)).
  { unfold _manage_offline_bots. destruct (negb _); exact H3. }
  set (m4 := _manage_offline_bots (t_clock i) (t_toggle i) m3) in *. clearbody m4.
  pose proof (stock_monitor_rotate (t_clock i) (t_rotation i) m4 H4) as H5.
  set (m5 := (_rotate_online_bots (t_clock i) (t_rotation i) m4).1) in *. clearbody m5.
  rewrite (stock_monitor_raises _ _ _ m5 H5). exact H5.
Qed.

Lemma stock_monitor_apply_op m op : stock_monitor m -> stock_monitor (apply_op m op).
Proof.
  intros H. destruct op; simpl; try exact H.
  - apply stock_monitor_tick, H.
  - unfold _check_daily_reset. destruct (_ <? _)%Z; exact H.
  - unfold _update_activity_rates. destruct (Qltb _ _); [|exact H].
    pose proof (stock_monitor_update_rates_loop draw
                  (map_to_list (bot_states m)) m H) as Hl.
    destruct (update_rates_loop _ _ _) as [m' [e|]]; exact Hl.
  - unfold _manage_offline_bots. destruct (negb _); exact H.
  - apply stock_monitor_rotate, H.
  - rewrite (stock_monitor_raises _ _ _ m H). exact H.
  - unfold _emergency_scale_down. destruct (_ <? _)%nat; [|exact H].
    destruct (random_sample _ _ _); exact H.
  - apply stock_monitor_learn, H.
Qed.

Lemma stock_monitor_run_ops ops m : stock_monitor m -> stock_monitor (run_ops m ops).
Proof.
  revert m. induction ops as [|op ops IH]; intros m H; simpl; [exact H|].
  apply IH, stock_monitor_apply_op, H.
Qed.

(** C8 (behaviour of the code as written): on every manager reached from
    the one [__init__] builds, the monitoring step raises [AttributeError]
    at the call of [update], whatever load the host reports, and takes
    nobody offline.  In particular, with four agents online and the CPU at
    96 percent, a whole pass logs the error and leaves the four agents
    online. *)
Theorem C8_critical_load_does_not_scale_down (c0 : Clock) (interval_minutes : Q)
    (cfg : Config) (bid : string) (db : bool) (ops : list ManagerOp)
    (c : Clock) (smp : LoadSample) (sel : list string) :
  let m := run_ops (BotActivityManager_init c0 interval_minutes cfg bid db) ops in
  _monitor_performance c smp sel m
  = (m, Some (AttributeError "PerformanceMonitor" "update"))
  /\ online_count
       (bot_states (tick (management_steps critical_tick) four_online).1) = 4
  /\ LoggedError (AttributeError "PerformanceMonitor" "update")
       ∈ (tick (management_steps critical_tick) four_online).2.
Proof.
  intros m. split; [|split].
  - apply stock_monitor_raises. unfold m. apply stock_monitor_run_ops. reflexivity.
  - vm_compute. reflexivity.
  - vm_compute. set_solver.
Qed.

(** ** The management loop *)

Lemma run_steps_ok_trace {St : Type} (steps : list (string * @Step St)) (s s' : St) tr :
  run_steps steps s = (s', tr, None) -> tr = Called <$> steps.*1.
Proof.
  revert s s' tr. induction steps as [|[name f] rest IH]; intros s s' tr H; simpl in H.
  - injection H as _ <-. reflexivity.
  - destruct (f s) as [s1 [e|]]; [discriminate|].
    destruct (run_steps rest s1) as [[s2 tr2] r2] eqn:E.
    injection H as _ <- ->. simpl. f_equal. eapply IH. exact E.
Qed.

Lemma run_steps_app_raise {St : Type} (pre post : list (string * @Step St))
    (name : string) (f : @Step St) (s s1 s2 : St) tr e :
  run_steps pre s = (s1, tr, None) ->
  f s1 = (s2, Some e) ->
  run_steps (pre ++ (name, f) :: post) s = (s2, tr ++ [Called name], Some e).
Proof.
  revert s tr. induction pre as [|[n g] pre IH]; intros s tr Hpre Hf; simpl in *.
  - injection Hpre as <- <-. rewrite Hf. reflexivity.
  - destruct (g s) as [s' [e'|]]; [discriminate|].
    destruct (run_steps pre s') as [[s'' tr''] r''] eqn:E.
    injection Hpre as -> <- ->.
    rewrite (IH s' tr'' E Hf). reflexivity.
Qed.

Lemma sleeps_app tr1 tr2 : sleeps (tr1 ++ tr2) = sleeps tr1 + sleeps tr2.
Proof. unfold sleeps. rewrite omap_app, length_app. reflexivity. Qed.

Lemma sleeps_run_steps {St : Type} (steps : list (string * @Step St)) (s : St) :
  sleeps (run_steps steps s).1.2 = 0.
Proof.
  revert s. induction steps as [|[name f] rest IH]; intros s; simpl; [reflexivity|].
  destruct (f s) as [s1 [e|]]; [reflexivity|].
  specialize (IH s1). destruct (run_steps rest s1) as [[s2 tr2] r2]. exact IH.
Qed.

Lemma sleeps_tick {St : Type} (steps : list (string * @Step St)) (s : St) :
  sleeps (tick steps s).2 = 1.
Proof.
  unfold tick. pose proof (sleeps_run_steps steps s) as H.
  destruct (run_steps steps s) as [[s' tr] [e|]]; simpl in *;
    rewrite sleeps_app, H; reflexivity.
Qed.

Lemma sleeps_management_loop {St : Type} n (steps_at : nat -> list (string * @Step St))
    i (s : St) :
  sleeps (management_loop n steps_at i s).2 = n.
Proof.
  revert i s. induction n as [|n IH]; intros i s; simpl; [reflexivity|].
  pose proof (sleeps_tick (steps_at i) s) as H.
  destruct (tick (steps_at i) s) as [s' tr].
  specialize (IH (S i) s').
  destruct (management_loop n steps_at (S i) s') as [s'' tr'].
  simpl in *. rewrite sleeps_app, H, IH. reflexivity.
Qed.

(** C3 as stated fails: in the pass [critical_tick] over the pool of four,
    [_monitor_performance] raises and [_learn_activity_patterns], the step
    after it, is not entered; the counter that step would have set for
    agent a stays absent. *)
Lemma C3_steps_not_isolated :
  ~ every_step_runs (management_steps critical_tick) four_online_talking
  /\ manager_activity_patterns
       (tick (management_steps critical_tick) four_online_talking).1 !! "a_12"%string = None
  /\ manager_activity_patterns
       (_learn_activity_patterns noon four_online_talking) !! "a_12"%string = Some 1.
Proof.
  split; [|split].
  - intros H. specialize (H "_learn_activity_patterns"%string).
    assert (Hin : "_learn_activity_patterns"%string
                  ∈ (management_steps critical_tick).*1).
    { simpl. set_solver. }
    specialize (H Hin). revert H. vm_compute.
    intros H. repeat (apply elem_of_cons in H as [H|H]; [discriminate|]).
    inversion H.
  - vm_compute. reflexivity.
  - vm_compute. reflexivity.
Qed.

(** C3, amended: when the steps before some step succeed and that step
    raises, the pass enters exactly the steps up to and including it, the
    handler of the loop logs the exception, the steps after it are not
    entered in that pass, and the pass ends with its sleep; and the loop
    completes any number of passes whatever the steps raise, one sleep per
    pass. *)
Theorem C3_failure_ends_the_pass_not_the_loop {St : Type}
    (pre post : list (string * @Step St)) (name : string) (f : @Step St)
    (s s1 s2 : St) (tr : list LoopEvent) (e : exn) :
  run_steps pre s = (s1, tr, None) ->
  f s1 = (s2, Some e) ->
  tick (pre ++ (name, f) :: post) s
  = (s2, (Called <$> pre.*1) ++ [Called name; LoggedError e; Slept 60%Q])
  /\ called (tick (pre ++ (name, f) :: post) s).2 = pre.*1 ++ [name]
  /\ forall n (steps_at : nat -> list (string * @Step St)) i s0,
       sleeps (management_loop n steps_at i s0).2 = n.
Proof.
  intros Hpre Hf.
  assert (Htick : tick (pre ++ (name, f) :: post) s
                  = (s2, (Called <$> pre.*1) ++ [Called name; LoggedError e; Slept 60%Q])).
  { unfold tick. rewrite (run_steps_app_raise pre post name f s s1 s2 tr e Hpre Hf).
    rewrite (run_steps_ok_trace pre s s1 tr Hpre), <- app_assoc. reflexivity. }
  split; [exact Htick|]. split.
  - rewrite Htick. simpl. unfold called. rewrite omap_app. simpl. f_equal.
    clear. induction (pre.*1) as [|x l IH]; [reflexivity|]. simpl. f_equal. exact IH.
  - intros n steps_at i s0. apply sleeps_management_loop.
Qed.

Lemma C3_failure_ends_the_pass_not_the_loop_witness :
  called (tick (management_steps critical_tick) four_online_talking).2
  = ["_check_daily_reset"; "_update_activity_states"; "_update_activity_rates";
     "_manage_offline_bots"; "_rotate_online_bots"; "_monitor_performance"]%string.
Proof.
  refine (proj1 (proj2
    (C3_failure_ends_the_pass_not_the_loop
       (take 5 (management_steps critical_tick))
       (drop 6 (management_steps critical_tick))
       "_monitor_performance"
       (_monitor_performance (t_clock critical_tick) (t_load critical_tick)
          (t_emergency critical_tick))
       four_online_talking
       (run_steps (take 5 (management_steps critical_tick)) four_online_talking).1.1
       (run_steps (take 5 (management_steps critical_tick)) four_online_talking).1.1
       (Called <$> (take 5 (management_steps critical_tick)).*1)
       (AttributeError "PerformanceMonitor" "update") _ _))).
  - vm_compute. reflexivity.
  - vm_compute. reflexivity.
Defined.

(** ** Lifting a property of states to the agent map *)

Section Lifting.
Variable P : ActivityState -> Prop.

Lemma all_bots_set_bot_states bs m :
  (forall k s, bs !! k = Some s -> P s) -> all_bots P (set_bot_states bs m).
Proof. intros H k s Hk. exact (H k s Hk). Qed.

Lemma all_bots_alter f k (bs : gmap string ActivityState) :
  (forall s, P s -> P (f s)) ->
  (forall j s, bs !! j = Some s -> P s) ->
  forall j s, alter f k bs !! j = Some s -> P s.
Proof.
  intros Hf Hbs j s. destruct (decide (k = j)) as [->|Hne].
  - rewrite lookup_alter_eq. destruct (bs !! j) as [s0|] eqn:E; simpl; [|discriminate].
    intros [= <-]. apply Hf. eapply Hbs. exact E.
  - rewrite lookup_alter_ne by exact Hne. apply Hbs.
Qed.

Lemma all_bots_update_bot f k m :
  (forall s, P s -> P (f s)) -> all_bots P m -> all_bots P (update_bot k f m).
Proof.
  intros Hf Hm. apply all_bots_set_bot_states.
  apply all_bots_alter; [exact Hf | exact Hm].
Qed.

Lemma all_bots_foldl_alter f sel m :
  (forall s, P s -> P (f s)) -> all_bots P m ->
  all_bots P (set_bot_states
                (foldl (fun acc bid => alter f bid acc) (bot_states m) sel) m).
Proof.
  intros Hf Hm. apply all_bots_set_bot_states.
  unfold all_bots in Hm. revert Hm. generalize (bot_states m).
  induction sel as [|x sel IH]; intros bs Hbs; simpl; [exact Hbs|].
  apply IH. apply all_bots_alter; [exact Hf | exact Hbs].
Qed.

Lemma all_bots_for_each f m :
  (forall k s, P s -> P (f k s)) -> all_bots P m ->
  all_bots P (set_bot_states (for_each_bot f (bot_states m)) m).
Proof.
  intros Hf Hm. apply all_bots_set_bot_states. intros k s.
  unfold for_each_bot. rewrite map_lookup_imap.
  destruct (bot_states m !! k) as [s0|] eqn:E; simpl; [|discriminate].
  intros [= <-]. apply Hf. eapply Hm. exact E.
Qed.

Lemma all_bots_insert k s m :
  P s -> all_bots P m -> all_bots P (set_bot_states (<[k := s]> (bot_states m)) m).
Proof.
  intros Hs Hm. apply all_bots_set_bot_states. intros j s'.
  destruct (decide (k = j)) as [->|Hne].
  - rewrite lookup_insert_eq. intros [= <-]. exact Hs.
  - rewrite lookup_insert_ne by exact Hne. apply Hm.
Qed.

Lemma all_bots_run_steps (steps : list (string * @Step BotActivityManager)) :
  (forall name f, (name, f) ∈ steps -> forall m, all_bots P m -> all_bots P (f m).1) ->
  forall m, all_bots P m -> all_bots P (run_steps steps m).1.1.
Proof.
  induction steps as [|[name f] rest IH]; intros Hsteps m Hm; simpl; [exact Hm|].
  assert (Hf : all_bots P (f m).1) by (eapply Hsteps; [left | exact Hm]).
  destruct (f m) as [m1 [e|]]; simpl in *; [exact Hf|].
  assert (Hrest : all_bots P (run_steps rest m1).1.1).
  { apply IH; [|exact Hf]. intros n g Hin. eapply Hsteps. right. exact Hin. }
  destruct (run_steps rest m1) as [[m2 tr] r]. exact Hrest.
Qed.

Lemma all_bots_tick (steps : list (string * @Step BotActivityManager)) :
  (forall name f, (name, f) ∈ steps -> forall m, all_bots P m -> all_bots P (f m).1) ->
  forall m, all_bots P m -> all_bots P (tick steps m).1.
Proof.
  intros Hsteps m Hm. unfold tick.
  pose proof (all_bots_run_steps steps Hsteps m Hm) as H.
  destruct (run_steps steps m) as [[m' tr] [e|]]; exact H.
Qed.

(** What the operations do to a single state: it is enough that each of
    these preserves the property. *)
Hypothesis P_rate : forall v s, P s -> P (set_activity_rate v s).
Hypothesis P_offline : forall c s, P s -> P (_set_bot_offline c s).
Hypothesis P_online : forall c s, P s -> P (_set_bot_online c s).
Hypothesis P_emergency : forall c s, P s -> P (emergency_offline c s).
Hypothesis P_learn : forall c pats bid s, P s -> P (_apply_learned_patterns c pats bid s).

Lemma all_bots_update_rates_loop draw items m :
  all_bots P m -> all_bots P (update_rates_loop draw items m).1.
Proof.
  revert m. induction items as [|[bid s0] rest IH]; intros m Hm; simpl; [exact Hm|].
  assert (H1 : all_bots P (update_bot bid (set_activity_rate (draw bid)) m))
    by (apply all_bots_update_bot; auto).
  destruct (call_is_high_load _) as [high|e]; [|exact H1].
  apply IH. destruct high; [|exact H1].
  apply all_bots_update_bot; auto.
Qed.

Lemma all_bots_update_activity_rates c draw next m :
  all_bots P m -> all_bots P (_update_activity_rates c draw next m).1.
Proof.
  intros Hm. unfold _update_activity_rates.
  destruct (Qltb _ _); [|exact Hm].
  pose proof (all_bots_update_rates_loop draw (map_to_list (bot_states m)) m Hm) as H.
  destruct (update_rates_loop _ _ _) as [m' [e|]]; exact H.
Qed.

Lemma all_bots_emergency_scale_down c sel m :
  all_bots P m -> all_bots P (_emergency_scale_down c sel m).1.
Proof.
  intros Hm. unfold _emergency_scale_down.
  destruct (_ <? _)%nat; [|exact Hm].
  destruct (random_sample _ _ _) as [l|e]; [|exact Hm].
  apply all_bots_foldl_alter; auto.
Qed.

Lemma all_bots_monitor_performance c smp sel m :
  all_bots P m -> all_bots P (_monitor_performance c smp sel m).1.
Proof.
  intros Hm. unfold _monitor_performance.
  destruct (call_update _ _ _) as [o|e]; [|exact Hm].
  destruct (call_is_critical_load _) as [[|]|e]; try exact Hm.
  apply all_bots_emergency_scale_down. exact Hm.
Qed.

Lemma all_bots_rotate c d m :
  all_bots P m -> all_bots P (_rotate_online_bots c d m).1.
Proof.
  intros Hm. unfold _rotate_online_bots.
  destruct (_ || _); [exact Hm|].
  destruct (Qltb _ _); [exact Hm|]. cbv zeta.
  repeat match goal with
         | |- all_bots P (if ?b then _ else _).1 => destruct b
         | |- all_bots P (match ?r with Ok _ => _ | Raise _ => _ end).1 => destruct r
         end;
    try exact Hm; cbn [fst].
  - apply (all_bots_foldl_alter (_set_bot_offline c)); auto.
  - apply (all_bots_foldl_alter (_set_bot_online c)); auto.
  - match goal with
    | |- all_bots P (set_bot_states (bots_online _ ?on (bots_offline _ ?off _)) _) =>
        pose proof (all_bots_foldl_alter (_set_bot_offline c) off m (P_offline c) Hm) as H1;
        exact (all_bots_foldl_alter (_set_bot_online c) on _ (P_online c) H1)
    end.
Qed.

Lemma all_bots_manage_offline c draw m :
  all_bots P m -> all_bots P (_manage_offline_bots c draw m).
Proof.
  intros Hm. unfold _manage_offline_bots.
  destruct (negb (enable_offline_mode m)); [exact Hm|].
  apply all_bots_for_each; [|exact Hm]. intros k s Hs.
  repeat match goal with |- P (if ?b then _ else _) => destruct b end; auto.
Qed.

Lemma all_bots_learn c m :
  all_bots P m -> all_bots P (_learn_activity_patterns c m).
Proof.
  intros Hm. unfold _learn_activity_patterns.
  destruct (negb (memory_db m)); [exact Hm|].
  revert Hm. generalize ((map_to_list (bot_states m)).*1). intros l. revert m.
  induction l as [|bid l IH]; intros m Hm; simpl; [exact Hm|].
  apply IH. unfold learn_one.
  destruct (bot_states m !! bid); [|exact Hm].
  destruct (_ <? _)%nat; [|exact Hm].
  apply all_bots_update_bot; [apply P_learn | exact Hm].
Qed.
End Lifting.

Lemma all_bots_check_daily_reset (P : ActivityState -> Prop) c d m :
  (forall bid s, P s -> P (daily_reset (d bid) s)) ->
  all_bots P m -> all_bots P (_check_daily_reset c d m).
Proof.
  intros Hf Hm. unfold _check_daily_reset. destruct (_ <? _)%Z; [|exact Hm].
  apply (all_bots_for_each P (fun bid s => daily_reset (d bid) s) m Hf Hm).
Qed.

Lemma all_bots_update_activity_states (P : ActivityState -> Prop) c d m :
  (forall bid s, P s -> P (update_mood c (d bid) "neutral" s)) ->
  (forall s, P s -> P (update_activity_mode c s)) ->
  (forall s, P s -> P (energy_decay c s)) ->
  all_bots P m -> all_bots P (_update_activity_states c d m).
Proof.
  intros Hmood Hmode Hdecay Hm. unfold _update_activity_states.
  apply all_bots_for_each; [|exact Hm]. intros bid s Hs.
  apply Hdecay. destruct (enable_mood_tracking m); auto.
Qed.

Lemma all_bots_management_steps (P : ActivityState -> Prop) (i : TickInput) :
  (forall m, all_bots P m -> all_bots P (_check_daily_reset (t_clock i) (t_reset i) m)) ->
  (forall m, all_bots P m -> all_bots P (_update_activity_states (t_clock i) (t_mood i) m)) ->
  (forall m, all_bots P m ->
     all_bots P (_update_activity_rates (t_clock i) (t_rate i) (t_next_minutes i) m).1) ->
  (forall m, all_bots P m -> all_bots P (_manage_offline_bots (t_clock i) (t_toggle i) m)) ->
  (forall m, all_bots P m ->
     all_bots P (_rotate_online_bots (t_clock i) (t_rotation i) m).1) ->
  (forall m, all_bots P m ->
     all_bots P (_monitor_performance (t_clock i) (t_load i) (t_emergency i) m).1) ->
  (forall m, all_bots P m -> all_bots P (_learn_activity_patterns (t_clock i) m)) ->
  forall m, all_bots P m -> all_bots P (tick (management_steps i) m).1.
Proof.
  intros H1 H2 H3 H4 H5 H6 H7. apply all_bots_tick. intros name f Hin.
  unfold management_steps in Hin.
  repeat (apply elem_of_cons in Hin as [Hin|Hin];
          [injection Hin as -> ->; unfold total_step; simpl; assumption|]).
  inversion Hin.
Qed.

(** ** Presence *)

Lemma presence_offline c s : presence_consistent (_set_bot_offline c s).
Proof. unfold presence_consistent. simpl. split; [discriminate | reflexivity]. Qed.

Lemma presence_online c s : presence_consistent (_set_bot_online c s).
Proof. unfold presence_consistent. simpl. split; [discriminate | congruence]. Qed.

Lemma presence_registered c r bid cc :
  presence_consistent
    (match cc with
     | Some cc => apply_custom_config cc (ActivityState_init c bid r true (Some (now c)))
     | None => ActivityState_init c bid r true (Some (now c))
     end).
Proof.
  unfold presence_consistent. destruct cc; simpl; (split; [discriminate | congruence]).
Qed.

(** The remaining state functions leave [is_active] and [offline_since] as
    they are. *)
Ltac presence_untouched :=
  intros H; repeat case_match; exact H.

Lemma presence_update_mood c d it s :
  presence_consistent s -> presence_consistent (update_mood c d it s).
Proof. unfold update_mood, _natural_mood_change. presence_untouched. Qed.

Lemma presence_update_activity_mode c s :
  presence_consistent s -> presence_consistent (update_activity_mode c s).
Proof. unfold update_activity_mode. presence_untouched. Qed.

Lemma presence_energy_decay c s :
  presence_consistent s -> presence_consistent (energy_decay c s).
Proof. unfold energy_decay. presence_untouched. Qed.

Lemma presence_daily_reset d s :
  presence_consistent s -> presence_consistent (daily_reset d s).
Proof. unfold daily_reset. presence_untouched. Qed.

Lemma presence_learn c pats bid s :
  presence_consistent s -> presence_consistent (_apply_learned_patterns c pats bid s).
Proof. unfold _apply_learned_patterns. presence_untouched. Qed.

Lemma presence_emergency c s :
  presence_consistent s -> presence_consistent (emergency_offline c s).
Proof. intros _. unfold presence_consistent. simpl. split; [discriminate | reflexivity]. Qed.

Lemma presence_rate v s :
  presence_consistent s -> presence_consistent (set_activity_rate v s).
Proof. presence_untouched. Qed.

Lemma presence_same s s' :
  is_active s' = is_active s -> offline_since s' = offline_since s ->
  presence_consistent s -> presence_consistent s'.
Proof. unfold presence_consistent. intros -> ->. auto. Qed.

(** The callbacks wrap [update_mood] in assignments to other fields. *)
Ltac presence_callback Hs :=
  first
    [ exact Hs
    | match goal with
      | |- context [update_mood ?c ?d ?it ?x] =>
          apply (presence_same (update_mood c d it x));
          [reflexivity | reflexivity | apply presence_update_mood; exact Hs]
      end ].

Create HintDb presence.
#[local] Hint Resolve presence_offline presence_online presence_registered
  presence_update_mood presence_update_activity_mode presence_energy_decay
  presence_daily_reset presence_learn presence_emergency presence_rate : presence.

Lemma presence_apply_op m op :
  all_bots presence_consistent m -> all_bots presence_consistent (apply_op m op).
Proof.
  intros Hm. destruct op; simpl.
  - apply all_bots_insert; [apply presence_registered | exact Hm].
  - apply all_bots_update_bot; auto with presence.
  - apply all_bots_update_bot; auto with presence.
  - apply all_bots_management_steps; try exact Hm; clear m Hm; intros m Hm.
    + apply all_bots_check_daily_reset; auto with presence.
    + apply all_bots_update_activity_states; auto with presence.
    + apply all_bots_update_activity_rates; auto with presence.
    + apply all_bots_manage_offline; auto with presence.
    + apply all_bots_rotate; auto with presence.
    + apply all_bots_monitor_performance; auto with presence.
    + apply all_bots_learn; auto with presence.
  - apply all_bots_check_daily_reset; auto with presence.
  - apply all_bots_update_activity_states; auto with presence.
  - apply all_bots_update_activity_rates; auto with presence.
  - apply all_bots_manage_offline; auto with presence.
  - apply all_bots_rotate; auto with presence.
  - apply all_bots_monitor_performance; auto with presence.
  - apply all_bots_emergency_scale_down; auto with presence.
  - apply all_bots_learn; auto with presence.
  - apply all_bots_update_bot; [|exact Hm]. intros s Hs.
    repeat case_match; cbv zeta; presence_callback Hs.
  - apply all_bots_update_bot; [|exact Hm]. intros s Hs.
    repeat case_match; cbv zeta; presence_callback Hs.
  - apply all_bots_update_bot; [|exact Hm]. intros s Hs. exact Hs.
  - apply all_bots_update_bot; [|exact Hm]. intros s Hs. exact Hs.
Qed.

Lemma all_bots_run_ops (P : ActivityState -> Prop) (ok : ManagerOp -> Prop) :
  (forall m op, ok op -> all_bots P m -> all_bots P (apply_op m op)) ->
  forall ops m, Forall ok ops -> all_bots P m -> all_bots P (run_ops m ops).
Proof.
  intros Hstep ops. induction ops as [|op ops IH]; intros m Hok Hm; simpl; [exact Hm|].
  inversion Hok as [|? ? Hop Hops]; subst.
  apply IH; [exact Hops|]. apply Hstep; assumption.
Qed.

Lemma all_bots_empty (P : ActivityState -> Prop) m : bot_states m = ∅ -> all_bots P m.
Proof. intros E k s. rewrite E, lookup_empty. discriminate. Qed.

(** C9: in every agent state reached from an empty agent map through
    registration, [_set_bot_online], [_set_bot_offline] (and through every
    other operation of the manager), [is_active] is false exactly when
    [offline_since] is set. *)
Theorem C9_offline_iff_offline_since (m0 : BotActivityManager) (ops : list ManagerOp)
    (k : string) (s : ActivityState) :
  bot_states m0 = ∅ ->
  bot_states (run_ops m0 ops) !! k = Some s ->
  (is_active s = false <-> offline_since s <> None).
Proof.
  intros Hempty Hk.
  assert (H : all_bots presence_consistent (run_ops m0 ops)).
  { apply (all_bots_run_ops presence_consistent (fun _ => True)).
    - intros m op _. apply presence_apply_op.
    - clear. induction ops; constructor; auto.
    - apply all_bots_empty, Hempty. }
  exact (H k s Hk).
Qed.

Lemma C9_offline_iff_offline_since_witness :
  exists s,
    bot_states (run_ops fresh_manager
                  [OpRegisterBot noon 0.5%Q "a" None;
                   OpSetBotOffline one_hour_later "a";
                   OpSetBotOnline one_hour_later "a";
                   OpSetBotOffline one_hour_later "a"]) !! "a"%string = Some s
    /\ (is_active s = false <-> offline_since s <> None).
Proof.
  eexists. split; [vm_compute; reflexivity|].
  apply (C9_offline_iff_offline_since fresh_manager
           [OpRegisterBot noon 0.5%Q "a" None;
            OpSetBotOffline one_hour_later "a";
            OpSetBotOnline one_hour_later "a";
            OpSetBotOffline one_hour_later "a"] "a").
  - reflexivity.
  - vm_compute. reflexivity.
Defined.

(** ** Energy and social factor *)

Local Open Scope Q_scope.

Lemma clamp_up (e d : Q) : 0 <= e <= 100 -> 0 <= d -> 0 <= py_min 100 (e + d) <= 100.
Proof. intros He Hd. split; [apply py_min_glb; lra | apply py_min_le_l]. Qed.

Lemma clamp_down (e d : Q) : 0 <= e <= 100 -> 0 <= d -> 0 <= py_max 0 (e - d) <= 100.
Proof. intros He Hd. split; [apply py_max_ge_l | apply py_max_lub; lra]. Qed.

Lemma levels_energy_up d s :
  0 <= d -> levels_in_range s ->
  levels_in_range (set_energy_level (py_min 100 (energy_level s + d)) s).
Proof. intros Hd [He Hs]. split; [apply clamp_up; assumption | exact Hs]. Qed.

Lemma levels_energy_down d s :
  0 <= d -> levels_in_range s ->
  levels_in_range (set_energy_level (py_max 0 (energy_level s - d)) s).
Proof. intros Hd [He Hs]. split; [apply clamp_down; assumption | exact Hs]. Qed.

Lemma levels_social_up d s :
  0 <= d -> levels_in_range s ->
  levels_in_range (set_social_factor (py_min 100 (social_factor s + d)) s).
Proof. intros Hd [He Hs]. split; [exact He | apply clamp_up; assumption]. Qed.

Lemma levels_social_down d s :
  0 <= d -> levels_in_range s ->
  levels_in_range (set_social_factor (py_max 0 (social_factor s - d)) s).
Proof. intros Hd [He Hs]. split; [exact He | apply clamp_down; assumption]. Qed.

(** Assignments to the other fields. *)
Lemma levels_set_mood_state m s : levels_in_range s -> levels_in_range (set_mood_state m s).
Proof. exact (fun H => H). Qed.

Lemma levels_set_daily_counters a b n s :
  levels_in_range s -> levels_in_range (set_daily_counters a b n s).
Proof. exact (fun H => H). Qed.

Lemma levels_set_last_mood_change t s :
  levels_in_range s -> levels_in_range (set_last_mood_change t s).
Proof. exact (fun H => H). Qed.

Lemma levels_set_activity_mode m s :
  levels_in_range s -> levels_in_range (set_activity_mode m s).
Proof. exact (fun H => H). Qed.

Lemma levels_set_last_activity t s :
  levels_in_range s -> levels_in_range (set_last_activity t s).
Proof. exact (fun H => H). Qed.

Lemma levels_set_total_messages n s :
  levels_in_range s -> levels_in_range (set_total_messages n s).
Proof. exact (fun H => H). Qed.

Lemma levels_set_presence a o s :
  levels_in_range s -> levels_in_range (set_presence a o s).
Proof. exact (fun H => H). Qed.

Lemma levels_rate v s : levels_in_range s -> levels_in_range (set_activity_rate v s).
Proof. exact (fun H => H). Qed.

Create HintDb levels.
#[local] Hint Resolve levels_energy_up levels_energy_down levels_social_up
  levels_social_down levels_set_mood_state levels_set_daily_counters
  levels_set_last_mood_change levels_set_activity_mode levels_set_last_activity
  levels_set_total_messages levels_set_presence levels_rate : levels.

Lemma levels_init c bid r a l : levels_in_range (ActivityState_init c bid r a l).
Proof. unfold levels_in_range. simpl. lra. Qed.

Lemma levels_registered c r bid cc :
  levels_in_range
    (match cc with
     | Some cc => apply_custom_config cc (ActivityState_init c bid r true (Some (now c)))
     | None => ActivityState_init c bid r true (Some (now c))
     end).
Proof. destruct cc; apply (levels_init c bid r true (Some (now c))). Qed.

Lemma levels_offline c s : levels_in_range s -> levels_in_range (_set_bot_offline c s).
Proof. exact (fun H => H). Qed.

Lemma levels_online c s : levels_in_range s -> levels_in_range (_set_bot_online c s).
Proof. exact (fun H => H). Qed.

Lemma levels_natural_mood_change c d s :
  levels_in_range s -> levels_in_range (_natural_mood_change c d s).
Proof.
  intros H. unfold _natural_mood_change.
  repeat case_match; cbv zeta; auto with levels.
  apply (levels_energy_down 10 (set_mood_state TIRED s)); [lra | exact H].
Qed.

Lemma levels_update_mood c d it s :
  mood_draws_ok it d -> levels_in_range s -> levels_in_range (update_mood c d it s).
Proof.
  intros [Hpos Hneg] H. unfold update_mood.
  set (s1 := if String.eqb it "positive" then _ else _).
  assert (H1 : levels_in_range s1).
  { unfold s1. destruct (String.eqb it "positive") eqn:E1.
    - apply String.eqb_eq in E1. destruct (Hpos E1) as [Hlo _]. cbv zeta.
      assert (Hup : levels_in_range
                      (set_energy_level
                         (py_min 100
                            (energy_level
                               (set_daily_counters (conversation_count_today s)
                                  (positive_interactions s + 1)
                                  (negative_interactions s) s) + d_energy d))
                         (set_daily_counters (conversation_count_today s)
                            (positive_interactions s + 1)
                            (negative_interactions s) s))).
      { apply levels_energy_up; [lra | exact H]. }
      repeat case_match; auto with levels.
    - destruct (String.eqb it "negative") eqn:E2; [|exact H].
      apply String.eqb_eq in E2. destruct (Hneg E2) as [Hlo _]. cbv zeta.
      assert (Hdown : levels_in_range
                        (set_energy_level
                           (py_max 0
                              (energy_level
                                 (set_daily_counters (conversation_count_today s)
                                    (positive_interactions s)
                                    (negative_interactions s + 1) s) - d_energy d))
                           (set_daily_counters (conversation_count_today s)
                              (positive_interactions s)
                              (negative_interactions s + 1) s))).
      { apply levels_energy_down; [lra | exact H]. }
      repeat case_match; auto with levels. }
  clearbody s1. cbv zeta.
  repeat case_match; auto using levels_natural_mood_change with levels.
Qed.

Lemma levels_update_mood_neutral c d s :
  levels_in_range s -> levels_in_range (update_mood c d "neutral" s).
Proof.
  apply levels_update_mood. split; intros E; discriminate E.
Qed.

Lemma levels_update_activity_mode c s :
  levels_in_range s -> levels_in_range (update_activity_mode c s).
Proof. intros H. unfold update_activity_mode. repeat case_match; exact H. Qed.

Lemma levels_energy_decay c s :
  levels_in_range s -> levels_in_range (energy_decay c s).
Proof.
  intros H. unfold energy_decay. cbv zeta.
  destruct (Qltb 1 (hours_since c (last_activity s))) eqn:E; [|exact H].
  apply Qltb_true in E. apply levels_energy_down; [|exact H].
  apply py_min_glb; lra.
Qed.

Lemma levels_daily_reset d s :
  uniform 20 30 (r_energy d) -> levels_in_range s -> levels_in_range (daily_reset d s).
Proof.
  intros [Hlo _] H. unfold daily_reset. cbv zeta.
  assert (Hup : levels_in_range
                  (set_energy_level
                     (py_min 100 (energy_level (set_daily_counters 0 0 0 s) + r_energy d))
                     (set_daily_counters 0 0 0 s))).
  { apply levels_energy_up; [lra | exact H]. }
  repeat case_match; auto with levels.
Qed.

Lemma levels_learn c pats bid s :
  levels_in_range s -> levels_in_range (_apply_learned_patterns c pats bid s).
Proof.
  intros H. unfold _apply_learned_patterns.
  repeat case_match; auto with levels.
  - apply levels_social_up; [lra | exact H].
  - apply levels_social_down; [lra | exact H].
Qed.

Lemma levels_emergency c s :
  levels_in_range s -> levels_in_range (emergency_offline c s).
Proof.
  intros H. unfold emergency_offline. cbv zeta.
  apply levels_offline, levels_set_mood_state, levels_energy_down; [lra | exact H].
Qed.

Lemma levels_force c mood change s :
  levels_in_range s ->
  levels_in_range
    (set_last_mood_change (now c)
       (set_energy_level
          (py_max 0 (py_min 100 (energy_level (set_mood_state mood s) + change)))
          (set_mood_state mood s))).
Proof.
  intros [He Hs]. split; [|exact Hs]. simpl. split.
  - apply py_max_ge_l.
  - apply py_max_lub; [lra | apply py_min_le_l].
Qed.

#[local] Hint Resolve levels_registered levels_offline levels_online
  levels_update_mood_neutral levels_update_activity_mode levels_energy_decay
  levels_learn levels_emergency : levels.

Lemma levels_apply_op m op :
  op_draws_ok op -> all_bots levels_in_range m -> all_bots levels_in_range (apply_op m op).
Proof.
  intros Hok Hm. destruct op; simpl in *.
  - apply all_bots_insert; [apply levels_registered | exact Hm].
  - apply all_bots_update_bot; auto with levels.
  - apply all_bots_update_bot; auto with levels.
  - apply all_bots_management_steps; try exact Hm; clear m Hm; intros m Hm.
    + apply all_bots_check_daily_reset; [|exact Hm].
      intros bid s. apply levels_daily_reset, Hok.
    + apply all_bots_update_activity_states; auto with levels.
    + apply all_bots_update_activity_rates; auto with levels.
    + apply all_bots_manage_offline; auto with levels.
    + apply all_bots_rotate; auto with levels.
    + apply all_bots_monitor_performance; auto with levels.
    + apply all_bots_learn; auto with levels.
  - apply all_bots_check_daily_reset; [|exact Hm].
    intros bid s. apply levels_daily_reset, Hok.
  - apply all_bots_update_activity_states; auto with levels.
  - apply all_bots_update_activity_rates; auto with levels.
  - apply all_bots_manage_offline; auto with levels.
  - apply all_bots_rotate; auto with levels.
  - apply all_bots_monitor_performance; auto with levels.
  - apply all_bots_emergency_scale_down; auto with levels.
  - apply all_bots_learn; auto with levels.
  - destruct Hok as [Hmood [Hlo _]].
    apply all_bots_update_bot; [|exact Hm]. intros s Hs. cbv zeta.
    set (s1 := set_daily_counters _ _ _ _).
    assert (H1 : levels_in_range s1) by exact Hs.
    set (s2 := if enable_mood_tracking m then _ else _).
    assert (H2 : levels_in_range s2).
    { unfold s2. destruct (enable_mood_tracking m); [|exact H1].
      apply levels_update_mood; assumption. }
    clearbody s2. clear s1 H1.
    set (s3 := match user_count with Some _ => _ | None => _ end).
    assert (H3 : levels_in_range s3).
    { unfold s3. repeat case_match; try exact H2.
      apply levels_social_up; [lra | exact H2]. }
    clearbody s3.
    destruct (String.eqb _ _); [|exact H3].
    apply levels_energy_up; [lra | exact H3].
  - destruct Hok as [Hmood [Hlo _]].
    apply all_bots_update_bot; [|exact Hm]. intros s Hs. cbv zeta.
    set (s1 := set_daily_counters _ _ _ _).
    assert (H1 : levels_in_range s1) by exact Hs.
    set (s2 := if enable_mood_tracking m then _ else _).
    assert (H2 : levels_in_range s2).
    { unfold s2. destruct (enable_mood_tracking m); [|exact H1].
      apply levels_update_mood; assumption. }
    clearbody s2.
    apply levels_energy_up; [lra | exact H2].
  - destruct Hok as [Hlo _].
    apply all_bots_update_bot; [|exact Hm]. intros s Hs. cbv zeta.
    apply (levels_energy_down energy_draw
             (set_total_messages (total_messages (set_last_activity (now c) s) + 1)
                (set_last_activity (now c) s))); [lra | exact Hs].
  - apply all_bots_update_bot; [|exact Hm]. intros s Hs.
    apply levels_force, Hs.
Qed.

Local Close Scope Q_scope.

(** C7: after any sequence of operations of the manager (registrations, the
    callbacks with positive, negative or neutral interactions, passes of
    the loop and each of its steps, among them mood update, energy decay,
    daily reset and pattern learning) whose [random.uniform] draws lie in
    their ranges, every agent has its energy level and its social factor
    within [0,100]. *)
Theorem C7_energy_and_social_stay_in_range (m0 : BotActivityManager)
    (ops : list ManagerOp) (k : string) (s : ActivityState) :
  bot_states m0 = ∅ ->
  Forall op_draws_ok ops ->
  bot_states (run_ops m0 ops) !! k = Some s ->
  (0 <= energy_level s <= 100)%Q /\ (0 <= social_factor s <= 100)%Q.
Proof.
  intros Hempty Hok Hk.
  assert (H : all_bots levels_in_range (run_ops m0 ops)).
  { apply (all_bots_run_ops levels_in_range op_draws_ok).
    - intros m op. apply levels_apply_op.
    - exact Hok.
    - apply all_bots_empty, Hempty. }
  exact (H k s Hk).
Qed.

Lemma C7_energy_and_social_stay_in_range_witness :
  exists s,
    bot_states (run_ops fresh_manager busy_day) !! "a"%string = Some s
    /\ (0 <= energy_level s <= 100)%Q /\ (0 <= social_factor s <= 100)%Q.
Proof.
  eexists. split; [vm_compute; reflexivity|].
  apply (C7_energy_and_social_stay_in_range fresh_manager busy_day "a").
  - reflexivity.
  - unfold busy_day.
    repeat (apply Forall_cons; split);
      try apply Forall_nil; simpl; unfold mood_draws_ok, uniform; simpl;
      repeat split; try (intros; discriminate); try (intros _; lra); try lra.
  - vm_compute. reflexivity.
Defined.

(** ** The order of task ids *)

Lemma ascii_compare_refl a : Ascii.compare a a = Eq.
Proof. unfold Ascii.compare. apply N.compare_refl. Qed.

Lemma ascii_compare_lt_trans a b c :
  Ascii.compare a b = Lt -> Ascii.compare b c = Lt -> Ascii.compare a c = Lt.
Proof.
  unfold Ascii.compare. rewrite !N.compare_lt_iff. apply N.lt_trans.
Qed.

Lemma string_compare_lt_trans a b c :
  String.compare a b = Lt -> String.compare b c = Lt -> String.compare a c = Lt.
Proof.
  revert b c. induction a as [|x a IH]; intros [|y b] [|z c]; simpl;
    try discriminate; try reflexivity.
  destruct (Ascii.compare x y) eqn:Exy; try discriminate;
    destruct (Ascii.compare y z) eqn:Eyz; try discriminate.
  - apply Ascii.compare_eq_iff in Exy, Eyz. subst.
    rewrite ascii_compare_refl. apply IH.
  - apply Ascii.compare_eq_iff in Exy. subst. rewrite Eyz. reflexivity.
  - apply Ascii.compare_eq_iff in Eyz. subst. rewrite Exy. reflexivity.
  - rewrite (ascii_compare_lt_trans _ _ _ Exy Eyz). reflexivity.
Qed.

Lemma string_ltb_trans a b c :
  String.ltb a b = true -> String.ltb b c = true -> String.ltb a c = true.
Proof.
  unfold String.ltb. intros H1 H2.
  destruct (String.compare a b) eqn:E1; try discriminate.
  destruct (String.compare b c) eqn:E2; try discriminate.
  rewrite (string_compare_lt_trans _ _ _ E1 E2). reflexivity.
Qed.

Lemma item_ltb_spec a b :
  item_ltb a b = true <->
  (priority_value a < priority_value b)%Z
  \/ (priority_value a = priority_value b /\ String.ltb (item_id a) (item_id b) = true).
Proof.
  unfold item_ltb. rewrite orb_true_iff, andb_true_iff, Z.ltb_lt, Z.eqb_eq. reflexivity.
Qed.

Lemma item_ltb_trans a b c :
  item_ltb a b = true -> item_ltb b c = true -> item_ltb a c = true.
Proof.
  rewrite !item_ltb_spec. intros [H1|[H1 H1']] [H2|[H2 H2']].
  - left. lia.
  - left. lia.
  - left. lia.
  - right. split; [lia|]. eapply string_ltb_trans; eassumption.
Qed.

Lemma item_le_lt_trans x y z :
  item_ltb x y = true -> item_le y z -> item_le x z.
Proof.
  unfold item_le. intros Hxy Hyz.
  destruct (item_ltb z x) eqn:E; [|reflexivity].
  rewrite (item_ltb_trans _ _ _ E Hxy) in Hyz. discriminate.
Qed.

(** ** The queue stays ordered *)

Lemma queue_put_elem x q y : y ∈ queue_put x q <-> y = x \/ y ∈ q.
Proof.
  induction q as [|z q IH]; simpl.
  - rewrite list_elem_of_singleton. split; [auto|]. intros [H|H]; [exact H | inversion H].
  - destruct (item_ltb x z).
    + rewrite elem_of_cons. reflexivity.
    + rewrite !elem_of_cons, IH. tauto.
Qed.

Lemma queue_put_sorted x q :
  StronglySorted item_le q -> StronglySorted item_le (queue_put x q).
Proof.
  induction 1 as [|z q Hq IH Hz]; simpl.
  - repeat constructor.
  - destruct (item_ltb x z) eqn:E.
    + constructor; [constructor; assumption|].
      constructor.
      * unfold item_le. destruct (item_ltb z x) eqn:E'; [|reflexivity].
        pose proof (item_ltb_trans _ _ _ E E') as Hxx.
        apply item_ltb_spec in Hxx as [Hxx|[_ Hxx]]; [lia|].
        unfold String.ltb in Hxx.
        destruct (String.compare (item_id x) (item_id x)) eqn:Ec; try discriminate.
        pose proof (String.compare_antisym (item_id x) (item_id x)) as Ha.
        rewrite Ec in Ha. discriminate.
      * rewrite Forall_forall in Hz |- *. intros y Hy.
        apply (item_le_lt_trans x z y E). apply Hz, Hy.
    + constructor; [exact IH|].
      rewrite Forall_forall in Hz |- *. intros y Hy.
      apply queue_put_elem in Hy as [->|Hy].
      * exact E.
      * apply Hz, Hy.
Qed.

Lemma queue_put_consistent x q :
  item_consistent x -> Forall item_consistent q -> Forall item_consistent (queue_put x q).
Proof.
  intros Hx Hq. rewrite Forall_forall in Hq |- *. intros y Hy.
  apply queue_put_elem in Hy as [->|Hy]; [exact Hx|].
  apply Hq, Hy.
Qed.

(** ** Reachable states of the task manager *)

Lemma engine_invariant_init n : engine_invariant (AsyncTaskManager_init n).
Proof.
  unfold engine_invariant. simpl.
  split; [constructor|]. split; [constructor|]. split; [auto|]. split; reflexivity.
Qed.

Lemma engine_invariant_start st : engine_invariant st -> engine_invariant (start st).
Proof.
  intros H. unfold start. destruct (is_running st) eqn:E; [exact H|].
  destruct H as (Hs & Hc & Hw & Hr).
  rewrite (proj1 Hr E) in Hw. unfold engine_invariant. simpl.
  split; [exact Hs|]. split; [exact Hc|]. split; [exact Hw|].
  split; discriminate.
Qed.

Lemma engine_invariant_submit s st :
  engine_invariant st -> engine_invariant (snd (submit_task s st)).
Proof.
  intros (Hs & Hc & Hw & Hr). unfold engine_invariant. simpl.
  split; [|split; [|split]].
  - apply queue_put_sorted, Hs.
  - apply queue_put_consistent; [|exact Hc].
    split; [reflexivity|]. split; [reflexivity | simpl; lia].
  - exact Hw.
  - exact Hr.
Qed.

Lemma execute_finish_queue item st :
  item_consistent item ->
  StronglySorted item_le (task_queue st) ->
  Forall item_consistent (task_queue st) ->
  StronglySorted item_le (task_queue (execute_finish item st))
  /\ Forall item_consistent (task_queue (execute_finish item st)).
Proof.
  intros (Hp & Hi & Hr) Hs Hc. unfold execute_finish.
  destruct (task_func item (retry_count (task_info item))); simpl;
    [tauto | | tauto | tauto].
  destruct (_ <? _)%nat eqn:Hlt; simpl; [|tauto]. apply Nat.ltb_lt in Hlt. split.
  - apply queue_put_sorted, Hs.
  - apply queue_put_consistent; [|exact Hc].
    split; [reflexivity|]. split; [exact Hi | simpl; lia].
Qed.

Lemma execute_finish_fields item st :
  active_tasks (execute_finish item st) = delete (item_id item) (active_tasks st)
  /\ semaphore (execute_finish item st) = semaphore st
  /\ max_concurrent_tasks (execute_finish item st) = max_concurrent_tasks st
  /\ worker_task (execute_finish item st) = worker_task st
  /\ is_running (execute_finish item st) = is_running st.
Proof.
  unfold execute_finish.
  destruct (task_func item (retry_count (task_info item))); simpl;
    [tauto | | tauto | tauto].
  destruct (_ <? _)%nat; simpl; tauto.
Qed.

Lemma engine_invariant_worker st :
  engine_invariant st -> engine_invariant (worker_step st).
Proof.
  intros (Hs & Hc & Hw & Hr). unfold worker_step.
  destruct (worker_task st) as [[|item|item|]|] eqn:Ew.
  - destruct (is_running st) eqn:Er;
      [|pose proof (proj1 Hr eq_refl) as X; discriminate X].
    destruct (task_queue st) as [|x rest] eqn:Eq; simpl.
    + unfold engine_invariant. rewrite Ew, Eq, Er.
      split; [constructor|]. split; [constructor|]. split; [exact Hw | exact Hr].
    + inversion Hs; subst. inversion Hc; subst.
      unfold engine_invariant. simpl. rewrite Er.
      split; [assumption|]. split; [assumption|]. split; [tauto|].
      split; discriminate.
  - destruct Hw as (Hi & Ha & Hp).
    destruct (semaphore st) as [|permits] eqn:Esem.
    + unfold engine_invariant. rewrite Ew, Esem.
      split; [exact Hs|]. split; [exact Hc|]. split; [|exact Hr].
      split; [exact Hi|]. split; [exact Ha | exact Hp].
    + unfold engine_invariant. simpl. rewrite Ha, <- Hp.
      split; [assumption|]. split; [assumption|]. split.
      * split; [assumption|]. split; [apply insert_empty | reflexivity].
      * split; [|discriminate]. intros Er. apply Hr in Er. discriminate.
  - destruct Hw as (Hi & Ha & Hp).
    destruct (execute_finish_queue item st Hi Hs Hc) as [Hs' Hc'].
    destruct (execute_finish_fields item st) as (Fa & Fs & Fm & Fw & Fr).
    cbv zeta.
    set (next := match task_func item (retry_count (task_info item)) with
                 | Cancelled => Ended
                 | _ => Waiting
                 end).
    assert (Hnext : next = Waiting \/ next = Ended)
      by (unfold next; destruct (task_func item _); auto).
    clearbody next.
    unfold engine_invariant.
    cbn [set_worker task_queue worker_task active_tasks semaphore
         max_concurrent_tasks is_running].
    rewrite Fa, Fs, Fm, Fr, Ha.
    split; [assumption|]. split; [assumption|]. split.
    * destruct Hnext as [-> | ->]; (split; [apply delete_singleton_eq | exact Hp]).
    * split; [|discriminate]. intros Er. apply Hr in Er. discriminate.
  - unfold engine_invariant. rewrite Ew.
    split; [exact Hs|]. split; [exact Hc|]. split; [exact Hw | exact Hr].
  - unfold engine_invariant. rewrite Ew.
    split; [exact Hs|]. split; [exact Hc|]. split; [exact Hw | exact Hr].
Qed.

Lemma engine_invariant_step st e : engine_invariant st -> engine_invariant (engine_step st e).
Proof.
  intros H. destruct e; simpl.
  - apply engine_invariant_start, H.
  - apply engine_invariant_submit, H.
  - apply engine_invariant_worker, H.
Qed.

Lemma engine_invariant_steps events st :
  engine_invariant st -> engine_invariant (engine_run st events).
Proof.
  unfold engine_run. revert st.
  induction events as [|e es IH]; intros st Hst; simpl; [exact Hst|].
  apply IH, engine_invariant_step, Hst.
Qed.

Lemma engine_invariant_run n events :
  engine_invariant (engine_run (AsyncTaskManager_init n) events).
Proof. apply engine_invariant_steps, engine_invariant_init. Qed.

(** C10: whatever the number of permits and whatever is submitted, in every
    state the task manager reaches the active set holds at most one task;
    when it holds one, the worker is suspended on that task's body and
    holds a permit. *)
Theorem C10_at_most_one_active_task (max_concurrent : nat) (events : list EngineEvent) :
  let st := engine_run (AsyncTaskManager_init max_concurrent) events in
  size (active_tasks st) <= 1
  /\ (active_tasks st <> ∅ ->
      exists item,
        worker_task st = Some (Executing item)
        /\ active_tasks st = {[ item_id item := task_info item ]}
        /\ S (semaphore st) = max_concurrent_tasks st).
Proof.
  intros st. destruct (engine_invariant_run max_concurrent events) as (_ & _ & Hw & _).
  fold st in Hw.
  destruct (worker_task st) as [[|item|item|]|].
  - destruct Hw as [Ha _]. rewrite Ha, map_size_empty. split; [lia | congruence].
  - destruct Hw as (_ & Ha & _). rewrite Ha, map_size_empty. split; [lia | congruence].
  - destruct Hw as (Hi & Ha & Hp). rewrite Ha, map_size_singleton. split; [lia|].
    intros _. exists item. auto.
  - destruct Hw as [Ha _]. rewrite Ha, map_size_empty. split; [lia | congruence].
  - destruct Hw as [Ha _]. rewrite Ha, map_size_empty. split; [lia | congruence].
Qed.

(** ** Task ids of their own *)

Lemma queue_put_perm x q : queue_put x q ≡ₚ x :: q.
Proof.
  induction q as [|y q IH]; simpl; [reflexivity|].
  destruct (item_ltb x y); [reflexivity|].
  rewrite IH. apply Permutation_swap.
Qed.

Lemma submitted_ids_app es1 es2 :
  submitted_ids (es1 ++ es2) = submitted_ids es1 ++ submitted_ids es2.
Proof. apply omap_app. Qed.

Lemma engine_run_app st es1 es2 :
  engine_run st (es1 ++ es2) = engine_run (engine_run st es1) es2.
Proof. apply foldl_app. Qed.

(** The ids in hand after a step are among those in hand before and the
    one the step submits, counted with multiplicity. *)
Lemma entries_step st e :
  item_id <$> entries (engine_step st e)
  ⊆+ (item_id <$> entries st) ++ submitted_ids [e].
Proof.
  destruct e as [|s|]; cbn [engine_step submitted_ids omap]; rewrite ?app_nil_r.
  - unfold start. destruct (is_running st); [reflexivity|].
    unfold entries. cbn [task_queue worker_task worker_item]. rewrite app_nil_r.
    apply fmap_submseteq, submseteq_inserts_r. reflexivity.
  - unfold entries. cbn [snd submit_task task_queue worker_task].
    rewrite !fmap_app, queue_put_perm. cbn [fmap list_fmap item_id].
    simpl. rewrite (Permutation_app_comm _ [_]). simpl.
    apply submseteq_skip. rewrite <- fmap_app. reflexivity.
  - unfold worker_step, entries.
    destruct (worker_task st) as [[|y|y|]|] eqn:Ew; cbn [worker_item]; try reflexivity.
    + destruct (is_running st); [|rewrite Ew; reflexivity].
      destruct (task_queue st) as [|x rest] eqn:Eq; cbn [queue_get].
      * rewrite Ew, Eq. reflexivity.
      * cbn [set_worker task_queue worker_task worker_item].
        rewrite app_nil_r. rewrite <- Permutation_cons_append. reflexivity.
    + destruct (semaphore st); [rewrite Ew; reflexivity|].
      cbn [execute_begin set_worker task_queue worker_task worker_item]. reflexivity.
    + cbv zeta. unfold execute_finish.
      destruct (task_func y (retry_count (task_info y)));
        cbn [set_worker task_queue worker_task worker_item]; rewrite ?app_nil_r;
        try (apply fmap_submseteq, submseteq_inserts_r; reflexivity).
      destruct (_ <? _)%nat; cbn [task_queue];
        [|apply fmap_submseteq, submseteq_inserts_r; reflexivity].
      rewrite queue_put_perm, <- Permutation_cons_append. reflexivity.
    + rewrite Ew. reflexivity.
    + rewrite Ew. reflexivity.
Qed.

Lemma entries_run es st :
  item_id <$> entries (engine_run st es)
  ⊆+ (item_id <$> entries st) ++ submitted_ids es.
Proof.
  revert st. induction es as [|e es IH]; intros st.
  - cbn. rewrite app_nil_r. reflexivity.
  - change (engine_run st (e :: es)) with (engine_run (engine_step st e) es).
    rewrite IH. change (e :: es) with ([e] ++ es).
    rewrite submitted_ids_app, app_assoc.
    apply submseteq_skips_r, entries_step.
Qed.

Lemma submseteq_NoDup {A} (l k : list A) : l ⊆+ k -> NoDup k -> NoDup l.
Proof.
  intros Hsub Hk. apply submseteq_Permutation in Hsub as [k' Hk'].
  rewrite Hk' in Hk. apply NoDup_app in Hk. apply Hk.
Qed.

(** In a run in which every submission has an id of its own, no two
    entries in the hands of the task manager ever carry the same id: the
    queue never holds two tuples that tie on priority and id, so that no
    comparison it makes goes beyond the id. *)
Lemma entries_never_tie (max_concurrent : nat) (events : list EngineEvent) :
  distinct_ids events ->
  let st := engine_run (AsyncTaskManager_init max_concurrent) events in
  NoDup (item_id <$> entries st)
  /\ forall x, x ∈ entries st -> item_id x ∈ submitted_ids events.
Proof.
  intros Hd st.
  pose proof (entries_run events (AsyncTaskManager_init max_concurrent)) as H.
  fold st in H. change (entries (AsyncTaskManager_init max_concurrent)) with (@nil QueueItem) in H.
  cbn [fmap list_fmap app] in H. split.
  - exact (submseteq_NoDup _ _ H Hd).
  - intros x Hx. apply (elem_of_submseteq _ _ _ (list_elem_of_fmap_2 item_id _ _ Hx) H).
Qed.

(** ** Dequeue order *)

(** C4 as stated fails: b is submitted first, a second, with equal
    priority; the worker starts a first. *)
Lemma C4_not_fifo_among_equal_priority :
  ~ fifo_among_equal_priority submit_b_first submit_a_second.
Proof.
  intros H. specialize (H eq_refl). vm_compute in H. discriminate H.
Qed.

(** Nor does the order of the ids follow the time of submission for equal
    names: the id of millisecond 1000 is below that of millisecond 999. *)
Example later_submission_smaller_id :
  String.ltb (make_task_id "a" 1000) (make_task_id "a" 999) = true.
Proof. vm_compute. reflexivity. Qed.

Lemma string_ltb_total a b : a <> b -> String.ltb a b = false -> String.ltb b a = true.
Proof.
  unfold String.ltb. intros Hne H.
  rewrite (String.compare_antisym b a).
  destruct (String.compare a b) eqn:E; simpl; try reflexivity.
  - apply String.compare_eq_iff in E. contradiction.
  - discriminate H.
Qed.

(** C4, amended: in a run in which every submission has a task id of its
    own, in every state the task manager reaches, the entry at the head of
    the queue, which is the one the waiting worker takes next, has the
    highest priority among the pending entries, and among pending entries
    of its own priority it has the smallest task id (task name,
    underscore, millisecond timestamp) in string order; no pending entry
    ties with it. *)
Theorem C4_dequeues_by_priority_then_task_id (max_concurrent : nat)
    (events : list EngineEvent) (x : QueueItem) (rest : list QueueItem) :
  let st := engine_run (AsyncTaskManager_init max_concurrent) events in
  distinct_ids events ->
  task_queue st = x :: rest ->
  (worker_task st = Some Waiting ->
   worker_task (worker_step st) = Some (Acquiring x)
   /\ task_queue (worker_step st) = rest)
  /\ forall y, y ∈ rest ->
       task_id (task_info y) <> task_id (task_info x)
       /\ (TaskPriority.value (priority (task_info y))
           <= TaskPriority.value (priority (task_info x)))%Z
       /\ (priority (task_info y) = priority (task_info x) ->
           String.ltb (task_id (task_info x)) (task_id (task_info y)) = true).
Proof.
  intros st Hd Hq.
  destruct (engine_invariant_run max_concurrent events) as (Hs & Hc & _ & Hr).
  destruct (entries_never_tie max_concurrent events Hd) as [Hnd _].
  fold st in Hs, Hc, Hr, Hnd. rewrite Hq in Hs, Hc. split.
  - intros Hw. unfold worker_step. rewrite Hw.
    destruct (is_running st) eqn:Er.
    + rewrite Hq. simpl. auto.
    + rewrite (proj1 Hr eq_refl) in Hw. discriminate.
  - intros y Hy.
    apply StronglySorted_inv in Hs as [_ Hx].
    rewrite Forall_forall in Hx. specialize (Hx y Hy).
    rewrite Forall_forall in Hc.
    destruct (Hc x ltac:(left)) as (Hpx & Hix & _).
    destruct (Hc y ltac:(right; exact Hy)) as (Hpy & Hiy & _).
    assert (Hne : item_id y <> item_id x).
    { unfold entries in Hnd. rewrite Hq in Hnd.
      rewrite fmap_app in Hnd. apply NoDup_app in Hnd as [Hnd _].
      cbn [fmap list_fmap] in Hnd. apply NoDup_cons in Hnd as [Hnot _].
      intros E. apply Hnot. rewrite <- E. apply list_elem_of_fmap_2, Hy. }
    unfold item_le, item_ltb in Hx.
    apply orb_false_iff in Hx as [Hlt Heq].
    apply Z.ltb_ge in Hlt. rewrite Hpx, Hpy in *.
    split; [rewrite <- Hix, <- Hiy; exact Hne|]. split; [lia|].
    intros Hp. rewrite Hp, Z.eqb_refl in Heq. simpl in Heq.
    rewrite <- Hix, <- Hiy. apply string_ltb_total; assumption.
Qed.

Lemma C4_dequeues_by_priority_then_task_id_witness :
  exists x rest,
    task_queue (engine_run (AsyncTaskManager_init 10)
                  [EvStart; EvSubmit submit_b_first; EvSubmit submit_a_second])
    = x :: rest
    /\ item_id x = "a_1700000000001"%string
    /\ forall y, y ∈ rest ->
         task_id (task_info y) <> task_id (task_info x)
         /\ (TaskPriority.value (priority (task_info y))
             <= TaskPriority.value (priority (task_info x)))%Z
         /\ (priority (task_info y) = priority (task_info x) ->
             String.ltb (task_id (task_info x)) (task_id (task_info y)) = true).
Proof.
  eexists. eexists. split; [vm_compute; reflexivity|]. split; [reflexivity|].
  refine (proj2 (C4_dequeues_by_priority_then_task_id 10
                   [EvStart; EvSubmit submit_b_first; EvSubmit submit_a_second] _ _ _ _)).
  - unfold distinct_ids. vm_compute submitted_ids.
    apply NoDup_cons. split; [set_solver|]. apply NoDup_singleton.
  - vm_compute. reflexivity.
Defined.

(** ** Retries after timeouts *)

Lemma run_worker_add a b st : run_worker (a + b) st = run_worker b (run_worker a st).
Proof. revert st. induction a as [|a IH]; intros st; simpl; [reflexivity | apply IH]. Qed.

Lemma attempts_app id l1 l2 : attempts id (l1 ++ l2) = attempts id l1 + attempts id l2.
Proof. unfold attempts, started. rewrite omap_app, filter_app, length_app. reflexivity. Qed.

Lemma timeouts_app id l1 l2 : timeouts id (l1 ++ l2) = timeouts id l1 + timeouts id l2.
Proof. unfold timeouts, timed_out. rewrite omap_app, filter_app, length_app. reflexivity. Qed.

Lemma attempts_one id r :
  attempts id [r]
  = match r with
    | LogStart i => if decide (i = id) then 1 else 0
    | _ => 0
    end.
Proof.
  unfold attempts, started. destruct r; simpl; try reflexivity.
  rewrite filter_cons. destruct (decide (id0 = id)); reflexivity.
Qed.

Lemma timeouts_one id r :
  timeouts id [r]
  = match r with
    | LogTimeout i _ => if decide (i = id) then 1 else 0
    | _ => 0
    end.
Proof.
  unfold timeouts, timed_out. destruct r; simpl; try reflexivity.
  rewrite filter_cons. destruct (decide (id0 = id)); reflexivity.
Qed.

Lemma pending_cons_nil id x q :
  pending id (x :: q) = [] -> item_id x <> id /\ pending id q = [].
Proof.
  unfold pending. rewrite filter_cons.
  destruct (decide (item_id x = id)); [discriminate | auto].
Qed.

Lemma pending_cons_one id x q x0 :
  pending id (x :: q) = [x0] ->
  (item_id x = id /\ x0 = x /\ pending id q = [])
  \/ (item_id x <> id /\ pending id q = [x0]).
Proof.
  unfold pending. rewrite filter_cons.
  destruct (decide (item_id x = id)) as [E|E]; intros H.
  - left. injection H as -> H. auto.
  - right. auto.
Qed.

Lemma pending_put_other id y q :
  item_id y <> id -> pending id (queue_put y q) = pending id q.
Proof.
  intros Hne. unfold pending. induction q as [|z q IH]; simpl.
  - rewrite filter_cons_False by exact Hne. reflexivity.
  - destruct (item_ltb y z).
    + rewrite (filter_cons_False _ y) by exact Hne. reflexivity.
    + rewrite !(filter_cons _ z), IH. reflexivity.
Qed.

Lemma pending_put_same id y q :
  item_id y = id -> pending id q = [] -> pending id (queue_put y q) = [y].
Proof.
  intros He. induction q as [|z q IH]; simpl; intros Hq.
  - unfold pending. rewrite filter_cons_True by exact He. reflexivity.
  - destruct (pending_cons_nil id z q Hq) as [Hz Hq'].
    destruct (item_ltb y z).
    + unfold pending in *. rewrite filter_cons_True by exact He. rewrite Hq. reflexivity.
    + unfold pending in *. rewrite filter_cons_False by exact Hz. apply IH, Hq'.
Qed.

(** The end of a run of another task changes nothing for [id]. *)
Lemma execute_finish_other id item st :
  item_id item <> id ->
  pending id (task_queue (execute_finish item st)) = pending id (task_queue st)
  /\ attempts id (log (execute_finish item st)) = attempts id (log st)
  /\ timeouts id (log (execute_finish item st)) = timeouts id (log st).
Proof.
  intros Hne. unfold execute_finish.
  destruct (task_func item (retry_count (task_info item))); simpl.
  - rewrite attempts_app, timeouts_app, attempts_one, timeouts_one. auto with lia.
  - destruct (_ <? _)%nat; simpl.
    + rewrite pending_put_other by exact Hne.
      rewrite attempts_app, timeouts_app.
      change [LogTimeout (item_id item) (effective_timeout (incr_retry_count (task_info item)));
              LogRetry (item_id item) (S (retry_count (task_info item)))]
        with ([LogTimeout (item_id item)
                 (effective_timeout (incr_retry_count (task_info item)))]
              ++ [LogRetry (item_id item) (S (retry_count (task_info item)))]).
      rewrite attempts_app, timeouts_app, !attempts_one, !timeouts_one.
      rewrite decide_False by exact Hne. auto with lia.
    + rewrite attempts_app, timeouts_app, attempts_one, timeouts_one.
      rewrite decide_False by exact Hne. auto with lia.
  - rewrite attempts_app, timeouts_app, attempts_one, timeouts_one. auto with lia.
  - rewrite app_nil_r. auto.
Qed.

(** The end of a run of the task itself, timing out: one more timeout is
    logged, and the task is queued again exactly when its retry counter is
    below the limit. *)
Lemma execute_finish_timeout item st :
  task_func item (retry_count (task_info item)) = TimesOut ->
  pending (item_id item) (task_queue st) = [] ->
  pending (item_id item) (task_queue (execute_finish item st))
  = (if (retry_count (task_info item) <? max_retries (task_info item))%nat
     then [retried item] else [])
  /\ attempts (item_id item) (log (execute_finish item st))
     = attempts (item_id item) (log st)
  /\ timeouts (item_id item) (log (execute_finish item st))
     = S (timeouts (item_id item) (log st)).
Proof.
  intros Hf Hq. unfold execute_finish. rewrite Hf.
  destruct (_ <? _)%nat; simpl.
  - fold (retried item). rewrite (pending_put_same _ (retried item)) by auto.
    rewrite attempts_app, timeouts_app.
    change [LogTimeout (item_id item) (effective_timeout (incr_retry_count (task_info item)));
            LogRetry (item_id item) (S (retry_count (task_info item)))]
      with ([LogTimeout (item_id item)
               (effective_timeout (incr_retry_count (task_info item)))]
            ++ [LogRetry (item_id item) (S (retry_count (task_info item)))]).
    rewrite attempts_app, timeouts_app, !attempts_one, !timeouts_one.
    rewrite decide_True by reflexivity. auto with lia.
  - rewrite attempts_app, timeouts_app, attempts_one, timeouts_one.
    rewrite decide_True by reflexivity. auto with lia.
Qed.

(** The phase of the task follows every resumption of the worker. *)
Lemma task_phase_worker id n a0 t0 st :
  task_phase id n a0 t0 (task_queue st) (worker_task st) (log st) ->
  task_phase id n a0 t0 (task_queue (worker_step st)) (worker_task (worker_step st))
    (log (worker_step st)).
Proof.
  intros H. unfold worker_step.
  destruct (worker_task st) as [[|y|y|]|] eqn:Ew.
  - destruct (is_running st); [|rewrite Ew; exact H].
    destruct (task_queue st) as [|x rest] eqn:Eq; simpl; [rewrite Ew, Eq; exact H|].
    destruct H as [x0 Hp Hfree Hto Hmax Hle Ha Ht
                  | x0 Hp Hw Hid Hto Hmax Hle Ha Ht
                  | x0 Hp Hw Hid Hto Hmax Hle Ha Ht
                  | Hp Hfree Ha Ht]; try discriminate.
    + destruct (pending_cons_one id x rest x0 Hp) as [(Hx & -> & Hrest)|(Hx & Hrest)].
      * exact (phase_acquiring id n a0 t0 _ _ _ x Hrest eq_refl Hx Hto Hmax Hle Ha Ht).
      * assert (Hfree' : forall z, worker_item (Some (Acquiring x)) = Some z -> item_id z <> id)
          by (intros z [= <-]; exact Hx).
        exact (phase_pending id n a0 t0 _ _ _ x0 Hrest Hfree' Hto Hmax Hle Ha Ht).
    + destruct (pending_cons_nil id x rest Hp) as [Hx Hrest].
      assert (Hfree' : forall z, worker_item (Some (Acquiring x)) = Some z -> item_id z <> id)
        by (intros z [= <-]; exact Hx).
      exact (phase_gone id n a0 t0 _ _ _ Hrest Hfree' Ha Ht).
  - destruct (semaphore st) as [|permits]; [rewrite Ew; exact H|]. simpl.
    assert (Hother : item_id y <> id ->
              (forall z, worker_item (Some (Executing y)) = Some z -> item_id z <> id)
              /\ attempts id (log st ++ [LogStart (item_id y)]) = attempts id (log st)
              /\ timeouts id (log st ++ [LogStart (item_id y)]) = timeouts id (log st)).
    { intros Hy. split; [intros z [= <-]; exact Hy|]. split.
      - rewrite attempts_app, attempts_one, decide_False by exact Hy. lia.
      - rewrite timeouts_app, timeouts_one. lia. }
    destruct H as [x0 Hp Hfree Hto Hmax Hle Ha Ht
                  | x0 Hp Hw Hid Hto Hmax Hle Ha Ht
                  | x0 Hp Hw Hid Hto Hmax Hle Ha Ht
                  | Hp Hfree Ha Ht]; try discriminate.
    + destruct (Hother (Hfree y eq_refl)) as (Hfree' & Ea & Et).
      rewrite <- Ea in Ha. rewrite <- Et in Ht.
      exact (phase_pending id n a0 t0 _ _ _ x0 Hp Hfree' Hto Hmax Hle Ha Ht).
    + injection Hw as Hyx. subst y.
      assert (Ha' : attempts id (log st ++ [LogStart (item_id x0)])
                    = a0 + retry_count (task_info x0) + 1)
        by (rewrite attempts_app, attempts_one, decide_True by exact Hid; lia).
      assert (Ht' : timeouts id (log st ++ [LogStart (item_id x0)])
                    = t0 + retry_count (task_info x0))
        by (rewrite timeouts_app, timeouts_one; lia).
      exact (phase_executing id n a0 t0 _ _ _ x0 Hp eq_refl Hid Hto Hmax Hle Ha' Ht').
    + destruct (Hother (Hfree y eq_refl)) as (Hfree' & Ea & Et).
      rewrite <- Ea in Ha. rewrite <- Et in Ht.
      exact (phase_gone id n a0 t0 _ _ _ Hp Hfree' Ha Ht).
  - cbv zeta.
    set (next := match task_func y (retry_count (task_info y)) with
                 | Cancelled => Ended
                 | _ => Waiting
                 end).
    assert (Hfree' : forall z, worker_item (Some next) = Some z -> item_id z <> id)
      by (unfold next; destruct (task_func y _); discriminate).
    clearbody next.
    cbn [set_worker task_queue worker_task log].
    destruct H as [x0 Hp Hfree Hto Hmax Hle Ha Ht
                  | x0 Hp Hw Hid Hto Hmax Hle Ha Ht
                  | x0 Hp Hw Hid Hto Hmax Hle Ha Ht
                  | Hp Hfree Ha Ht]; try discriminate.
    + destruct (execute_finish_other id y st (Hfree y eq_refl)) as (Fq & Fa & Ft).
      rewrite <- Fq in Hp. rewrite <- Fa in Ha. rewrite <- Ft in Ht.
      exact (phase_pending id n a0 t0 _ _ _ x0 Hp Hfree' Hto Hmax Hle Ha Ht).
    + injection Hw as Hyx. subst y. subst id.
      destruct (execute_finish_timeout x0 st (Hto _) Hp) as (Fq & Fa & Ft).
      destruct (retry_count (task_info x0) <? max_retries (task_info x0))%nat eqn:Hlt.
      * apply Nat.ltb_lt in Hlt.
        assert (Ha' : attempts (item_id x0) (log (execute_finish x0 st))
                      = a0 + retry_count (task_info (retried x0)))
          by (rewrite Fa; simpl; lia).
        assert (Ht' : timeouts (item_id x0) (log (execute_finish x0 st))
                      = t0 + retry_count (task_info (retried x0)))
          by (rewrite Ft; simpl; lia).
        assert (Hle' : retry_count (task_info (retried x0)) <= n) by (simpl; lia).
        exact (phase_pending (item_id x0) n a0 t0 _ _ _ (retried x0)
                 Fq Hfree' Hto Hmax Hle' Ha' Ht').
      * apply Nat.ltb_ge in Hlt.
        assert (Ha' : attempts (item_id x0) (log (execute_finish x0 st)) = a0 + n + 1)
          by (rewrite Fa; lia).
        assert (Ht' : timeouts (item_id x0) (log (execute_finish x0 st)) = t0 + n + 1)
          by (rewrite Ft; lia).
        exact (phase_gone (item_id x0) n a0 t0 _ _ _ Fq Hfree' Ha' Ht').
    + destruct (execute_finish_other id y st (Hfree y eq_refl)) as (Fq & Fa & Ft).
      rewrite <- Fq in Hp. rewrite <- Fa in Ha. rewrite <- Ft in Ht.
      exact (phase_gone id n a0 t0 _ _ _ Hp Hfree' Ha Ht).
  - rewrite Ew. exact H.
  - rewrite Ew. exact H.
Qed.

Lemma task_phase_step id n a0 t0 st e :
  engine_invariant st -> other_id id e ->
  task_phase id n a0 t0 (task_queue st) (worker_task st) (log st) ->
  task_phase id n a0 t0 (task_queue (engine_step st e)) (worker_task (engine_step st e))
    (log (engine_step st e)).
Proof.
  intros (_ & _ & _ & Hr) Hother H. destruct e as [|s|]; simpl.
  - unfold start. destruct (is_running st) eqn:Er; [exact H|]. simpl.
    rewrite (proj1 Hr eq_refl) in H.
    destruct H as [x0 Hp Hfree Hto Hmax Hle Ha Ht
                  | x0 Hp Hw Hid Hto Hmax Hle Ha Ht
                  | x0 Hp Hw Hid Hto Hmax Hle Ha Ht
                  | Hp Hfree Ha Ht]; try discriminate.
    + assert (Hfree' : forall z, worker_item (Some Waiting) = Some z -> item_id z <> id)
        by discriminate.
      exact (phase_pending id n a0 t0 _ _ _ x0 Hp Hfree' Hto Hmax Hle Ha Ht).
    + assert (Hfree' : forall z, worker_item (Some Waiting) = Some z -> item_id z <> id)
        by discriminate.
      exact (phase_gone id n a0 t0 _ _ _ Hp Hfree' Ha Ht).
  - simpl in Hother.
    assert (Hq : pending id (queue_put (submitted_item s) (task_queue st))
                 = pending id (task_queue st))
      by (apply pending_put_other; exact Hother).
    change (task_queue (submit_task s st).2)
      with (queue_put (submitted_item s) (task_queue st)).
    change (log (submit_task s st).2)
      with (log st ++ [LogSubmitted (make_task_id (sub_name s) (sub_millis s))]).
    change (worker_task (submit_task s st).2) with (worker_task st).
    assert (Ha' : attempts id (log st ++ [LogSubmitted (make_task_id (sub_name s) (sub_millis s))])
                  = attempts id (log st))
      by (rewrite attempts_app, attempts_one; lia).
    assert (Ht' : timeouts id (log st ++ [LogSubmitted (make_task_id (sub_name s) (sub_millis s))])
                  = timeouts id (log st))
      by (rewrite timeouts_app, timeouts_one; lia).
    destruct H as [x0 Hp Hfree Hto Hmax Hle Ha Ht
                  | x0 Hp Hw Hid Hto Hmax Hle Ha Ht
                  | x0 Hp Hw Hid Hto Hmax Hle Ha Ht
                  | Hp Hfree Ha Ht].
    + rewrite <- Hq in Hp. rewrite <- Ha' in Ha. rewrite <- Ht' in Ht.
      exact (phase_pending id n a0 t0 _ _ _ x0 Hp Hfree Hto Hmax Hle Ha Ht).
    + rewrite <- Hq in Hp. rewrite <- Ha' in Ha. rewrite <- Ht' in Ht.
      exact (phase_acquiring id n a0 t0 _ _ _ x0 Hp Hw Hid Hto Hmax Hle Ha Ht).
    + rewrite <- Hq in Hp. rewrite <- Ha' in Ha. rewrite <- Ht' in Ht.
      exact (phase_executing id n a0 t0 _ _ _ x0 Hp Hw Hid Hto Hmax Hle Ha Ht).
    + rewrite <- Hq in Hp. rewrite <- Ha' in Ha. rewrite <- Ht' in Ht.
      exact (phase_gone id n a0 t0 _ _ _ Hp Hfree Ha Ht).
  - apply task_phase_worker, H.
Qed.

Lemma task_phase_run id n a0 t0 events st :
  engine_invariant st -> Forall (other_id id) events ->
  task_phase id n a0 t0 (task_queue st) (worker_task st) (log st) ->
  let st' := engine_run st events in
  task_phase id n a0 t0 (task_queue st') (worker_task st') (log st').
Proof.
  revert st. induction events as [|e es IH]; intros st Hinv Hev H; simpl; [exact H|].
  inversion Hev as [|? ? He Hes]; subst.
  apply IH; [apply engine_invariant_step, Hinv | exact Hes |].
  apply task_phase_step; assumption.
Qed.

Lemma task_phase_run_worker id n a0 t0 k st :
  task_phase id n a0 t0 (task_queue st) (worker_task st) (log st) ->
  let st' := run_worker k st in
  task_phase id n a0 t0 (task_queue st') (worker_task st') (log st').
Proof.
  revert st. induction k as [|k IH]; intros st H; simpl; [exact H|].
  apply IH, task_phase_worker, H.
Qed.

(** Right after its submission under a fresh id the task is pending with
    no attempt made. *)
Lemma task_phase_submitted s st :
  always_times_out (sub_func s) ->
  gone (make_task_id (sub_name s) (sub_millis s)) st ->
  let id := make_task_id (sub_name s) (sub_millis s) in
  let st1 := snd (submit_task s st) in
  task_phase id 3 (attempts id (log st)) (timeouts id (log st))
    (task_queue st1) (worker_task st1) (log st1).
Proof.
  intros Hto [Hq Hfree] id st1.
  apply (phase_pending _ _ _ _ _ _ _ (submitted_item s)); simpl; auto; try lia.
  - apply (pending_put_same id (submitted_item s)); [reflexivity | exact Hq].
  - rewrite attempts_app, attempts_one. lia.
  - rewrite timeouts_app, timeouts_one. lia.
Qed.

(** What the phase says about the counts. *)
Lemma task_phase_counts id n a0 t0 st :
  task_phase id n a0 t0 (task_queue st) (worker_task st) (log st) ->
  attempts id (log st) <= a0 + (n + 1)
  /\ timeouts id (log st) <= t0 + (n + 1)
  /\ (gone id st ->
      attempts id (log st) = a0 + (n + 1) /\ timeouts id (log st) = t0 + (n + 1)).
Proof.
  intros [x0 Hp Hfree Hto Hmax Hle Ha Ht
         | x0 Hp Hw Hid Hto Hmax Hle Ha Ht
         | x0 Hp Hw Hid Hto Hmax Hle Ha Ht
         | Hp Hfree Ha Ht].
  - split; [lia|]. split; [lia|]. intros [Hg _]. congruence.
  - split; [lia|]. split; [lia|]. intros [_ Hg]. exfalso.
    apply (Hg x0); [rewrite Hw; reflexivity | exact Hid].
  - split; [lia|]. split; [lia|]. intros [_ Hg]. exfalso.
    apply (Hg x0); [rewrite Hw; reflexivity | exact Hid].
  - split; [lia|]. split; [lia|]. intros _. split; lia.
Qed.

(** ** The worker drains the queue *)

Lemma weight_pos x : 3 <= weight x.
Proof. unfold weight. lia. Qed.

Lemma sum_weight_put y q :
  sum_list (weight <$> queue_put y q) = weight y + sum_list (weight <$> q).
Proof.
  induction q as [|z q IH]; [reflexivity|]. cbn [queue_put].
  destruct (item_ltb y z); [reflexivity|].
  change (sum_list (weight <$> z :: queue_put y q))
    with (weight z + sum_list (weight <$> queue_put y q)).
  change (sum_list (weight <$> z :: q)) with (weight z + sum_list (weight <$> q)).
  rewrite IH. lia.
Qed.

Lemma work_left_finish item st :
  item_consistent item ->
  sum_list (weight <$> task_queue (execute_finish item st)) + 3
  <= sum_list (weight <$> task_queue st) + weight item.
Proof.
  intros (_ & _ & Hle). pose proof (weight_pos item) as Hw. unfold execute_finish.
  destruct (task_func item (retry_count (task_info item))); simpl; try lia.
  destruct (_ <? _)%nat eqn:Hlt; simpl; [|lia].
  apply Nat.ltb_lt in Hlt. rewrite sum_weight_put. unfold weight in *. simpl. lia.
Qed.

Lemma sum_weight_cons x q :
  sum_list (weight <$> x :: q) = weight x + sum_list (weight <$> q).
Proof. reflexivity. Qed.

(** A running worker with a permit to take makes progress. *)
Lemma work_left_step st :
  engine_invariant st -> is_running st = true -> 1 <= max_concurrent_tasks st ->
  worker_task st <> Some Ended ->
  0 < work_left st -> work_left (worker_step st) < work_left st.
Proof.
  intros (Hs & Hc & Hw & Hr) Hrun Hmax Hlive Hpos.
  unfold work_left in *. unfold worker_step.
  destruct (worker_task st) as [[|y|y|]|] eqn:Ew.
  - rewrite Hrun. destruct (task_queue st) as [|x rest] eqn:Eq.
    + exfalso. change (0 < 0 + 0) in Hpos. clear -Hpos. lia.
    + cbn [queue_get task_queue worker_task set_worker].
      rewrite sum_weight_cons. pose proof (weight_pos x) as Hx.
      set (a := sum_list (weight <$> rest)). set (b := weight x) in *.
      clearbody a b. clear -Hx. lia.
  - destruct Hw as (Hi & Ha & Hp). rewrite <- Hp in Hmax.
    destruct (semaphore st) as [|permits]; [exfalso; clear -Hmax; lia|].
    cbn [execute_begin task_queue worker_task set_worker].
    pose proof (weight_pos y) as Hy.
    set (a := sum_list (weight <$> task_queue st)). set (b := weight y) in *.
    clearbody a b. clear -Hy. lia.
  - destruct Hw as (Hi & Ha & Hp). cbv zeta.
    set (next := match task_func y (retry_count (task_info y)) with
                 | Cancelled => Ended
                 | _ => Waiting
                 end).
    assert (Hnext : next = Waiting \/ next = Ended)
      by (unfold next; destruct (task_func y _); auto).
    clearbody next.
    cbn [task_queue worker_task set_worker].
    pose proof (work_left_finish y st Hi) as Hf. pose proof (weight_pos y) as Hy.
    set (a := sum_list (weight <$> task_queue st)) in *. set (b := weight y) in *.
    set (d := sum_list (weight <$> task_queue (execute_finish y st))) in *.
    clearbody a b d. destruct Hnext as [-> | ->]; clear -Hy Hf; lia.
  - contradiction.
  - pose proof (proj2 Hr eq_refl). congruence.
Qed.

Lemma worker_step_keeps st :
  is_running (worker_step st) = is_running st
  /\ max_concurrent_tasks (worker_step st) = max_concurrent_tasks st.
Proof.
  unfold worker_step.
  destruct (worker_task st) as [[|y|y|]|]; try (split; reflexivity).
  - destruct (is_running st) eqn:Er; [|rewrite Er; split; reflexivity].
    destruct (queue_get _) as [[x r]|]; [split; [exact Er | reflexivity]|].
    rewrite Er. split; reflexivity.
  - destruct (semaphore st); split; reflexivity.
  - destruct (execute_finish_fields y st) as (_ & _ & Fm & _ & Fr). simpl. auto.
Qed.

Lemma work_left_zero st :
  engine_invariant st -> is_running st = true -> worker_task st <> Some Ended ->
  work_left st = 0 ->
  task_queue st = [] /\ worker_task st = Some Waiting.
Proof.
  intros (_ & _ & _ & Hr) Hrun Hlive H0. unfold work_left in H0. split.
  - destruct (task_queue st) as [|x q]; [reflexivity|]. simpl in H0.
    pose proof (weight_pos x). lia.
  - destruct (worker_task st) as [[|y|y|]|] eqn:Ew; [reflexivity | | | |].
    + exfalso. pose proof (weight_pos y). lia.
    + exfalso. pose proof (weight_pos y). lia.
    + contradiction.
    + pose proof (proj2 Hr eq_refl). congruence.
Qed.

(** A worker that cannot be cancelled stays so. *)
Lemma cancel_free_worker st : cancel_free st -> cancel_free (worker_step st).
Proof.
  intros [Hlive Hall]. unfold cancel_free, entries, worker_step in *.
  destruct (worker_task st) as [[|y|y|]|] eqn:Ew; cbn [worker_item] in *.
  - destruct (is_running st); [|rewrite Ew; split; [discriminate | exact Hall]].
    destruct (task_queue st) as [|x rest] eqn:Eq; cbn [queue_get].
    + rewrite Ew, Eq. split; [discriminate | exact Hall].
    + cbn [set_worker task_queue worker_task worker_item].
      split; [discriminate|].
      rewrite app_nil_r in Hall. apply Forall_cons in Hall as [Hx Hrest].
      apply Forall_app. split; [exact Hrest | apply Forall_singleton; exact Hx].
  - destruct (semaphore st); [rewrite Ew; split; [discriminate | exact Hall]|].
    cbn [execute_begin set_worker task_queue worker_task worker_item].
    split; [discriminate | exact Hall].
  - apply Forall_app in Hall as [Hq Hy]. rewrite Forall_singleton in Hy.
    cbv zeta. pose proof (Hy (retry_count (task_info y))) as Hout.
    unfold execute_finish.
    destruct (task_func y (retry_count (task_info y))) eqn:Eo;
      try contradiction;
      cbn [set_worker task_queue worker_task worker_item];
      (split; [discriminate|]); rewrite app_nil_r; try exact Hq.
    destruct (_ <? _)%nat; cbn [task_queue]; [|exact Hq].
    apply Forall_forall. intros z Hz. apply queue_put_elem in Hz as [->|Hz].
    + exact Hy.
    + rewrite Forall_forall in Hq. exact (Hq z Hz).
  - contradiction.
  - rewrite Ew. split; [discriminate | exact Hall].
Qed.

Lemma run_worker_drains k st :
  engine_invariant st -> is_running st = true -> 1 <= max_concurrent_tasks st ->
  cancel_free st ->
  work_left st <= k ->
  task_queue (run_worker k st) = [] /\ worker_task (run_worker k st) = Some Waiting.
Proof.
  revert st. induction k as [|k IH]; intros st Hinv Hrun Hmax Hfree Hk; simpl.
  - apply work_left_zero; [assumption | assumption | apply Hfree | lia].
  - destruct (worker_step_keeps st) as [Kr Km].
    apply IH.
    + apply engine_invariant_worker, Hinv.
    + congruence.
    + congruence.
    + apply cancel_free_worker, Hfree.
    + destruct (decide (work_left st = 0)) as [Hz|Hnz].
      * destruct (work_left_zero st Hinv Hrun (proj1 Hfree) Hz) as [Hq Hw].
        assert (Hsame : worker_step st = st).
        { unfold worker_step. rewrite Hw, Hq, Hrun. reflexivity. }
        rewrite Hsame. lia.
      * pose proof (work_left_step st Hinv Hrun Hmax (proj1 Hfree) ltac:(lia)). lia.
Qed.

Lemma idle_worker_stays st j :
  worker_task st = Some Waiting -> task_queue st = [] -> run_worker j st = st.
Proof.
  intros Hw Hq. induction j as [|j IH]; simpl; [reflexivity|].
  assert (Hstep : worker_step st = st).
  { unfold worker_step. rewrite Hw, Hq. destruct (is_running st); reflexivity. }
  rewrite Hstep. exact IH.
Qed.

(** The [timeout] counter of the metrics counts the handled timeouts of
    all tasks. *)
Lemma timeout_counter_step st e :
  error_count "timeout" st = length (timed_out (log st)) ->
  error_count "timeout" (engine_step st e) = length (timed_out (log (engine_step st e))).
Proof.
  intros H. destruct e as [|s|]; simpl.
  - unfold start. destruct (is_running st); exact H.
  - unfold timed_out. rewrite omap_app, length_app. simpl.
    unfold timed_out in H. unfold error_count in *. simpl. lia.
  - unfold worker_step. destruct (worker_task st) as [[|y|y|]|]; try exact H.
    + destruct (is_running st); [|exact H].
      destruct (queue_get _) as [[x r]|]; exact H.
    + destruct (semaphore st); [exact H|].
      unfold timed_out, error_count in *. simpl. rewrite omap_app, length_app. simpl. lia.
    + unfold execute_finish, timed_out, error_count in *.
      destruct (task_func y (retry_count (task_info y))); simpl.
      * rewrite omap_app, length_app. simpl. lia.
      * destruct (_ <? _)%nat; simpl; rewrite omap_app, length_app, lookup_insert_eq;
          simpl; lia.
      * rewrite omap_app, length_app. simpl.
        rewrite lookup_insert_ne by discriminate. lia.
      * rewrite app_nil_r. exact H.
Qed.

Lemma timeout_counter_run events st :
  error_count "timeout" st = length (timed_out (log st)) ->
  error_count "timeout" (engine_run st events)
  = length (timed_out (log (engine_run st events))).
Proof.
  revert st. induction events as [|e es IH]; intros st H; simpl; [exact H|].
  apply IH, timeout_counter_step, H.
Qed.

(** C2 as stated fails: with the default of three retries, the task that
    always times out leaves four timeout errors behind, not one. *)
Lemma C2_timeout_not_recorded_once :
  ~ timeout_recorded_once submit_hopeless
  /\ error_count "timeout"
       (run_worker 12 (snd (submit_task submit_hopeless (start (AsyncTaskManager_init 10)))))
     = 4.
Proof.
  split.
  - intros [_ H]. vm_compute in H. discriminate H.
  - vm_compute. reflexivity.
Qed.

(** ** What a run with ids of their own and without cancellation keeps *)

(** An id that the log mentions as started or timed out was in hand. *)
Lemma log_ids_step st e i :
  i ∈ started (log (engine_step st e)) ++ timed_out (log (engine_step st e)) ->
  i ∈ started (log st) ++ timed_out (log st) \/ i ∈ item_id <$> entries st.
Proof.
  destruct e as [|s|]; cbn [engine_step].
  - unfold start. destruct (is_running st); auto.
  - cbn [snd submit_task log]. unfold started, timed_out.
    rewrite !omap_app. cbn [omap list_omap]. rewrite !app_nil_r. auto.
  - unfold worker_step, entries.
    destruct (worker_task st) as [[|y|y|]|] eqn:Ew; cbn [worker_item]; auto.
    + destruct (is_running st); [|auto].
      destruct (queue_get (task_queue st)) as [[x r]|]; auto.
    + destruct (semaphore st); [auto|].
      cbn [execute_begin set_worker log]. unfold started, timed_out.
      rewrite !omap_app. cbn [omap list_omap]. rewrite !app_nil_r.
      rewrite !elem_of_app, list_elem_of_singleton, fmap_app, elem_of_app.
      intros [[H| ->]|H]; auto.
      right. right. cbn. left.
    + cbv zeta. cbn [set_worker log]. unfold execute_finish.
      assert (Hy : item_id y ∈ item_id <$> task_queue st ++ [y]).
      { rewrite fmap_app. apply elem_of_app. right. cbn. left. }
      destruct (task_func y (retry_count (task_info y))); cbn [log];
        unfold started, timed_out; rewrite ?omap_app; cbn [omap list_omap];
        rewrite ?app_nil_r; auto.
      * destruct (_ <? _)%nat; cbn [log]; rewrite ?omap_app; cbn [omap list_omap];
          rewrite ?app_nil_r, !elem_of_app, list_elem_of_singleton;
          intros [H|[H| ->]]; auto.
Qed.

Lemma known_ids_run es st l :
  (forall i, i ∈ started (log st) ++ timed_out (log st) -> i ∈ l) ->
  (forall i, i ∈ item_id <$> entries st -> i ∈ l) ->
  let st' := engine_run st es in
  (forall i, i ∈ started (log st') ++ timed_out (log st') -> i ∈ l ++ submitted_ids es)
  /\ (forall i, i ∈ item_id <$> entries st' -> i ∈ l ++ submitted_ids es).
Proof.
  revert st l. induction es as [|e es IH]; intros st l Hlog Hent.
  - cbn. rewrite app_nil_r. auto.
  - change (engine_run st (e :: es)) with (engine_run (engine_step st e) es).
    change (e :: es) with ([e] ++ es). rewrite submitted_ids_app, app_assoc.
    apply IH.
    + intros i Hi. apply elem_of_app. left.
      destruct (log_ids_step st e i Hi) as [H|H]; auto.
    + intros i Hi. pose proof (elem_of_submseteq _ _ _ Hi (entries_step st e)) as H.
      apply elem_of_app in H as [H|H]; apply elem_of_app; auto.
Qed.

Lemma pending_absent id q :
  (forall x, x ∈ q -> item_id x <> id) -> pending id q = [].
Proof.
  unfold pending. induction q as [|a q IH]; intros H; [reflexivity|].
  rewrite filter_cons_False by (apply H; left).
  apply IH. intros x Hx. apply H. right. exact Hx.
Qed.

Lemma filter_absent (id : string) (l : list string) :
  id ∉ l -> filter (fun x => x = id) l = [].
Proof.
  induction l as [|a l IH]; intros H; [reflexivity|].
  rewrite not_elem_of_cons in H. destruct H as [Hne H].
  rewrite filter_cons_False by congruence. apply IH, H.
Qed.

(** Before its submission, an id of its own is unknown to the task
    manager: nothing is queued, held, started or timed out under it. *)
Lemma fresh_id_unknown (max_concurrent : nat) (before : list EngineEvent) (id : string) :
  id ∉ submitted_ids before ->
  let st0 := engine_run (AsyncTaskManager_init max_concurrent) before in
  gone id st0 /\ attempts id (log st0) = 0 /\ timeouts id (log st0) = 0.
Proof.
  intros Hfresh st0.
  destruct (known_ids_run before (AsyncTaskManager_init max_concurrent) [])
    as [Hlog Hent].
  { intros i Hi. exact Hi. }
  { intros i Hi. exact Hi. }
  fold st0 in Hlog, Hent. cbn [app] in Hlog, Hent.
  assert (Hno : forall x, x ∈ entries st0 -> item_id x <> id).
  { intros x Hx E. apply Hfresh. rewrite <- E. apply Hent, list_elem_of_fmap_2, Hx. }
  split; [|split].
  - split.
    + apply pending_absent. intros x Hx. apply Hno. unfold entries.
      apply elem_of_app. left. exact Hx.
    + intros x Hx. apply Hno. unfold entries. rewrite Hx.
      apply elem_of_app. right. left.
  - unfold attempts. rewrite filter_absent; [reflexivity|].
    intros H. apply Hfresh, Hlog, elem_of_app. left. exact H.
  - unfold timeouts. rewrite filter_absent; [reflexivity|].
    intros H. apply Hfresh, Hlog, elem_of_app. right. exact H.
Qed.

Lemma distinct_ids_split before s after :
  distinct_ids (before ++ EvSubmit s :: after) ->
  (make_task_id (sub_name s) (sub_millis s) ∉ submitted_ids before)
  /\ Forall (other_id (make_task_id (sub_name s) (sub_millis s))) after.
Proof.
  unfold distinct_ids. rewrite submitted_ids_app.
  change (EvSubmit s :: after) with ([EvSubmit s] ++ after).
  rewrite submitted_ids_app. cbn [submitted_ids omap list_omap app].
  intros H. apply NoDup_app in H as (_ & Hdis & Hnd).
  apply NoDup_cons in Hnd as [Hnot _]. split.
  - intros Hin. apply (Hdis _ Hin). left.
  - apply Forall_forall. intros e He. destruct e as [|s'|]; cbn; auto.
    intros E. apply Hnot. rewrite <- E.
    unfold submitted_ids. apply list_elem_of_omap. exists (EvSubmit s'). auto.
Qed.

(** A run none of whose submissions can be cancelled never ends the
    worker. *)
Lemma cancel_free_step st e :
  no_cancellation [e] -> cancel_free st -> cancel_free (engine_step st e).
Proof.
  intros Hn Hc. destruct e as [|s|]; cbn [engine_step].
  - unfold start. destruct (is_running st); [exact Hc|].
    destruct Hc as [_ Hall]. unfold cancel_free, entries in *.
    cbn [worker_task task_queue worker_item]. split; [discriminate|].
    rewrite app_nil_r. apply Forall_app in Hall. apply Hall.
  - destruct Hc as [Hlive Hall]. unfold cancel_free, entries in *.
    cbn [snd submit_task worker_task task_queue]. split; [exact Hlive|].
    apply Forall_app in Hall as [Hq Hh]. apply Forall_app. split; [|exact Hh].
    apply Forall_forall. intros z Hz. apply queue_put_elem in Hz as [->|Hz].
    + cbn [task_func]. unfold no_cancellation in Hn.
      rewrite Forall_singleton in Hn. exact Hn.
    + rewrite Forall_forall in Hq. exact (Hq z Hz).
  - apply cancel_free_worker, Hc.
Qed.

Lemma cancel_free_steps es st :
  no_cancellation es -> cancel_free st -> cancel_free (engine_run st es).
Proof.
  revert st. induction es as [|e es IH]; intros st Hn Hc; [exact Hc|].
  change (engine_run st (e :: es)) with (engine_run (engine_step st e) es).
  unfold no_cancellation in Hn. rewrite Forall_cons in Hn. destruct Hn as [He Hes].
  apply IH; [exact Hes|]. apply cancel_free_step; [|exact Hc].
  unfold no_cancellation. rewrite Forall_singleton. exact He.
Qed.

Lemma cancel_free_init n : cancel_free (AsyncTaskManager_init n).
Proof. split; [discriminate | constructor]. Qed.

(** C2, amended: in a run in which every submission has a task id of its
    own, a task whose every run times out is started at most
    [max_retries + 1] times (four times for the default of three), with at
    most as many timeout errors recorded for it; once it is neither queued
    nor in the hands of the worker it has been started exactly
    [max_retries + 1] times and exactly [max_retries + 1] timeout errors,
    one per run, have been recorded for it (the [timeout] counter of the
    metrics counts these records for all tasks).  With a running worker, at
    least one permit and no task body that ends in [CancelledError],
    [work_left] resumptions of the worker without further submissions
    bring that about, after which the worker finds nothing more to do. *)
Theorem C2_timeouts_retry_then_drop (max_concurrent : nat)
    (before after : list EngineEvent) (s : Submission) :
  let id := make_task_id (sub_name s) (sub_millis s) in
  let n := max_retries (task_info (submitted_item s)) in
  let st := engine_run (AsyncTaskManager_init max_concurrent)
              (before ++ EvSubmit s :: after) in
  always_times_out (sub_func s) ->
  distinct_ids (before ++ EvSubmit s :: after) ->
  (attempts id (log st) <= n + 1
   /\ timeouts id (log st) <= n + 1
   /\ (gone id st -> attempts id (log st) = n + 1 /\ timeouts id (log st) = n + 1))
  /\ error_count "timeout" st = length (timed_out (log st))
  /\ (no_cancellation (before ++ after) -> is_running st = true -> 1 <= max_concurrent ->
      let st' := run_worker (work_left st) st in
      gone id st'
      /\ attempts id (log st') = n + 1
      /\ timeouts id (log st') = n + 1
      /\ forall j, run_worker j st' = st').
Proof.
  intros id n st Hto Hd.
  set (st0 := engine_run (AsyncTaskManager_init max_concurrent) before).
  assert (Est : st = engine_run (snd (submit_task s st0)) after).
  { unfold st, st0. rewrite engine_run_app. reflexivity. }
  destruct (distinct_ids_split before s after Hd) as [Hnew Hafter].
  fold id in Hnew, Hafter.
  destruct (fresh_id_unknown max_concurrent before id Hnew) as (Hfresh & Ha0 & Ht0).
  fold st0 in Hfresh, Ha0, Ht0.
  assert (Hinv0 : engine_invariant st0) by apply engine_invariant_run.
  assert (Hinv1 : engine_invariant (snd (submit_task s st0)))
    by (apply engine_invariant_submit, Hinv0).
  assert (Hinv : engine_invariant st) by (rewrite Est; apply engine_invariant_steps, Hinv1).
  pose proof (task_phase_submitted s st0 Hto Hfresh) as H1. cbv zeta in H1.
  pose proof (task_phase_run id 3 _ _ after _ Hinv1 Hafter H1) as H. cbv zeta in H.
  rewrite <- Est in H. fold id in H. rewrite Ha0, Ht0 in H.
  change n with 3. split; [|split].
  - apply (task_phase_counts id 3 0 0 st H).
  - unfold st. apply timeout_counter_run. reflexivity.
  - intros Hnc Hrun Hmax st'.
    assert (Hmc : max_concurrent_tasks st = max_concurrent).
    { unfold st. clear.
      assert (G : forall es x, max_concurrent_tasks (engine_run x es) = max_concurrent_tasks x).
      { induction es as [|e es IH]; intros x; simpl; [reflexivity|].
        unfold engine_run in IH. rewrite IH.
        destruct e; simpl.
        - unfold start. destruct (is_running x); reflexivity.
        - reflexivity.
        - apply worker_step_keeps. }
      rewrite G. reflexivity. }
    assert (Hfree : cancel_free st).
    { unfold st. apply cancel_free_steps; [|apply cancel_free_init].
      unfold no_cancellation in *. apply Forall_app in Hnc as [Hb Hl].
      apply Forall_app. split; [exact Hb|]. apply Forall_cons. split; [|exact Hl].
      intros j. rewrite Hto. discriminate. }
    destruct (run_worker_drains (work_left st) st Hinv Hrun ltac:(lia) Hfree ltac:(lia))
      as [Hq Hw].
    fold st' in Hq, Hw.
    assert (Hgone : gone id st').
    { split; [rewrite Hq; reflexivity|]. rewrite Hw. discriminate. }
    pose proof (task_phase_run_worker id 3 _ _ (work_left st) st H) as H'.
    cbv zeta in H'. fold st' in H'.
    destruct (task_phase_counts id 3 _ _ st' H') as (_ & _ & Hc).
    destruct (Hc Hgone) as [Ha Ht].
    split; [exact Hgone|]. split; [exact Ha|]. split; [exact Ht|].
    intros j. apply idle_worker_stays; assumption.
Qed.

Lemma C2_timeouts_retry_then_drop_witness :
  let st := engine_run (AsyncTaskManager_init 10)
              ([EvStart] ++ EvSubmit submit_hopeless
               :: [EvSubmit submit_b_first; EvWorker]) in
  attempts "tts_1700000000000" (log (run_worker (work_left st) st)) = 4
  /\ timeouts "tts_1700000000000" (log (run_worker (work_left st) st)) = 4.
Proof.
  intros st.
  destruct (C2_timeouts_retry_then_drop 10 [EvStart]
              [EvSubmit submit_b_first; EvWorker] submit_hopeless) as (_ & _ & H).
  - intros j. reflexivity.
  - unfold distinct_ids. vm_compute submitted_ids.
    apply NoDup_cons. split; [set_solver|]. apply NoDup_singleton.
  - destruct H as (_ & Ha & Ht & _).
    + repeat constructor. intros j. discriminate.
    + reflexivity.
    + lia.
    + split; [exact Ha | exact Ht].
Defined.

(** * Further properties of the activity state *)

Local Open Scope Q_scope.

Lemma energy_factor_of_levels s :
  levels_in_range s -> 0.2 <= get_energy_factor s <= 1.7.
Proof.
  intros [[Hlo Hhi] _]. unfold get_energy_factor.
  assert (E : energy_level s / 100.0 == energy_level s * (1 # 100)).
  { unfold Qdiv. apply Qmult_comp; reflexivity. }
  rewrite E. split; lra.
Qed.

(** The energy factor of every agent of a manager reached from an empty
    agent map lies between its floor 0.2 and its ceiling 1.7, and the mood
    factor between 0.6 and 1.4. *)
Theorem energy_and_mood_factor_bounds (m0 : BotActivityManager) (ops : list ManagerOp)
    (k : string) (s : ActivityState) :
  bot_states m0 = ∅ ->
  Forall op_draws_ok ops ->
  bot_states (run_ops m0 ops) !! k = Some s ->
  0.2 <= get_energy_factor s <= 1.7 /\ 0.6 <= get_mood_factor s <= 1.4.
Proof.
  intros Hempty Hok Hk. split.
  - apply energy_factor_of_levels.
    assert (H : all_bots levels_in_range (run_ops m0 ops)).
    { apply (all_bots_run_ops levels_in_range op_draws_ok).
      - intros m op. apply levels_apply_op.
      - exact Hok.
      - apply all_bots_empty, Hempty. }
    exact (H k s Hk).
  - unfold get_mood_factor. destruct (mood_state s); split; discriminate.
Qed.

Lemma energy_and_mood_factor_bounds_witness :
  exists s,
    bot_states (run_ops fresh_manager busy_day) !! "a"%string = Some s
    /\ 0.2 <= get_energy_factor s <= 1.7 /\ 0.6 <= get_mood_factor s <= 1.4.
Proof.
  eexists. split; [vm_compute; reflexivity|].
  apply (energy_and_mood_factor_bounds fresh_manager busy_day "a").
  - reflexivity.
  - unfold busy_day.
    repeat (apply Forall_cons; split);
      try apply Forall_nil; simpl; unfold mood_draws_ok, uniform; simpl;
      repeat split; try (intros; discriminate); try (intros _; lra); try lra.
  - vm_compute. reflexivity.
Defined.

(** When the natural change does not fire, [update_mood] is its
    interaction part. *)
Lemma update_mood_no_natural c d s s1 :
  no_natural_change c d s ->
  last_mood_change s1 = last_mood_change s ->
  (if Qltb 2 (hours_since c (last_mood_change s1)) then
     if Qltb (d_natural d) 0.1 then
       set_last_mood_change (now c) (_natural_mood_change c d s1)
     else s1
   else s1) = s1.
Proof.
  intros [H|H] E; rewrite E.
  - rewrite H. reflexivity.
  - rewrite H. destruct (Qltb 2 _); reflexivity.
Qed.

(** A positive interaction counts once, raises the energy by the draw up to
    the cap of 100, and moves the mood up the ladder by at most one rung;
    it moves when the gate draw is below 0.3, 0.4 or 0.2 for the bottom
    rung, NEUTRAL and HAPPY, and never from EXCITED. *)
Theorem update_mood_positive_one_rung (c : Clock) (d : MoodDraws) (s : ActivityState) :
  no_natural_change c d s ->
  let s' := update_mood c d "positive" s in
  positive_interactions s' = S (positive_interactions s)
  /\ negative_interactions s' = negative_interactions s
  /\ energy_level s' = py_min 100 (energy_level s + d_energy d)
  /\ (mood_rank (mood_state s) <= mood_rank (mood_state s')
      <= S (mood_rank (mood_state s)))%nat
  /\ (mood_state s' <> mood_state s <->
      Qltb (d_gate d)
        (match mood_state s with
         | TIRED | MELANCHOLY => 0.3
         | NEUTRAL => 0.4
         | HAPPY => 0.2
         | EXCITED => 0
         end) = true /\ mood_state s <> EXCITED).
Proof.
  intros Hn s'. unfold s', update_mood.
  change (String.eqb "positive" "positive") with true. cbv iota zeta.
  match goal with
  | |- context [if Qltb 2 (hours_since c (last_mood_change ?x)) then _ else _] =>
      rewrite (update_mood_no_natural c d s x Hn)
        by (cbn [mood_state set_energy_level set_daily_counters];
            destruct (mood_state s); cbv iota;
            try destruct (Qltb (d_gate d) _); reflexivity)
  end.
  cbn [mood_state set_energy_level set_daily_counters].
  rewrite Nat.add_1_r.
  destruct (mood_state s) eqn:Em; cbv iota;
    try (destruct (Qltb (d_gate d) _) eqn:Eg);
    cbn [mood_state positive_interactions negative_interactions energy_level
         set_mood_state set_energy_level set_daily_counters mood_rank];
    rewrite ?Em; cbn [mood_rank];
    (split; [reflexivity|]); (split; [reflexivity|]); (split; [reflexivity|]);
    (split; [split; lia|]);
    (split;
     [ intros H; first [ exfalso; apply H; reflexivity
                       | split; [reflexivity | discriminate] ]
     | intros [H1 H2]; first [ discriminate H1 | congruence | discriminate ] ]).
Qed.

Lemma update_mood_positive_one_rung_witness :
  no_natural_change noon lively_mood_draws
    (ActivityState_init noon "a" 0.5 true None)
  /\ positive_interactions
       (update_mood noon lively_mood_draws "positive"
          (ActivityState_init noon "a" 0.5 true None)) = 1%nat.
Proof.
  assert (Hn : no_natural_change noon lively_mood_draws
                 (ActivityState_init noon "a" 0.5 true None))
    by (left; reflexivity).
  split; [exact Hn|].
  exact (proj1 (update_mood_positive_one_rung noon lively_mood_draws
                  (ActivityState_init noon "a" 0.5 true None) Hn)).
Defined.

(** A negative interaction counts once, lowers the energy by the draw down
    to the floor of 0, and never moves the mood up the ladder: HAPPY and
    EXCITED fall to NEUTRAL when the gate draw is below 0.4, NEUTRAL falls
    to the bottom rung when it is below 0.3, and the bottom rung stays. *)
Theorem update_mood_negative_steps_down (c : Clock) (d : MoodDraws) (s : ActivityState) :
  no_natural_change c d s ->
  let s' := update_mood c d "negative" s in
  negative_interactions s' = S (negative_interactions s)
  /\ positive_interactions s' = positive_interactions s
  /\ energy_level s' = py_max 0 (energy_level s - d_energy d)
  /\ (mood_rank (mood_state s') <= mood_rank (mood_state s))%nat
  /\ ((2 <= mood_rank (mood_state s))%nat ->
      mood_state s' = mood_state s \/ mood_state s' = NEUTRAL)
  /\ (mood_state s' <> mood_state s <->
      Qltb (d_gate d)
        (match mood_state s with
         | HAPPY | EXCITED => 0.4
         | NEUTRAL => 0.3
         | TIRED | MELANCHOLY => 0
         end) = true /\ mood_rank (mood_state s) <> 0%nat).
Proof.
  intros Hn s'. unfold s', update_mood.
  change (String.eqb "negative" "positive") with false.
  change (String.eqb "negative" "negative") with true. cbv iota zeta.
  match goal with
  | |- context [if Qltb 2 (hours_since c (last_mood_change ?x)) then _ else _] =>
      rewrite (update_mood_no_natural c d s x Hn)
        by (cbn [mood_state set_energy_level set_daily_counters];
            destruct (mood_state s); cbv iota;
            try destruct (Qltb (d_gate d) _); reflexivity)
  end.
  cbn [mood_state set_energy_level set_daily_counters].
  rewrite Nat.add_1_r.
  destruct (mood_state s) eqn:Em; cbv iota;
    try (destruct (Qltb (d_gate d) _) eqn:Eg);
    try (destruct (d_choice d));
    cbn [mood_state positive_interactions negative_interactions energy_level
         set_mood_state set_energy_level set_daily_counters mood_rank];
    rewrite ?Em; cbn [mood_rank];
    (split; [reflexivity|]); (split; [reflexivity|]); (split; [reflexivity|]);
    (split; [lia|]);
    (split; [intros H2r; first [left; reflexivity | right; reflexivity | exfalso; clear -H2r; lia]|]);
    (split;
     [ intros H; first [ exfalso; apply H; reflexivity
                       | split; [reflexivity | discriminate] ]
     | intros [H1 H2]; first [ discriminate H1 | congruence | discriminate
                             | exfalso; apply H2; reflexivity ] ]).
Qed.

Lemma update_mood_negative_steps_down_witness :
  no_natural_change noon lively_mood_draws
    (ActivityState_init noon "a" 0.5 true None)
  /\ negative_interactions
       (update_mood noon lively_mood_draws "negative"
          (ActivityState_init noon "a" 0.5 true None)) = 1%nat.
Proof.
  assert (Hn : no_natural_change noon lively_mood_draws
                 (ActivityState_init noon "a" 0.5 true None))
    by (left; reflexivity).
  split; [exact Hn|].
  exact (proj1 (update_mood_negative_steps_down noon lively_mood_draws
                  (ActivityState_init noon "a" 0.5 true None) Hn)).
Defined.

(** The natural mood change is rate limited: once it has fired, no pass of
    the loop within the next two hours changes the agent's mood, energy or
    anything else through [update_mood], whatever it draws. *)
Theorem natural_mood_change_rate_limit (c c' : Clock) (d d' : MoodDraws)
    (it : string) (s : ActivityState) :
  Qltb 2 (hours_since c (last_mood_change s)) = true ->
  Qltb (d_natural d) 0.1 = true ->
  now c' - now c <= 7200 ->
  let s' := update_mood c d it s in
  last_mood_change s' = now c
  /\ update_mood c' d' "neutral" s' = s'.
Proof.
  intros Hold Hdraw Hsoon s'.
  assert (E : last_mood_change s' = now c).
  { unfold s', update_mood.
    set (s1 := if String.eqb it "positive" then _ else _).
    assert (E1 : last_mood_change s1 = last_mood_change s).
    { unfold s1. cbv zeta. repeat case_match; reflexivity. }
    clearbody s1. cbv zeta. rewrite E1, Hold, Hdraw. reflexivity. }
  split; [exact E|].
  unfold update_mood at 1.
  change (String.eqb "neutral" "positive") with false.
  change (String.eqb "neutral" "negative") with false. cbv iota zeta.
  rewrite E.
  assert (Hn : Qltb 2 (hours_since c' (now c)) = false).
  { apply Qltb_false. unfold hours_since.
    apply Qle_shift_div_r; lra. }
  rewrite Hn. reflexivity.
Qed.

Lemma natural_mood_change_rate_limit_witness :
  update_mood {| now := 13600; hour := 15; today := 0 |} calm_mood_draws "neutral"
    (update_mood {| now := 10000; hour := 14; today := 0 |} lively_mood_draws
       "positive" (ActivityState_init noon "a" 0.5 true None))
  = update_mood {| now := 10000; hour := 14; today := 0 |} lively_mood_draws
      "positive" (ActivityState_init noon "a" 0.5 true None).
Proof.
  apply (natural_mood_change_rate_limit
           {| now := 10000; hour := 14; today := 0 |}
           {| now := 13600; hour := 15; today := 0 |}
           lively_mood_draws calm_mood_draws "positive"
           (ActivityState_init noon "a" 0.5 true None)).
  - reflexivity.
  - reflexivity.
  - simpl. lra.
Defined.

Ltac Qltb_to_order :=
  repeat match goal with
         | H : Qltb _ _ = true |- _ => apply Qltb_true in H
         | H : Qltb _ _ = false |- _ => apply Qltb_false in H
         end.

(** [update_activity_mode] changes the mode and nothing else.  A TIRED or
    drained agent (energy below 20) is SLEEPY at every hour of the day,
    whatever its social factor and its conversations; SOCIAL is chosen
    exactly for an EXCITED agent with energy above 80 and for an agent that
    is neither TIRED nor drained and has a social factor above 75; FOCUSED
    needs more than twenty conversations today. *)
Theorem activity_mode_overrides (c : Clock) (s : ActivityState) :
  let s' := update_activity_mode c s in
  set_activity_mode (activity_mode s') s = s'
  /\ (mood_state s = TIRED \/ energy_level s < 20 -> activity_mode s' = SLEEPY)
  /\ (activity_mode s' = SOCIAL <->
      (mood_state s = EXCITED /\ 80 < energy_level s)
      \/ (mood_state s <> TIRED /\ 20 <= energy_level s /\ 75 < social_factor s))
  /\ (activity_mode s' = FOCUSED -> (20 < conversation_count_today s)%nat).
Proof.
  intros s'. unfold s', update_activity_mode. cbv zeta.
  destruct (Qltb 80 (energy_level s)) eqn:E80;
    destruct (Qltb (energy_level s) 20) eqn:E20;
    destruct (Qltb 75 (social_factor s)) eqn:E75;
    destruct (20 <? conversation_count_today s)%nat eqn:Ec;
    Qltb_to_order; try (exfalso; lra);
    destruct (mood_state s) eqn:Em; cbn [MoodState_eqb andb orb];
    destruct (in_range (hour c) 22 24 || in_range (hour c) 0 7);
    destruct (in_range (hour c) 7 12); destruct (in_range (hour c) 12 18);
    cbn [activity_mode set_activity_mode];
    (split; [reflexivity|]);
    (split; [intros [H|H]; first [reflexivity | discriminate H | exfalso; lra]|]);
    (split;
     [split;
      [ intros H; first [ discriminate H
                        | left; split; [reflexivity | assumption]
                        | right; split; [discriminate | split; assumption] ]
      | intros [[H1 H2]|(H1 & H2 & H3)];
        first [ reflexivity | discriminate H1 | exfalso; apply H1; reflexivity
              | exfalso; lra ] ]
     |]);
    intros H; first [discriminate H | apply Nat.ltb_lt; exact Ec].
Qed.

Lemma set_bot_states_same m : set_bot_states (bot_states m) m = m.
Proof. destruct m. reflexivity. Qed.

Lemma lookup_for_each_bot f bs k :
  for_each_bot f bs !! k = f k <$> bs !! k.
Proof.
  unfold for_each_bot. rewrite map_lookup_imap.
  destruct (bs !! k); reflexivity.
Qed.

(** The daily reset happens once per calendar day: when the date has moved
    on, [_check_daily_reset] zeroes the three daily counters of every agent
    and records the date; called again on the same date (or with a clock
    that went back) it changes nothing, whatever it would draw. *)
Theorem daily_reset_once_per_day (c c' : Clock) (d d' : string -> ResetDraws)
    (m : BotActivityManager) :
  (last_daily_reset m < today c)%Z ->
  (today c' <= today c)%Z ->
  let m' := _check_daily_reset c d m in
  last_daily_reset m' = today c
  /\ dom (bot_states m') = dom (bot_states m)
  /\ all_bots (fun s => conversation_count_today s = 0%nat
                        /\ positive_interactions s = 0%nat
                        /\ negative_interactions s = 0%nat) m'
  /\ _check_daily_reset c' d' m' = m'.
Proof.
  intros Hnew Hsame m'. unfold m', _check_daily_reset.
  apply Z.ltb_lt in Hnew. rewrite Hnew. cbv zeta.
  split; [reflexivity|]. split.
  { cbn [bot_states set_last_daily_reset set_bot_states].
    apply set_eq. intros k. rewrite !elem_of_dom, lookup_for_each_bot.
    destruct (bot_states m !! k); simpl; split; intros [x Hx]; eauto; discriminate. }
  split.
  { intros k s. cbn [bot_states set_last_daily_reset set_bot_states].
    rewrite lookup_for_each_bot.
    destruct (bot_states m !! k) as [s0|]; simpl; [|discriminate].
    intros [= <-]. unfold daily_reset. cbv zeta.
    repeat case_match; repeat split; reflexivity. }
  cbn [last_daily_reset set_last_daily_reset].
  assert (E : (today c <? today c')%Z = false) by (apply Z.ltb_ge; exact Hsame).
  rewrite E. reflexivity.
Qed.

Lemma daily_reset_once_per_day_witness :
  all_bots (fun s => conversation_count_today s = 0%nat
                     /\ positive_interactions s = 0%nat
                     /\ negative_interactions s = 0%nat)
    (_check_daily_reset {| now := 90000; hour := 1; today := 1 |}
       (fun _ => calm_reset_draws) four_online_talking).
Proof.
  apply (daily_reset_once_per_day {| now := 90000; hour := 1; today := 1 |}
           {| now := 93600; hour := 2; today := 1 |}
           (fun _ => calm_reset_draws) (fun _ => calm_reset_draws)
           four_online_talking).
  - vm_compute. reflexivity.
  - vm_compute. discriminate.
Defined.

(** The idle decay of [_update_activity_states] starts after one idle hour
    and never adds energy: an agent idle for at most an hour keeps its
    state, one idle for longer loses at least 2 points per pass (or all it
    has left) and at most 10, and never goes below 0. *)
Theorem energy_decay_bounds (c : Clock) (s : ActivityState) :
  0 <= energy_level s ->
  let s' := energy_decay c s in
  set_energy_level (energy_level s') s = s'
  /\ energy_level s - 10 <= energy_level s' <= energy_level s
  /\ 0 <= energy_level s'
  /\ (now c - last_activity s <= 3600 -> s' = s)
  /\ (3600 < now c - last_activity s ->
      energy_level s' <= py_max 0 (energy_level s - 2)).
Proof.
  intros He s'. unfold s', energy_decay. cbv zeta.
  destruct (Qltb 1 (hours_since c (last_activity s))) eqn:E.
  - apply Qltb_true in E.
    cbn [energy_level set_energy_level].
    set (t := hours_since c (last_activity s)) in *.
    assert (Hd : 2 < py_min (t * 2) 10 <= 10).
    { unfold py_min. destruct (Qltb 10 (t * 2)) eqn:E10.
      - split; lra.
      - apply Qltb_false in E10. split; lra. }
    set (dec := py_min (t * 2) 10) in *. clearbody dec.
    assert (Hm : forall x, py_max 0 x == Qmax 0 x) by (intros; apply py_max_Qmax).
    split; [reflexivity|].
    split.
    { rewrite Hm. split.
      - eapply Qle_trans; [|apply Q.le_max_r]. lra.
      - apply Q.max_lub; lra. }
    split.
    { rewrite Hm. apply Q.le_max_l. }
    split.
    { intros Hidle. exfalso. unfold t, hours_since in E.
      assert (X : (now c - last_activity s) / 3600 <= 1)
        by (apply Qle_shift_div_r; lra).
      lra. }
    intros _. rewrite !Hm. apply Q.max_lub.
    + apply Q.le_max_l.
    + eapply Qle_trans; [|apply Q.le_max_r]. lra.
  - apply Qltb_false in E.
    split; [destruct s; reflexivity|].
    split; [split; lra|].
    split; [exact He|].
    split; [reflexivity|].
    intros Hidle. exfalso. unfold hours_since in E.
    assert (X : 1 < (now c - last_activity s) / 3600)
      by (apply Qlt_shift_div_l; lra).
    lra.
Qed.

Lemma energy_decay_bounds_witness :
  energy_level (energy_decay {| now := 18000; hour := 17; today := 0 |}
                  (ActivityState_init noon "a" 0.5 true None))
  <= py_max 0 (energy_level (ActivityState_init noon "a" 0.5 true None) - 2).
Proof.
  apply (energy_decay_bounds {| now := 18000; hour := 17; today := 0 |}
           (ActivityState_init noon "a" 0.5 true None)).
  - vm_compute. discriminate.
  - vm_compute. reflexivity.
Defined.

(** * Further properties of the manager *)

Local Close Scope Q_scope.




(** Whichever branch a rotation takes, it records its time and leaves the
    configuration alone. *)
Lemma rotate_records_time c d m :
  rotation_runs c m ->
  let m' := (_rotate_online_bots c d m).1 in
  last_rotation m' = now c
  /\ rotation_interval m' = rotation_interval m
  /\ enable_bot_rotation m' = enable_bot_rotation m
  /\ enable_offline_mode m' = enable_offline_mode m.
Proof.
  intros (Hrot & Hoff & Hdue) m'. unfold m', _rotate_online_bots.
  rewrite Hrot, Hoff, Hdue. cbn [negb orb]. cbv zeta.
  repeat case_match;
    cbn [fst last_rotation rotation_interval enable_bot_rotation
         enable_offline_mode set_bot_states set_last_rotation];
    repeat split; first [reflexivity | assumption].
Qed.

(** Rotations are rate limited: after a rotation step that ran, whether it
    moved anybody or not, a rotation step called before the rotation
    interval has passed changes nothing and touches no agent. *)
Theorem rotation_once_per_interval (c c' : Clock) (d d' : RotationDraws)
    (m : BotActivityManager) :
  rotation_runs c m ->
  (now c' - now c < rotation_interval m)%Q ->
  let m' := (_rotate_online_bots c d m).1 in
  last_rotation m' = now c
  /\ _rotate_online_bots c' d' m' = (m', []).
Proof.
  intros Hrun Hsoon m'.
  destruct (rotate_records_time c d m Hrun) as (Hlast & Hint & Hrot & Hoff).
  fold m' in Hlast, Hint, Hrot, Hoff.
  split; [exact Hlast|].
  unfold _rotate_online_bots.
  destruct (negb (enable_bot_rotation m') || negb (enable_offline_mode m'));
    [reflexivity|].
  rewrite Hlast, Hint.
  apply Qltb_true in Hsoon. rewrite Hsoon. reflexivity.
Qed.

Lemma rotation_once_per_interval_witness :
  _rotate_online_bots {| now := 5400; hour := 13; today := 0 |} take_b_offline
    (_rotate_online_bots one_hour_later bring_d_online one_online).1
  = ((_rotate_online_bots one_hour_later bring_d_online one_online).1, []).
Proof.
  apply (rotation_once_per_interval one_hour_later
           {| now := 5400; hour := 13; today := 0 |} bring_d_online take_b_offline
           one_online).
  - vm_compute. repeat split; reflexivity.
  - vm_compute. reflexivity.
Defined.

Lemma for_each_bot_same bs : for_each_bot (fun _ s => s) bs = bs.
Proof.
  apply map_eq. intros k. rewrite lookup_for_each_bot.
  destruct (bs !! k); reflexivity.
Qed.

Lemma dom_for_each_bot f bs : dom (for_each_bot f bs) = dom bs.
Proof.
  apply set_eq. intros k. rewrite !elem_of_dom, lookup_for_each_bot.
  destruct (bs !! k); simpl; split; intros [x Hx]; eauto; discriminate.
Qed.

(** With the rotation enabled, as it is by default, or with the offline
    mode switched off, [_manage_offline_bots] is a no-op: presence is left
    to the rotation. *)
Theorem manage_offline_bots_defers_to_rotation (c : Clock) (draw : string -> Q)
    (m : BotActivityManager) :
  enable_offline_mode m = false \/ enable_bot_rotation m = true ->
  _manage_offline_bots c draw m = m.
Proof.
  intros H. unfold _manage_offline_bots.
  destruct (enable_offline_mode m) eqn:Eoff; cbn [negb]; [|reflexivity].
  destruct H as [H|H]; [discriminate H|]. rewrite H. cbn [negb].
  rewrite for_each_bot_same. apply set_bot_states_same.
Qed.

Lemma manage_offline_bots_defers_to_rotation_witness :
  _manage_offline_bots noon (fun _ => 0.99%Q) four_online = four_online.
Proof.
  apply (manage_offline_bots_defers_to_rotation noon (fun _ => 0.99%Q) four_online).
  right. reflexivity.
Defined.

(** With the rotation switched off and the offline mode on,
    [_manage_offline_bots] decides the presence of every agent by its draw:
    the agent is online afterwards exactly when the draw is not above its
    rate; an agent whose presence already agrees is left untouched, no
    agent is added or removed, and offline agents carry their
    [offline_since]. *)
Theorem manage_offline_bots_toggles_by_draw (c : Clock) (draw : string -> Q)
    (m : BotActivityManager) (k : string) (s : ActivityState) :
  enable_offline_mode m = true ->
  enable_bot_rotation m = false ->
  bot_states m !! k = Some s ->
  let m' := _manage_offline_bots c draw m in
  dom (bot_states m') = dom (bot_states m)
  /\ exists s',
       bot_states m' !! k = Some s'
       /\ is_active s' = negb (Qltb (toggle_rate c m s) (draw k))
       /\ (is_active s' = is_active s -> s' = s)
       /\ (is_active s = true -> is_active s' = false ->
           offline_since s' = Some (now c)).
Proof.
  intros Hoff Hrot Hk m'. unfold m', _manage_offline_bots.
  rewrite Hoff, Hrot. cbn [negb bot_states set_bot_states].
  split; [apply dom_for_each_bot|].
  rewrite lookup_for_each_bot, Hk. simpl. fold (toggle_rate c m s).
  eexists. split; [reflexivity|].
  destruct (Qltb (toggle_rate c m s) (draw k)); destruct (is_active s) eqn:Ea;
    cbn [negb is_active _set_bot_offline _set_bot_online set_presence
         set_last_activity offline_since];
    rewrite ?Ea; repeat split; try reflexivity; intros; try discriminate;
    congruence.
Qed.

Lemma manage_offline_bots_toggles_by_draw_witness :
  exists s',
    bot_states (_manage_offline_bots noon (fun _ => 0.99%Q) legacy_pool) !! "a"%string
    = Some s'
    /\ is_active s' = false.
Proof.
  destruct (manage_offline_bots_toggles_by_draw noon (fun _ => 0.99%Q) legacy_pool
              "a" (ActivityState_init noon "a" 0.5 true (Some 0%Q)))
    as (_ & s' & Hs' & Ha & _).
  - reflexivity.
  - reflexivity.
  - vm_compute. reflexivity.
  - exists s'. split; [exact Hs'|]. rewrite Ha. vm_compute. reflexivity.
Defined.

Local Open Scope Q_scope.

Lemma adjusted_rate_nonneg c s : 0 <= get_adjusted_activity_rate c s.
Proof.
  unfold get_adjusted_activity_rate. cbv zeta.
  apply Qle_trans with 0.0; [discriminate | apply py_max_ge_l].
Qed.

Lemma py_min_mono (a x y : Q) : x <= y -> py_min a x <= py_min a y.
Proof.
  intros H. rewrite !py_min_Qmin. apply Q.min_glb.
  - apply Q.le_min_l.
  - eapply Qle_trans; [apply Q.le_min_r | exact H].
Qed.

(** The chain of multipliers of [should_bot_respond] after the mention
    step, as a function of the rate that enters it. *)
Lemma effective_rate_mention c ctx s :
  effective_rate c (Some ctx) s <= effective_rate c (Some (as_mention ctx)) s.
Proof.
  unfold effective_rate, as_mention. cbv zeta.
  cbn [ctx_is_mention ctx_is_continuation ctx_sentiment].
  pose proof (adjusted_rate_nonneg c s) as H0.
  set (r := get_adjusted_activity_rate c s) in *. clearbody r.
  destruct (ctx_is_mention ctx); [apply Qle_refl|].
  repeat case_match; lra.
Qed.

(** An agent answers only if it is registered and online, the draw is
    below 1, and its adjusted rate is not zero. *)
Theorem respond_requires_online_agent (c : Clock) (draw : Q) (bid : string)
    (ctx : option InteractionContext) (m : BotActivityManager) :
  0 <= draw ->
  should_bot_respond c draw bid ctx m = true ->
  exists s,
    bot_states m !! bid = Some s /\ is_active s = true
    /\ draw < 1 /\ 0 < get_adjusted_activity_rate c s.
Proof.
  intros Hd. unfold should_bot_respond.
  destruct (bot_states m !! bid) as [s|]; [|discriminate].
  destruct (is_active s) eqn:Ea; cbn [negb]; [|discriminate].
  intros H. apply Qltb_true in H. exists s.
  split; [reflexivity|]. split; [exact Ea|].
  rewrite py_min_Qmin in H.
  split.
  - eapply Qlt_le_trans; [exact H|].
    eapply Qle_trans; [apply Q.le_min_l|]. discriminate.
  - assert (Hpos : 0 < effective_rate c ctx s).
    { eapply Qle_lt_trans; [exact Hd|]. eapply Qlt_le_trans; [exact H|].
      apply Q.le_min_r. }
    pose proof (adjusted_rate_nonneg c s) as H0.
    destruct (Qlt_le_dec 0 (get_adjusted_activity_rate c s)) as [?|Hle]; [assumption|].
    exfalso. assert (E : get_adjusted_activity_rate c s == 0) by lra.
    revert Hpos. unfold effective_rate. cbv zeta.
    set (r := get_adjusted_activity_rate c s) in *. clearbody r.
    destruct ctx as [ctx|]; [|lra].
    repeat case_match; lra.
Qed.

Lemma respond_requires_online_agent_witness :
  exists s,
    bot_states four_online !! "a"%string = Some s /\ is_active s = true
    /\ 0.1 < 1 /\ 0 < get_adjusted_activity_rate noon s.
Proof.
  apply (respond_requires_online_agent noon 0.1 "a" (Some plain_message) four_online).
  - discriminate.
  - vm_compute. reflexivity.
Defined.

(** Addressing the agent by a mention never silences it: with the same
    draw, an agent that answers a message also answers it when the message
    mentions the agent. *)
Theorem mention_never_silences (c : Clock) (draw : Q) (bid : string)
    (ctx : InteractionContext) (m : BotActivityManager) :
  should_bot_respond c draw bid (Some ctx) m = true ->
  should_bot_respond c draw bid (Some (as_mention ctx)) m = true.
Proof.
  unfold should_bot_respond.
  destruct (bot_states m !! bid) as [s|]; [|discriminate].
  destruct (negb (is_active s)); [discriminate|].
  intros H. apply Qltb_true in H. apply Qltb_true.
  eapply Qlt_le_trans; [exact H|].
  apply py_min_mono, effective_rate_mention.
Qed.

Lemma mention_never_silences_witness :
  should_bot_respond noon 0.1 "a" (Some (as_mention plain_message)) four_online = true.
Proof.
  apply (mention_never_silences noon 0.1 "a" plain_message four_online).
  vm_compute. reflexivity.
Defined.

Lemma rate_update_fails_first (c1 : Clock) (dr : string -> Q) (nx : Q)
    (m1 : BotActivityManager) :
  stock_monitor m1 -> bot_states m1 <> ∅ -> rate_change_due c1 m1 ->
  exists bid, bid ∈ dom (bot_states m1)
    /\ _update_activity_rates c1 dr nx m1
       = (update_bot bid (set_activity_rate (dr bid)) m1,
          Some (AttributeError "PerformanceMonitor" "is_high_load")).
Proof.
  intros Hs Hn Hd. unfold _update_activity_rates.
  unfold rate_change_due in Hd. rewrite Hd.
  destruct (map_to_list (bot_states m1)) as [|[bid s0] rest] eqn:El.
  - exfalso. apply Hn. apply map_to_list_empty_iff. exact El.
  - exists bid. split.
    + apply elem_of_dom. exists s0. apply elem_of_map_to_list.
      rewrite El. left.
    + cbn [update_rates_loop]. cbv zeta.
      change (performance_monitor (update_bot bid (set_activity_rate (dr bid)) m1))
        with (performance_monitor m1).
      rewrite Hs. reflexivity.
Qed.

Lemma nonempty_dom (bs bs' : gmap string ActivityState) :
  dom bs' = dom bs -> bs <> ∅ -> bs' <> ∅.
Proof.
  intros Hd Hne Hempty. apply Hne. apply dom_empty_inv_L.
  rewrite <- Hd, Hempty. apply dom_empty_L.
Qed.

(** The loop stops at the agent it visits first, in whatever order it
    visits. *)
Lemma update_rates_loop_stock draw bid s0 rest m :
  stock_monitor m ->
  update_rates_loop draw ((bid, s0) :: rest) m
  = (update_bot bid (set_activity_rate (draw bid)) m,
     Some (AttributeError "PerformanceMonitor" "is_high_load")).
Proof.
  intros Hs. cbn [update_rates_loop]. cbv zeta.
  change (performance_monitor (update_bot bid (set_activity_rate (draw bid)) m))
    with (performance_monitor m).
  rewrite Hs. reflexivity.
Qed.

(** On a manager that still holds the monitor object of [__init__], a rate
    update that is due fails at the agent it visits first, whichever agent
    the order of the visit puts first: that agent has its new base rate,
    no other agent is touched, the call of [is_high_load] raises
    [AttributeError], and the two assignments that schedule the next
    update are not reached; so the update is due again, and fails again,
    at every later reading of the clock. *)
Theorem rate_update_never_completes (c c' : Clock) (draw draw' : string -> Q)
    (next next' : Q) (m : BotActivityManager) :
  stock_monitor m ->
  bot_states m <> ∅ ->
  rate_change_due c m ->
  now c <= now c' ->
  (forall items bid s0 rest,
     items = (bid, s0) :: rest ->
     let r := update_rates_loop draw items m in
     r.2 = Some (AttributeError "PerformanceMonitor" "is_high_load")
     /\ bot_states r.1 = alter (set_activity_rate (draw bid)) bid (bot_states m)
     /\ last_rate_change r.1 = last_rate_change m
     /\ rate_change_interval r.1 = rate_change_interval m)
  /\ let m' := (_update_activity_rates c draw next m).1 in
     (_update_activity_rates c draw next m).2
     = Some (AttributeError "PerformanceMonitor" "is_high_load")
     /\ (exists bid, bid ∈ dom (bot_states m)
           /\ bot_states m' = alter (set_activity_rate (draw bid)) bid (bot_states m))
     /\ last_rate_change m' = last_rate_change m
     /\ rate_change_interval m' = rate_change_interval m
     /\ rate_change_due c' m'
     /\ (_update_activity_rates c' draw' next' m').2
        = Some (AttributeError "PerformanceMonitor" "is_high_load").
Proof.
  intros Hstock Hne Hdue Hlater. split.
  { intros items bid s0 rest -> r. unfold r.
    rewrite (update_rates_loop_stock draw bid s0 rest m Hstock).
    repeat split; reflexivity. }
  intros m'.
  destruct (rate_update_fails_first c draw next m Hstock Hne Hdue) as (bid & Hbid & E).
  unfold m'. rewrite E. cbn [fst snd].
  split; [reflexivity|]. split; [exists bid; split; [exact Hbid | reflexivity]|].
  split; [reflexivity|]. split; [reflexivity|].
  assert (Hdue' : rate_change_due c' (update_bot bid (set_activity_rate (draw bid)) m)).
  { unfold rate_change_due in *.
    change (rate_change_interval (update_bot bid (set_activity_rate (draw bid)) m))
      with (rate_change_interval m).
    change (last_rate_change (update_bot bid (set_activity_rate (draw bid)) m))
      with (last_rate_change m).
    apply Qltb_true in Hdue. apply Qltb_true. lra. }
  split; [exact Hdue'|].
  destruct (rate_update_fails_first c' draw' next'
              (update_bot bid (set_activity_rate (draw bid)) m))
    as (bid' & _ & E').
  - exact Hstock.
  - cbn [bot_states update_bot set_bot_states].
    apply (nonempty_dom (bot_states m)); [apply dom_alter_L | exact Hne].
  - exact Hdue'.
  - rewrite E'. reflexivity.
Qed.

Lemma rate_update_never_completes_witness :
  (_update_activity_rates one_hour_later (fun _ => 0.3) 15 four_online).2
  = Some (AttributeError "PerformanceMonitor" "is_high_load").
Proof.
  apply (rate_update_never_completes one_hour_later one_hour_later
           (fun _ => 0.3) (fun _ => 0.3) 15 15 four_online).
  - reflexivity.
  - vm_compute. discriminate.
  - vm_compute. reflexivity.
  - apply Qle_refl.
Defined.

(** One pass on such a manager with the rate update due: the pass enters
    the first three steps, logs the error and sleeps; what the later steps
    depend on is as before. *)
Lemma stalled_pass (i : TickInput) (m : BotActivityManager) :
  stock_monitor m -> bot_states m <> ∅ -> rate_change_due (t_clock i) m ->
  exists m',
    tick (management_steps i) m
    = (m', [Called "_check_daily_reset"; Called "_update_activity_states";
            Called "_update_activity_rates";
            LoggedError (AttributeError "PerformanceMonitor" "is_high_load");
            Slept 60])
    /\ stock_monitor m' /\ bot_states m' <> ∅
    /\ last_rate_change m' = last_rate_change m
    /\ rate_change_interval m' = rate_change_interval m
    /\ last_rotation m' = last_rotation m
    /\ manager_activity_patterns m' = manager_activity_patterns m.
Proof.
  intros Hs Hn Hd.
  set (m1 := _check_daily_reset (t_clock i) (t_reset i) m).
  assert (H1 : stock_monitor m1 /\ dom (bot_states m1) = dom (bot_states m)
               /\ last_rate_change m1 = last_rate_change m
               /\ rate_change_interval m1 = rate_change_interval m
               /\ last_rotation m1 = last_rotation m
               /\ manager_activity_patterns m1 = manager_activity_patterns m).
  { unfold m1, _check_daily_reset. destruct (_ <? _)%Z.
    - cbv zeta. repeat split; try reflexivity; try exact Hs. apply dom_for_each_bot.
    - repeat split; try reflexivity; exact Hs. }
  destruct H1 as (Hs1 & Hd1 & Hl1 & Hi1 & Hr1 & Hp1).
  set (m2 := _update_activity_states (t_clock i) (t_mood i) m1).
  assert (Hs2 : stock_monitor m2) by exact Hs1.
  assert (Hd2 : dom (bot_states m2) = dom (bot_states m1)) by apply dom_for_each_bot.
  assert (Hn2 : bot_states m2 <> ∅).
  { apply (nonempty_dom (bot_states m)); [congruence | exact Hn]. }
  assert (Hdue2 : rate_change_due (t_clock i) m2).
  { unfold rate_change_due in *.
    change (rate_change_interval m2) with (rate_change_interval m1).
    change (last_rate_change m2) with (last_rate_change m1).
    rewrite Hl1, Hi1. exact Hd. }
  destruct (rate_update_fails_first (t_clock i) (t_rate i) (t_next_minutes i) m2
              Hs2 Hn2 Hdue2) as (bid & Hbid & E).
  exists (update_bot bid (set_activity_rate (t_rate i bid)) m2).
  split.
  { unfold tick, management_steps, run_steps, total_step.
    fold m1. fold m2. rewrite E. reflexivity. }
  split; [exact Hs2|].
  split.
  { cbn [bot_states update_bot set_bot_states].
    apply (nonempty_dom (bot_states m2)); [apply dom_alter_L | exact Hn2]. }
  repeat split; assumption.
Qed.

(** Once the rate update is due on a manager that still holds the monitor
    object of [__init__], the loop stalls: every pass from then on enters
    [_check_daily_reset], [_update_activity_states] and
    [_update_activity_rates] and nothing else, so the toggle, the rotation,
    the monitoring and the learning step are never run again, and the time
    of the last rotation and the learned patterns stay as they were. *)
Theorem loop_stalls_once_rate_update_is_due (n : nat) (inputs : nat -> TickInput)
    (m : BotActivityManager) :
  stock_monitor m ->
  bot_states m <> ∅ ->
  (forall i, rate_change_due (t_clock (inputs i)) m) ->
  let r := start_management_loop n inputs m in
  called r.2
  = concat (replicate n ["_check_daily_reset"; "_update_activity_states";
                         "_update_activity_rates"]%string)
  /\ last_rotation r.1 = last_rotation m
  /\ manager_activity_patterns r.1 = manager_activity_patterns m
  /\ last_rate_change r.1 = last_rate_change m.
Proof.
  intros Hs Hn Hd r. unfold r, start_management_loop.
  generalize 0%nat as j.
  assert (Hgen : forall n j m0,
             stock_monitor m0 -> bot_states m0 <> ∅ ->
             last_rate_change m0 = last_rate_change m ->
             rate_change_interval m0 = rate_change_interval m ->
             let r := management_loop n (fun i => management_steps (inputs i)) j m0 in
             called r.2
             = concat (replicate n ["_check_daily_reset"; "_update_activity_states";
                                    "_update_activity_rates"]%string)
             /\ last_rotation r.1 = last_rotation m0
             /\ manager_activity_patterns r.1 = manager_activity_patterns m0
             /\ last_rate_change r.1 = last_rate_change m0).
  { clear n r. induction n as [|n IH]; intros j m0 Hs0 Hn0 Hl0 Hi0; cbn [management_loop].
    - repeat split; reflexivity.
    - assert (Hd0 : rate_change_due (t_clock (inputs j)) m0).
      { unfold rate_change_due. rewrite Hl0, Hi0. apply Hd. }
      destruct (stalled_pass (inputs j) m0 Hs0 Hn0 Hd0)
        as (m' & E & Hs' & Hn' & Hl' & Hi' & Hr' & Hp').
      rewrite E.
      specialize (IH (S j) m' Hs' Hn' ltac:(congruence) ltac:(congruence)).
      cbv zeta in IH.
      destruct (management_loop n _ (S j) m') as [m'' tr'].
      cbn [fst snd] in *. destruct IH as (IHc & IHr & IHp & IHl).
      split.
      + unfold called in *. rewrite omap_app, IHc. reflexivity.
      + repeat split; congruence. }
  intros j. apply Hgen; [exact Hs | exact Hn | reflexivity | reflexivity].
Qed.

Lemma loop_stalls_once_rate_update_is_due_witness :
  called (start_management_loop 2 (fun _ => critical_tick)
            (set_rate_change (-1800) 1200 four_online)).2
  = ["_check_daily_reset"; "_update_activity_states"; "_update_activity_rates";
     "_check_daily_reset"; "_update_activity_states"; "_update_activity_rates"]%string.
Proof.
  apply (loop_stalls_once_rate_update_is_due 2 (fun _ => critical_tick)
           (set_rate_change (-1800) 1200 four_online)).
  - reflexivity.
  - vm_compute. discriminate.
  - intros _. vm_compute. reflexivity.
Defined.

Lemma update_bot_unregistered bid f m :
  bot_states m !! bid = None -> update_bot bid f m = m.
Proof.
  intros H. unfold update_bot.
  assert (E : alter f bid (bot_states m) = bot_states m).
  { apply map_eq. intros k. destruct (decide (bid = k)) as [<-|Hne].
    - rewrite lookup_alter_eq, H. reflexivity.
    - apply lookup_alter_ne. exact Hne. }
  rewrite E. apply set_bot_states_same.
Qed.

Lemma update_bot_frame bid f m k :
  k <> bid -> bot_states (update_bot bid f m) !! k = bot_states m !! k.
Proof.
  intros Hne. cbn [update_bot bot_states set_bot_states].
  apply lookup_alter_ne. congruence.
Qed.

(** [update_mood] keeps the message count, the conversations of the day,
    the time of the last activity and the presence. *)
Lemma update_mood_keeps_activity c d it s :
  total_messages (update_mood c d it s) = total_messages s
  /\ conversation_count_today (update_mood c d it s) = conversation_count_today s
  /\ last_activity (update_mood c d it s) = last_activity s
  /\ is_active (update_mood c d it s) = is_active s.
Proof.
  unfold update_mood, _natural_mood_change. cbv zeta.
  repeat case_match; repeat split; reflexivity.
Qed.

(** The callbacks address one agent.  [update_bot_activity] and
    [force_mood_change] on an id that is not registered, and
    [on_user_interaction] and [on_spontaneous_speech] on a manager whose own
    id is not registered, change nothing; on a registered id they leave
    every other agent as it was, and [update_bot_activity] counts one
    message and one conversation and records the time, without touching
    the presence. *)
Theorem callbacks_touch_only_their_agent (c : Clock) (d : MoodDraws) (e : Q)
    (bid : string) (it : string) (uc : option Z) (mood : MoodState) (change : Q)
    (m : BotActivityManager) :
  (bot_states m !! bid = None ->
   update_bot_activity c d e bid it uc m = m
   /\ force_mood_change c bid mood change m = m)
  /\ (bot_states m !! manager_bot_id m = None ->
      on_user_interaction c d e it m = m /\ on_spontaneous_speech c e m = m)
  /\ (forall k, k <> bid ->
      bot_states (update_bot_activity c d e bid it uc m) !! k = bot_states m !! k
      /\ bot_states (force_mood_change c bid mood change m) !! k = bot_states m !! k)
  /\ (forall k, k <> manager_bot_id m ->
      bot_states (on_user_interaction c d e it m) !! k = bot_states m !! k
      /\ bot_states (on_spontaneous_speech c e m) !! k = bot_states m !! k)
  /\ (forall s, bot_states m !! bid = Some s ->
      exists s', bot_states (update_bot_activity c d e bid it uc m) !! bid = Some s'
        /\ total_messages s' = S (total_messages s)
        /\ conversation_count_today s' = S (conversation_count_today s)
        /\ last_activity s' = now c
        /\ is_active s' = is_active s).
Proof.
  split; [|split; [|split; [|split]]].
  - intros H. split; apply update_bot_unregistered, H.
  - intros H. split; apply update_bot_unregistered, H.
  - intros k Hk. split; apply update_bot_frame, Hk.
  - intros k Hk. split; apply update_bot_frame, Hk.
  - intros s Hs. unfold update_bot_activity.
    cbn [update_bot bot_states set_bot_states].
    rewrite lookup_alter_eq, Hs. cbn [fmap option_fmap option_map].
    eexists. split; [reflexivity|]. cbv zeta.
    set (s1 := set_daily_counters _ _ _ _).
    assert (H1 : total_messages s1 = S (total_messages s)
                 /\ conversation_count_today s1 = S (conversation_count_today s)
                 /\ last_activity s1 = now c /\ is_active s1 = is_active s).
    { unfold s1. cbn. rewrite !Nat.add_1_r. repeat split; reflexivity. }
    clearbody s1.
    set (s2 := if enable_mood_tracking m then update_mood c d it s1 else s1).
    assert (H2 : total_messages s2 = S (total_messages s)
                 /\ conversation_count_today s2 = S (conversation_count_today s)
                 /\ last_activity s2 = now c /\ is_active s2 = is_active s).
    { unfold s2. destruct (enable_mood_tracking m); [|exact H1].
      destruct (update_mood_keeps_activity c d it s1) as (A & B & C & D).
      destruct H1 as (A1 & B1 & C1 & D1).
      repeat split; congruence. }
    clearbody s2. destruct H2 as (A & B & C & D).
    repeat case_match; cbn; repeat split; assumption.
Qed.

Local Close Scope Q_scope.

(** ** Registered agents stay registered *)

Lemma dom_update_bot bid f m : dom (bot_states (update_bot bid f m)) = dom (bot_states m).
Proof. apply dom_alter_L. Qed.

Lemma dom_update_rates_loop draw items m :
  dom (bot_states (update_rates_loop draw items m).1) = dom (bot_states m).
Proof.
  revert m. induction items as [|[bid s0] rest IH]; intros m; simpl; [reflexivity|].
  destruct (call_is_high_load _) as [high|e]; [|apply dom_update_bot].
  rewrite IH. destruct high; rewrite ?dom_update_bot; reflexivity.
Qed.

Lemma dom_update_activity_rates c draw next m :
  dom (bot_states (_update_activity_rates c draw next m).1) = dom (bot_states m).
Proof.
  unfold _update_activity_rates. destruct (Qltb _ _); [|reflexivity].
  pose proof (dom_update_rates_loop draw (map_to_list (bot_states m)) m) as H.
  destruct (update_rates_loop _ _ _) as [m' [e|]]; exact H.
Qed.

Lemma dom_manage_offline c draw m :
  dom (bot_states (_manage_offline_bots c draw m)) = dom (bot_states m).
Proof.
  unfold _manage_offline_bots. destruct (negb _); [reflexivity|].
  apply dom_for_each_bot.
Qed.

Lemma dom_rotate c d m :
  dom (bot_states (_rotate_online_bots c d m).1) = dom (bot_states m).
Proof.
  unfold _rotate_online_bots.
  destruct (_ || _); [reflexivity|].
  destruct (Qltb _ _); [reflexivity|]. cbv zeta.
  repeat case_match; cbn [fst bot_states set_bot_states set_last_rotation];
    rewrite ?dom_bots_online, ?dom_bots_offline; reflexivity.
Qed.

Lemma dom_emergency c sel m :
  dom (bot_states (_emergency_scale_down c sel m).1) = dom (bot_states m).
Proof.
  unfold _emergency_scale_down. cbv zeta.
  destruct (_ <? _); [|reflexivity].
  destruct (random_sample _ _ _); [|reflexivity].
  apply dom_foldl_alter.
Qed.

Lemma dom_monitor c smp sel m :
  dom (bot_states (_monitor_performance c smp sel m).1) = dom (bot_states m).
Proof.
  unfold _monitor_performance.
  destruct (call_update _ _ _) as [o|e]; [|reflexivity]. cbv zeta.
  destruct (call_is_critical_load _) as [[|]|e]; try reflexivity.
  rewrite dom_emergency. reflexivity.
Qed.

Lemma dom_learn c m :
  dom (bot_states (_learn_activity_patterns c m)) = dom (bot_states m).
Proof.
  unfold _learn_activity_patterns. destruct (negb _); [reflexivity|].
  generalize ((map_to_list (bot_states m)).*1). intros l. revert m.
  induction l as [|bid l IH]; intros m; simpl; [reflexivity|].
  rewrite IH. unfold learn_one.
  destruct (bot_states m !! bid); [|reflexivity].
  destruct (_ <? _); [|reflexivity]. cbv zeta.
  rewrite dom_update_bot. reflexivity.
Qed.

Lemma dom_check_daily_reset c d m :
  dom (bot_states (_check_daily_reset c d m)) = dom (bot_states m).
Proof.
  unfold _check_daily_reset. destruct (_ <? _)%Z; [|reflexivity].
  apply dom_for_each_bot.
Qed.

Lemma dom_run_steps (steps : list (string * @Step BotActivityManager)) :
  (forall name f, (name, f) ∈ steps ->
     forall m, dom (bot_states (f m).1) = dom (bot_states m)) ->
  forall m, dom (bot_states (run_steps steps m).1.1) = dom (bot_states m).
Proof.
  induction steps as [|[name f] rest IH]; intros Hsteps m; simpl; [reflexivity|].
  assert (Hf : dom (bot_states (f m).1) = dom (bot_states m))
    by (eapply Hsteps; left).
  destruct (f m) as [m1 [e|]]; simpl in *; [exact Hf|].
  assert (Hrest : dom (bot_states (run_steps rest m1).1.1) = dom (bot_states m1)).
  { apply IH. intros n g Hin. eapply Hsteps. right. exact Hin. }
  destruct (run_steps rest m1) as [[m2 tr] r]. simpl in *. congruence.
Qed.

Lemma dom_tick i m :
  dom (bot_states (tick (management_steps i) m).1) = dom (bot_states m).
Proof.
  unfold tick.
  pose proof (dom_run_steps (management_steps i)) as H.
  assert (Hs : forall name f, (name, f) ∈ management_steps i ->
                 forall m, dom (bot_states (f m).1) = dom (bot_states m)).
  { intros name f Hin m0. unfold management_steps in Hin.
    repeat (apply elem_of_cons in Hin as [Hin|Hin];
            [injection Hin as _ ->; unfold total_step; cbn [fst]|]).
    - apply dom_check_daily_reset.
    - apply dom_for_each_bot.
    - apply dom_update_activity_rates.
    - apply dom_manage_offline.
    - apply dom_rotate.
    - apply dom_monitor.
    - apply dom_learn.
    - inversion Hin. }
  specialize (H Hs m).
  destruct (run_steps (management_steps i) m) as [[m' tr] [e|]]; exact H.
Qed.

Lemma dom_apply_op m op :
  dom (bot_states (apply_op m op))
  = dom (bot_states m) ∪ list_to_set (registered_ids [op]).
Proof.
  destruct op; unfold registered_ids; simpl omap; simpl list_to_set;
    rewrite ?union_empty_r_L; cbn [apply_op].
  - cbn [register_bot bot_states set_bot_states]. rewrite dom_insert_L. set_solver.
  - apply dom_update_bot.
  - apply dom_update_bot.
  - apply dom_tick.
  - apply dom_check_daily_reset.
  - apply dom_for_each_bot.
  - apply dom_update_activity_rates.
  - apply dom_manage_offline.
  - apply dom_rotate.
  - apply dom_monitor.
  - apply dom_emergency.
  - apply dom_learn.
  - apply dom_update_bot.
  - apply dom_update_bot.
  - apply dom_update_bot.
  - apply dom_update_bot.
Qed.

(** Registered agents stay registered: after any sequence of operations
    (registrations, presence changes, whole passes of the loop or single
    steps of it, the emergency routine, the callbacks) the registered ids
    are those registered before and those the sequence registers; nothing
    ever removes an agent from [bot_states]. *)
Theorem agents_are_never_removed (m : BotActivityManager) (ops : list ManagerOp) :
  dom (bot_states (run_ops m ops))
  = dom (bot_states m) ∪ list_to_set (registered_ids ops).
Proof.
  revert m. induction ops as [|op ops IH]; intros m.
  - cbn. set_solver.
  - cbn [run_ops foldl]. fold (run_ops (apply_op m op) ops).
    rewrite IH, dom_apply_op.
    change (op :: ops) with ([op] ++ ops).
    unfold registered_ids. rewrite omap_app, list_to_set_app_L. set_solver.
Qed.

Local Open Scope Q_scope.

Lemma LoadMonitor_updates_thresholds p readings :
  high_load_threshold (LoadMonitor_updates p readings) = high_load_threshold p
  /\ critical_load_threshold (LoadMonitor_updates p readings) = critical_load_threshold p.
Proof.
  revert p. induction readings as [|r rest IH]; intros p; [split; reflexivity|].
  cbn [LoadMonitor_updates foldl]. fold (LoadMonitor_updates (LoadMonitor_update r.1 r.2 p) rest).
  destruct (IH (LoadMonitor_update r.1 r.2 p)) as [H1 H2].
  split; [rewrite H1 | rewrite H2]; reflexivity.
Qed.

(** On a monitor of this module's class, built by its constructor and
    updated any number of times, the two levels are nested: a critical load
    (a reading above 95) is also a high load (a reading above 80); the new
    monitor reports neither. *)
Theorem critical_load_is_high_load (c0 : Clock) (readings : list (Clock * LoadSample)) :
  let p := LoadMonitor_updates (LoadMonitor_init c0) readings in
  (is_critical_load p = true -> is_high_load p = true)
  /\ (is_high_load p = true <-> 80 < cpu_usage p \/ 80 < memory_usage p)
  /\ (is_critical_load p = true <-> 95 < cpu_usage p \/ 95 < memory_usage p)
  /\ is_high_load (LoadMonitor_init c0) = false.
Proof.
  intros p.
  destruct (LoadMonitor_updates_thresholds (LoadMonitor_init c0) readings) as [Hh Hc].
  fold p in Hh, Hc. cbn [LoadMonitor_init high_load_threshold critical_load_threshold] in Hh, Hc.
  assert (Hhigh : is_high_load p = true <-> 80 < cpu_usage p \/ 80 < memory_usage p).
  { unfold is_high_load. rewrite Hh, orb_true_iff, !Qltb_true.
    assert (E : 80.0 == 80) by reflexivity. rewrite !E. reflexivity. }
  assert (Hcrit : is_critical_load p = true <-> 95 < cpu_usage p \/ 95 < memory_usage p).
  { unfold is_critical_load. rewrite Hc, orb_true_iff, !Qltb_true.
    assert (E : 95.0 == 95) by reflexivity. rewrite !E. reflexivity. }
  split; [|split; [exact Hhigh|split; [exact Hcrit|reflexivity]]].
  intros H. apply Hhigh. apply Hcrit in H as [H|H]; [left|right]; lra.
Qed.



(** * Further properties of the task manager *)

Local Close Scope Q_scope.

Lemma length_queue_put x q : length (queue_put x q) = S (length q).
Proof.
  induction q as [|y q IH]; simpl; [reflexivity|].
  destruct (item_ltb x y); simpl; [reflexivity | rewrite IH; reflexivity].
Qed.

Lemma submitted_app l1 l2 : submitted (l1 ++ l2) = submitted l1 + submitted l2.
Proof. unfold submitted. rewrite omap_app, length_app. reflexivity. Qed.

Lemma completed_app l1 l2 : completed (l1 ++ l2) = completed l1 + completed l2.
Proof. unfold completed. rewrite omap_app, length_app. reflexivity. Qed.

Lemma failed_app l1 l2 : failed (l1 ++ l2) = failed l1 + failed l2.
Proof. unfold failed. rewrite omap_app, length_app. reflexivity. Qed.

Lemma retried_count_app l1 l2 :
  retried_count (l1 ++ l2) = retried_count l1 + retried_count l2.
Proof. unfold retried_count. rewrite omap_app, length_app. reflexivity. Qed.

Lemma timed_out_app l1 l2 : timed_out (l1 ++ l2) = timed_out l1 ++ timed_out l2.
Proof. unfold timed_out. apply omap_app. Qed.

(** Splits the counts of an extended log and names the counts of the old
    one, so that what is left is arithmetic. *)
Ltac log_counts st :=
  cbn [log metrics task_queue worker_task set_worker execute_begin
       add_active_metric record_error record_task_completion
       active_tasks_metric task_completion_times error_counts];
  unfold error_count in *;
  cbn [log metrics task_queue worker_task set_worker execute_begin
       add_active_metric record_error record_task_completion
       active_tasks_metric task_completion_times error_counts];
  rewrite ?submitted_app, ?completed_app, ?failed_app, ?retried_count_app,
    ?timed_out_app, ?length_app, ?length_queue_put, ?app_nil_r;
  set (n_sub := submitted (log st)) in *;
  set (n_done := completed (log st)) in *;
  set (n_fail := failed (log st)) in *;
  set (n_retry := retried_count (log st)) in *;
  set (n_timeout := length (timed_out (log st))) in *;
  set (n_queue := length (task_queue st)) in *;
  set (n_records := length (task_completion_times (metrics st))) in *;
  clearbody n_sub n_done n_fail n_retry n_timeout n_queue n_records;
  unfold held, cancelled_runs, submitted, completed, failed, retried_count,
    timed_out in *;
  simpl in *.

Lemma engine_books_init n : engine_books (AsyncTaskManager_init n).
Proof. repeat split. Qed.

Lemma engine_books_step st e :
  engine_invariant st -> engine_books st -> engine_books (engine_step st e).
Proof.
  intros (_ & _ & _ & Hr) (Ha & Hc & He & Hb). destruct e as [|s|]; cbn [engine_step].
  - unfold start. destruct (is_running st) eqn:Er; [repeat split; assumption|].
    pose proof (proj1 Hr eq_refl) as Hw.
    unfold engine_books, held, cancelled_runs in *.
    cbn [log metrics task_queue worker_task worker_item].
    rewrite Hw in *. simpl in *. repeat split; assumption.
  - unfold engine_books. unfold held, cancelled_runs in *.
    cbn [snd submit_task worker_task].
    destruct (worker_task st) as [[|y|y|]|]; cbn [worker_item] in *; log_counts st;
      repeat split; try assumption; lia.
  - unfold worker_step. destruct (worker_task st) as [[|y|y|]|] eqn:Ew;
      unfold held, cancelled_runs in Hb; rewrite Ew in Hb; cbn [worker_item] in Hb.
    + destruct (is_running st);
        [|unfold engine_books, held, cancelled_runs; rewrite Ew; cbn [worker_item];
          repeat split; assumption].
      destruct (task_queue st) as [|x rest] eqn:Eq; cbn [queue_get].
      * unfold engine_books, held, cancelled_runs. rewrite Ew, Eq. cbn [worker_item].
        repeat split; assumption.
      * unfold engine_books, held, cancelled_runs in *.
        cbn [log metrics task_queue worker_task set_worker worker_item length] in *.
        repeat split; try assumption. lia.
    + destruct (semaphore st) as [|permits].
      * unfold engine_books, held, cancelled_runs. rewrite Ew. cbn [worker_item].
        repeat split; assumption.
      * unfold engine_books. log_counts st.
        repeat split; try assumption; lia.
    + unfold engine_books, execute_finish. cbv zeta.
      destruct (task_func y (retry_count (task_info y))) as [t| |err|].
      * log_counts st. repeat split; try assumption; lia.
      * destruct (_ <? _)%nat; log_counts st;
          rewrite ?lookup_insert_ne by discriminate;
          repeat split; try assumption; lia.
      * log_counts st. rewrite ?lookup_insert_eq. simpl.
        repeat split; try assumption; lia.
      * log_counts st. repeat split; try assumption; lia.
    + unfold engine_books, held, cancelled_runs. rewrite Ew. cbn [worker_item].
      repeat split; assumption.
    + unfold engine_books, held, cancelled_runs. rewrite Ew. cbn [worker_item].
      repeat split; assumption.
Qed.

Lemma engine_books_steps events st :
  engine_invariant st -> engine_books st -> engine_books (engine_run st events).
Proof.
  unfold engine_run. revert st.
  induction events as [|e es IH]; intros st Hi Hb; simpl; [exact Hb|].
  apply IH; [apply engine_invariant_step, Hi | apply engine_books_step; assumption].
Qed.

Lemma engine_books_run n events :
  engine_books (engine_run (AsyncTaskManager_init n) events).
Proof.
  apply engine_books_steps; [apply engine_invariant_init | apply engine_books_init].
Qed.

(** In every state the task manager reaches, the figures that
    [get_status] and [get_performance_summary] report agree with what
    happened: the active-task counter of the metrics is the size of
    [active_tasks] (0 or 1), there is one completion record for each
    completed run, and the [execution_error] and [timeout] counters count
    the failed and the timed-out runs. *)
Theorem task_metrics_agree_with_log (max_concurrent : nat) (events : list EngineEvent) :
  let st := engine_run (AsyncTaskManager_init max_concurrent) events in
  active_tasks_metric (metrics st) = Z.of_nat (size (active_tasks st))
  /\ length (task_completion_times (metrics st)) = completed (log st)
  /\ error_count "execution_error" st = failed (log st)
  /\ error_count "timeout" st = length (timed_out (log st)).
Proof.
  intros st.
  destruct (engine_books_run max_concurrent events) as (Ha & Hc & He & _).
  destruct (engine_invariant_run max_concurrent events) as (_ & _ & Hw & _).
  fold st in Ha, Hc, He, Hw.
  split; [|split; [exact Hc|split; [exact He|]]].
  - rewrite Ha. destruct (worker_task st) as [[|item|item|]|].
    + destruct Hw as [E _]. rewrite E, map_size_empty. reflexivity.
    + destruct Hw as (_ & E & _). rewrite E, map_size_empty. reflexivity.
    + destruct Hw as (_ & E & _). rewrite E, map_size_singleton. reflexivity.
    + destruct Hw as [E _]. rewrite E, map_size_empty. reflexivity.
    + destruct Hw as [E _]. rewrite E, map_size_empty. reflexivity.
  - unfold st. apply timeout_counter_run. reflexivity.
Qed.

(** No task is lost and none is duplicated: in a run in which every
    submission has a task id of its own, in every state the task manager
    reaches, the entries in hand carry ids that differ from each other, and
    the entries created so far, one for each submission and one for each
    retry, are exactly those still queued, the one the worker may hold,
    and those whose run ended in a completion, a failure, a timeout or a
    cancellation. *)
Theorem no_task_is_lost (max_concurrent : nat) (events : list EngineEvent) :
  let st := engine_run (AsyncTaskManager_init max_concurrent) events in
  distinct_ids events ->
  NoDup (item_id <$> entries st)
  /\ submitted (log st) + retried_count (log st)
     = length (task_queue st) + held st + completed (log st) + failed (log st)
       + length (timed_out (log st)) + cancelled_runs st.
Proof.
  intros st Hd. split.
  - apply (entries_never_tie max_concurrent events Hd).
  - destruct (engine_books_run max_concurrent events) as (_ & _ & _ & Hb).
    exact Hb.
Qed.

Lemma no_task_is_lost_witness :
  let st := engine_run (AsyncTaskManager_init 10)
              [EvStart; EvSubmit submit_hopeless; EvSubmit submit_b_first;
               EvWorker; EvWorker; EvWorker; EvWorker] in
  submitted (log st) + retried_count (log st)
  = length (task_queue st) + held st + completed (log st) + failed (log st)
    + length (timed_out (log st)) + cancelled_runs st.
Proof.
  intros st.
  apply (no_task_is_lost 10
           [EvStart; EvSubmit submit_hopeless; EvSubmit submit_b_first;
            EvWorker; EvWorker; EvWorker; EvWorker]).
  unfold distinct_ids. vm_compute submitted_ids.
  apply NoDup_cons. split; [set_solver|]. apply NoDup_singleton.
Defined.

(** ** Tasks that do not time out run once *)

Lemma max_concurrent_engine_run es st :
  max_concurrent_tasks (engine_run st es) = max_concurrent_tasks st.
Proof.
  revert st. induction es as [|e es IH]; intros st; simpl; [reflexivity|].
  unfold engine_run in IH. rewrite IH.
  destruct e; simpl.
  - unfold start. destruct (is_running st); reflexivity.
  - reflexivity.
  - apply worker_step_keeps.
Qed.

(** The end of a run of the task itself that does not time out: nothing
    is queued for it and no timeout is logged. *)
Lemma execute_finish_no_timeout item st :
  task_func item (retry_count (task_info item)) <> TimesOut ->
  pending (item_id item) (task_queue st) = [] ->
  pending (item_id item) (task_queue (execute_finish item st)) = []
  /\ attempts (item_id item) (log (execute_finish item st))
     = attempts (item_id item) (log st)
  /\ timeouts (item_id item) (log (execute_finish item st))
     = timeouts (item_id item) (log st).
Proof.
  intros Hf Hq. unfold execute_finish.
  destruct (task_func item (retry_count (task_info item))); simpl;
    [| contradiction | |];
    rewrite ?app_nil_r, ?attempts_app, ?timeouts_app, ?attempts_one, ?timeouts_one;
    auto with lia.
Qed.

Lemma single_run_worker id a0 t0 st :
  single_run_phase id a0 t0 (task_queue st) (worker_task st) (log st) ->
  single_run_phase id a0 t0 (task_queue (worker_step st)) (worker_task (worker_step st))
    (log (worker_step st)).
Proof.
  intros H. unfold worker_step.
  destruct (worker_task st) as [[|y|y|]|] eqn:Ew.
  - destruct (is_running st); [|rewrite Ew; exact H].
    destruct (task_queue st) as [|x rest] eqn:Eq; simpl; [rewrite Ew, Eq; exact H|].
    destruct H as [x0 Hp Hfree Hto Ha Ht
                  | x0 Hp Hw Hid Hto Ha Ht
                  | x0 Hp Hw Hid Hto Ha Ht
                  | Hp Hfree Ha Ht]; try discriminate.
    + destruct (pending_cons_one id x rest x0 Hp) as [(Hx & -> & Hrest)|(Hx & Hrest)].
      * exact (single_acquiring id a0 t0 _ _ _ x Hrest eq_refl Hx Hto Ha Ht).
      * assert (Hfree' : forall z, worker_item (Some (Acquiring x)) = Some z -> item_id z <> id)
          by (intros z [= <-]; exact Hx).
        exact (single_pending id a0 t0 _ _ _ x0 Hrest Hfree' Hto Ha Ht).
    + destruct (pending_cons_nil id x rest Hp) as [Hx Hrest].
      assert (Hfree' : forall z, worker_item (Some (Acquiring x)) = Some z -> item_id z <> id)
        by (intros z [= <-]; exact Hx).
      exact (single_gone id a0 t0 _ _ _ Hrest Hfree' Ha Ht).
  - destruct (semaphore st) as [|permits]; [rewrite Ew; exact H|]. simpl.
    assert (Hother : item_id y <> id ->
              (forall z, worker_item (Some (Executing y)) = Some z -> item_id z <> id)
              /\ attempts id (log st ++ [LogStart (item_id y)]) = attempts id (log st)
              /\ timeouts id (log st ++ [LogStart (item_id y)]) = timeouts id (log st)).
    { intros Hy. split; [intros z [= <-]; exact Hy|]. split.
      - rewrite attempts_app, attempts_one, decide_False by exact Hy. lia.
      - rewrite timeouts_app, timeouts_one. lia. }
    destruct H as [x0 Hp Hfree Hto Ha Ht
                  | x0 Hp Hw Hid Hto Ha Ht
                  | x0 Hp Hw Hid Hto Ha Ht
                  | Hp Hfree Ha Ht]; try discriminate.
    + destruct (Hother (Hfree y eq_refl)) as (Hfree' & Ea & Et).
      rewrite <- Ea in Ha. rewrite <- Et in Ht.
      exact (single_pending id a0 t0 _ _ _ x0 Hp Hfree' Hto Ha Ht).
    + injection Hw as Hyx. subst y.
      assert (Ha' : attempts id (log st ++ [LogStart (item_id x0)]) = a0 + 1)
        by (rewrite attempts_app, attempts_one, decide_True by exact Hid; lia).
      assert (Ht' : timeouts id (log st ++ [LogStart (item_id x0)]) = t0)
        by (rewrite timeouts_app, timeouts_one; lia).
      exact (single_executing id a0 t0 _ _ _ x0 Hp eq_refl Hid Hto Ha' Ht').
    + destruct (Hother (Hfree y eq_refl)) as (Hfree' & Ea & Et).
      rewrite <- Ea in Ha. rewrite <- Et in Ht.
      exact (single_gone id a0 t0 _ _ _ Hp Hfree' Ha Ht).
  - cbv zeta.
    set (next := match task_func y (retry_count (task_info y)) with
                 | Cancelled => Ended
                 | _ => Waiting
                 end).
    assert (Hfree' : forall z, worker_item (Some next) = Some z -> item_id z <> id)
      by (unfold next; destruct (task_func y _); discriminate).
    clearbody next.
    cbn [set_worker task_queue worker_task log].
    destruct H as [x0 Hp Hfree Hto Ha Ht
                  | x0 Hp Hw Hid Hto Ha Ht
                  | x0 Hp Hw Hid Hto Ha Ht
                  | Hp Hfree Ha Ht]; try discriminate.
    + destruct (execute_finish_other id y st (Hfree y eq_refl)) as (Fq & Fa & Ft).
      rewrite <- Fq in Hp. rewrite <- Fa in Ha. rewrite <- Ft in Ht.
      exact (single_pending id a0 t0 _ _ _ x0 Hp Hfree' Hto Ha Ht).
    + injection Hw as Hyx. subst y. subst id.
      destruct (execute_finish_no_timeout x0 st (Hto _) Hp) as (Fq & Fa & Ft).
      rewrite <- Fa in Ha. rewrite <- Ft in Ht.
      exact (single_gone (item_id x0) a0 t0 _ _ _ Fq Hfree' Ha Ht).
    + destruct (execute_finish_other id y st (Hfree y eq_refl)) as (Fq & Fa & Ft).
      rewrite <- Fq in Hp. rewrite <- Fa in Ha. rewrite <- Ft in Ht.
      exact (single_gone id a0 t0 _ _ _ Hp Hfree' Ha Ht).
  - rewrite Ew. exact H.
  - rewrite Ew. exact H.
Qed.

Lemma single_run_step id a0 t0 st e :
  engine_invariant st -> other_id id e ->
  single_run_phase id a0 t0 (task_queue st) (worker_task st) (log st) ->
  single_run_phase id a0 t0 (task_queue (engine_step st e)) (worker_task (engine_step st e))
    (log (engine_step st e)).
Proof.
  intros (_ & _ & _ & Hr) Hother H. destruct e as [|s|]; simpl.
  - unfold start. destruct (is_running st) eqn:Er; [exact H|]. simpl.
    rewrite (proj1 Hr eq_refl) in H.
    destruct H as [x0 Hp Hfree Hto Ha Ht
                  | x0 Hp Hw Hid Hto Ha Ht
                  | x0 Hp Hw Hid Hto Ha Ht
                  | Hp Hfree Ha Ht]; try discriminate.
    + assert (Hfree' : forall z, worker_item (Some Waiting) = Some z -> item_id z <> id)
        by discriminate.
      exact (single_pending id a0 t0 _ _ _ x0 Hp Hfree' Hto Ha Ht).
    + assert (Hfree' : forall z, worker_item (Some Waiting) = Some z -> item_id z <> id)
        by discriminate.
      exact (single_gone id a0 t0 _ _ _ Hp Hfree' Ha Ht).
  - simpl in Hother.
    assert (Hq : pending id (queue_put (submitted_item s) (task_queue st))
                 = pending id (task_queue st))
      by (apply pending_put_other; exact Hother).
    change (task_queue (submit_task s st).2)
      with (queue_put (submitted_item s) (task_queue st)).
    change (log (submit_task s st).2)
      with (log st ++ [LogSubmitted (make_task_id (sub_name s) (sub_millis s))]).
    change (worker_task (submit_task s st).2) with (worker_task st).
    assert (Ha' : attempts id (log st ++ [LogSubmitted (make_task_id (sub_name s) (sub_millis s))])
                  = attempts id (log st))
      by (rewrite attempts_app, attempts_one; lia).
    assert (Ht' : timeouts id (log st ++ [LogSubmitted (make_task_id (sub_name s) (sub_millis s))])
                  = timeouts id (log st))
      by (rewrite timeouts_app, timeouts_one; lia).
    destruct H as [x0 Hp Hfree Hto Ha Ht
                  | x0 Hp Hw Hid Hto Ha Ht
                  | x0 Hp Hw Hid Hto Ha Ht
                  | Hp Hfree Ha Ht].
    + rewrite <- Hq in Hp. rewrite <- Ha' in Ha. rewrite <- Ht' in Ht.
      exact (single_pending id a0 t0 _ _ _ x0 Hp Hfree Hto Ha Ht).
    + rewrite <- Hq in Hp. rewrite <- Ha' in Ha. rewrite <- Ht' in Ht.
      exact (single_acquiring id a0 t0 _ _ _ x0 Hp Hw Hid Hto Ha Ht).
    + rewrite <- Hq in Hp. rewrite <- Ha' in Ha. rewrite <- Ht' in Ht.
      exact (single_executing id a0 t0 _ _ _ x0 Hp Hw Hid Hto Ha Ht).
    + rewrite <- Hq in Hp. rewrite <- Ha' in Ha. rewrite <- Ht' in Ht.
      exact (single_gone id a0 t0 _ _ _ Hp Hfree Ha Ht).
  - apply single_run_worker, H.
Qed.

Lemma single_run_run id a0 t0 events st :
  engine_invariant st -> Forall (other_id id) events ->
  single_run_phase id a0 t0 (task_queue st) (worker_task st) (log st) ->
  let st' := engine_run st events in
  single_run_phase id a0 t0 (task_queue st') (worker_task st') (log st').
Proof.
  revert st. induction events as [|e es IH]; intros st Hinv Hev H; simpl; [exact H|].
  inversion Hev as [|? ? He Hes]; subst.
  apply IH; [apply engine_invariant_step, Hinv | exact Hes |].
  apply single_run_step; assumption.
Qed.

Lemma single_run_run_worker id a0 t0 k st :
  single_run_phase id a0 t0 (task_queue st) (worker_task st) (log st) ->
  let st' := run_worker k st in
  single_run_phase id a0 t0 (task_queue st') (worker_task st') (log st').
Proof.
  revert st. induction k as [|k IH]; intros st H; simpl; [exact H|].
  apply IH, single_run_worker, H.
Qed.

Lemma single_run_counts id a0 t0 st :
  single_run_phase id a0 t0 (task_queue st) (worker_task st) (log st) ->
  attempts id (log st) <= a0 + 1
  /\ timeouts id (log st) = t0
  /\ length (pending id (task_queue st)) <= 1
  /\ (gone id st -> attempts id (log st) = a0 + 1).
Proof.
  intros [x0 Hp Hfree Hto Ha Ht
         | x0 Hp Hw Hid Hto Ha Ht
         | x0 Hp Hw Hid Hto Ha Ht
         | Hp Hfree Ha Ht]; rewrite Hp; simpl.
  - split; [lia|]. split; [exact Ht|]. split; [lia|]. intros [Hg _]. congruence.
  - split; [lia|]. split; [exact Ht|]. split; [lia|]. intros [_ Hg]. exfalso.
    apply (Hg x0); [rewrite Hw; reflexivity | exact Hid].
  - split; [lia|]. split; [exact Ht|]. split; [lia|]. intros [_ Hg]. exfalso.
    apply (Hg x0); [rewrite Hw; reflexivity | exact Hid].
  - split; [lia|]. split; [exact Ht|]. split; [lia|]. intros _. exact Ha.
Qed.

(** In a run in which every submission has a task id of its own, a task
    none of whose runs times out is started at most once, is never queued
    twice, and has no timeout recorded, whether its run completes, fails
    or is cancelled; once it is neither queued nor in the hands of the
    worker it has been started exactly once.  With a running worker, at
    least one permit and no task body that ends in [CancelledError],
    [work_left] resumptions of the worker without further submissions
    bring that about. *)
Theorem task_without_timeout_runs_once (max_concurrent : nat)
    (before after : list EngineEvent) (s : Submission) :
  let id := make_task_id (sub_name s) (sub_millis s) in
  let st := engine_run (AsyncTaskManager_init max_concurrent)
              (before ++ EvSubmit s :: after) in
  never_times_out (sub_func s) ->
  distinct_ids (before ++ EvSubmit s :: after) ->
  attempts id (log st) <= 1
  /\ timeouts id (log st) = 0
  /\ length (pending id (task_queue st)) <= 1
  /\ (gone id st -> attempts id (log st) = 1)
  /\ (no_cancellation (before ++ EvSubmit s :: after) ->
      is_running st = true -> 1 <= max_concurrent ->
      let st' := run_worker (work_left st) st in
      gone id st'
      /\ attempts id (log st') = 1
      /\ timeouts id (log st') = 0).
Proof.
  intros id st Hto Hd.
  set (st0 := engine_run (AsyncTaskManager_init max_concurrent) before).
  assert (Est : st = engine_run (snd (submit_task s st0)) after).
  { unfold st, st0. rewrite engine_run_app. reflexivity. }
  destruct (distinct_ids_split before s after Hd) as [Hnew Hafter].
  fold id in Hnew, Hafter.
  destruct (fresh_id_unknown max_concurrent before id Hnew) as (Hfresh & Ha0 & Ht0).
  fold st0 in Hfresh, Ha0, Ht0.
  assert (Hinv0 : engine_invariant st0) by apply engine_invariant_run.
  assert (Hinv1 : engine_invariant (snd (submit_task s st0)))
    by (apply engine_invariant_submit, Hinv0).
  assert (Hinv : engine_invariant st) by (rewrite Est; apply engine_invariant_steps, Hinv1).
  assert (H1 : single_run_phase id 0 0
                 (task_queue (snd (submit_task s st0)))
                 (worker_task (snd (submit_task s st0)))
                 (log (snd (submit_task s st0)))).
  { destruct Hfresh as [Hq Hfree].
    apply (single_pending _ _ _ _ _ _ (submitted_item s)); simpl; auto.
    - apply (pending_put_same id (submitted_item s)); [reflexivity | exact Hq].
    - rewrite attempts_app, attempts_one. fold id. lia.
    - rewrite timeouts_app, timeouts_one. fold id. lia. }
  pose proof (single_run_run id _ _ after _ Hinv1 Hafter H1) as H. cbv zeta in H.
  rewrite <- Est in H.
  destruct (single_run_counts id _ _ st H) as (Ca & Ct & Cp & Cg).
  split; [exact Ca|]. split; [exact Ct|]. split; [exact Cp|]. split; [exact Cg|].
  intros Hnc Hrun Hmax st'.
  assert (Hmc : max_concurrent_tasks st = max_concurrent).
  { unfold st. rewrite max_concurrent_engine_run. reflexivity. }
  assert (Hfree : cancel_free st).
  { unfold st. apply cancel_free_steps; [exact Hnc | apply cancel_free_init]. }
  destruct (run_worker_drains (work_left st) st Hinv Hrun ltac:(lia) Hfree ltac:(lia))
    as [Hq Hw].
  fold st' in Hq, Hw.
  assert (Hgone : gone id st').
  { split; [rewrite Hq; reflexivity|]. rewrite Hw. discriminate. }
  pose proof (single_run_run_worker id _ _ (work_left st) st H) as H'.
  cbv zeta in H'. fold st' in H'.
  destruct (single_run_counts id _ _ st' H') as (_ & Ct' & _ & Cg').
  split; [exact Hgone|]. split; [exact (Cg' Hgone) | exact Ct'].
Qed.

Lemma task_without_timeout_runs_once_witness :
  let st := engine_run (AsyncTaskManager_init 10)
              ([EvStart] ++ EvSubmit submit_failing
               :: [EvSubmit submit_b_first; EvWorker]) in
  attempts "stt_1700000000002" (log (run_worker (work_left st) st)) = 1
  /\ timeouts "stt_1700000000002" (log (run_worker (work_left st) st)) = 0.
Proof.
  intros st.
  destruct (task_without_timeout_runs_once 10 [EvStart]
              [EvSubmit submit_b_first; EvWorker] submit_failing) as (_ & _ & _ & _ & H).
  - intros j. discriminate.
  - unfold distinct_ids. vm_compute submitted_ids.
    apply NoDup_cons. split; [set_solver|]. apply NoDup_singleton.
  - destruct H as (_ & Ha & Ht).
    + repeat constructor; intros j; discriminate.
    + reflexivity.
    + lia.
    + split; [exact Ha | exact Ht].
Defined.

(** ** The system monitor and the cleanup *)

Local Open Scope Q_scope.

Lemma clock_advances_last t0 readings :
  clock_advances t0 readings -> t0 <= last_time t0 readings.
Proof.
  revert t0. induction readings as [|r rest IH]; intros t0 H; simpl.
  - apply Qle_refl.
  - destruct H as [H1 H2]. unfold last_time. simpl.
    eapply Qle_trans; [exact H1|]. apply IH, H2.
Qed.

Lemma filter_recent_twice (t1 t2 : Q) (l : list (Q * Q)) :
  t1 <= t2 ->
  List.filter (fun m => Qltb (t2 - 3600) (fst m))
    (List.filter (fun m => Qltb (t1 - 3600) (fst m)) l)
  = List.filter (fun m => Qltb (t2 - 3600) (fst m)) l.
Proof.
  intros Hle. induction l as [|m l IH]; simpl; [reflexivity|].
  destruct (Qltb (t1 - 3600) (fst m)) eqn:E1; simpl.
  - rewrite IH. reflexivity.
  - rewrite IH. destruct (Qltb (t2 - 3600) (fst m)) eqn:E2; [|reflexivity].
    exfalso. apply Qltb_true in E2. apply Qltb_false in E1. lra.
Qed.

Lemma monitor_passes_samples p readings t0 :
  clock_advances t0 readings -> readings <> [] ->
  let recent := fun m : Q * Q => Qltb (last_time t0 readings - 3600) (fst m) in
  cpu_samples (monitor_passes p readings)
  = List.filter recent (cpu_samples p ++ cpu_readings readings)
  /\ memory_samples (monitor_passes p readings)
     = List.filter recent (memory_samples p ++ memory_readings readings)
  /\ task_completion_times (monitor_passes p readings) = task_completion_times p
  /\ error_counts (monitor_passes p readings) = error_counts p
  /\ active_tasks_metric (monitor_passes p readings) = active_tasks_metric p.
Proof.
  revert p t0. induction readings as [|r rest IH]; intros p t0 Hadv Hne;
    [contradiction|].
  destruct Hadv as [H1 H2].
  destruct rest as [|r' rest'].
  - unfold monitor_passes, last_time. simpl. repeat split; reflexivity.
  - specialize (IH (monitor_pass (fst r) (fst (snd r)) (snd (snd r)) p).1 (fst r) H2
                  ltac:(discriminate)).
    cbv zeta in IH. destruct IH as (Ic & Im & It & Ie & Ia).
    change (monitor_passes p (r :: r' :: rest'))
      with (monitor_passes (monitor_pass (fst r) (fst (snd r)) (snd (snd r)) p).1
              (r' :: rest')).
    change (last_time t0 (r :: r' :: rest')) with (last_time (fst r) (r' :: rest')).
    pose proof (clock_advances_last (fst r) (r' :: rest') H2) as Hlast.
    set (tl := last_time (fst r) (r' :: rest')) in *. clearbody tl.
    cbv zeta. rewrite Ic, Im, It, Ie, Ia.
    cbn [monitor_pass fst cpu_samples memory_samples task_completion_times
         error_counts active_tasks_metric].
    split; [|split; [|repeat split; reflexivity]].
    + rewrite List.filter_app, (filter_recent_twice (fst r) tl) by exact Hlast.
      rewrite <- List.filter_app.
      change (cpu_readings (r :: r' :: rest'))
        with ((fst r, fst (snd r)) :: cpu_readings (r' :: rest')).
      rewrite <- app_assoc. reflexivity.
    + rewrite List.filter_app, (filter_recent_twice (fst r) tl) by exact Hlast.
      rewrite <- List.filter_app.
      change (memory_readings (r :: r' :: rest'))
        with ((fst r, snd (snd r)) :: memory_readings (r' :: rest')).
      rewrite <- app_assoc. reflexivity.
Qed.

(** The system monitor keeps the last hour: after any number of passes of
    [_monitor_loop] on a new monitor, with a clock that does not go back,
    the CPU samples and the memory samples it holds are exactly the
    readings taken less than an hour before the latest one, in order, the
    latest included; the task records and counters are not touched. *)
Theorem monitor_keeps_the_last_hour (t0 : Q) (readings : list (Q * (Q * Q))) :
  clock_advances t0 readings ->
  let p := monitor_passes TaskMetrics_init readings in
  let recent := fun m : Q * Q => Qltb (last_time t0 readings - 3600) (fst m) in
  cpu_samples p = List.filter recent (cpu_readings readings)
  /\ memory_samples p = List.filter recent (memory_readings readings)
  /\ (forall r, List.last readings (t0, (0, 0)) = r -> readings <> [] ->
      (fst r, fst (snd r)) ∈ cpu_samples p /\ (fst r, snd (snd r)) ∈ memory_samples p)
  /\ task_completion_times p = [] /\ error_counts p = ∅
  /\ active_tasks_metric p = 0%Z.
Proof.
  intros Hadv p recent.
  assert (Hcase : readings = [] \/ readings <> [])
    by (destruct readings; [left; reflexivity | right; discriminate]).
  destruct Hcase as [Hnil|Hne].
  { subst readings. unfold p. split; [reflexivity|]. split; [reflexivity|].
    split; [intros r _ H; contradiction|]. repeat split; reflexivity. }
  destruct (monitor_passes_samples TaskMetrics_init readings t0 Hadv Hne)
    as (Hc & Hm & Ht & He & Ha).
  fold p in Hc, Hm, Ht, He, Ha. fold recent in Hc, Hm.
  cbn [TaskMetrics_init cpu_samples memory_samples app] in Hc, Hm.
  split; [exact Hc|]. split; [exact Hm|].
  split; [|repeat split; assumption].
  intros r Hr _.
  assert (Hd : forall (l : list (Q * (Q * Q))) b d d',
             List.last (b :: l) d = List.last (b :: l) d').
  { induction l as [|x l IHl]; intros b d d'; [reflexivity|].
    change (List.last (b :: x :: l) d) with (List.last (x :: l) d).
    change (List.last (b :: x :: l) d') with (List.last (x :: l) d').
    apply IHl. }
  assert (Hlast : last_time t0 readings = fst r /\ r ∈ readings).
  { rewrite <- Hr. clear -Hne Hd. revert t0.
    induction readings as [|a l IH]; intros t0; [contradiction|].
    destruct l as [|b l'].
    - split; [reflexivity | left].
    - destruct (IH ltac:(discriminate) (fst a)) as [I1 I2].
      change (last_time t0 (a :: b :: l')) with (last_time (fst a) (b :: l')).
      change (List.last (a :: b :: l') (t0, (0, 0)))
        with (List.last (b :: l') (t0, (0, 0))).
      rewrite (Hd l' b (t0, (0, 0)) (fst a, (0, 0))).
      split; [exact I1 | right; exact I2]. }
  destruct Hlast as [Hl Hin].
  assert (Hrecent : forall v, recent (fst r, v) = true).
  { intros v. unfold recent. rewrite Hl. apply Qltb_true. simpl. lra. }
  split.
  - rewrite Hc. apply list_elem_of_In, List.filter_In. split; [|apply Hrecent].
    apply list_elem_of_In. unfold cpu_readings.
    apply list_elem_of_In, List.in_map_iff. exists r. split; [reflexivity|].
    apply list_elem_of_In, Hin.
  - rewrite Hm. apply list_elem_of_In, List.filter_In. split; [|apply Hrecent].
    apply list_elem_of_In. unfold memory_readings.
    apply list_elem_of_In, List.in_map_iff. exists r. split; [reflexivity|].
    apply list_elem_of_In, Hin.
Qed.

Lemma monitor_keeps_the_last_hour_witness :
  cpu_samples
    (monitor_passes TaskMetrics_init
       [(0, (10, 20)); (1800, (90, 30)); (4000, (50, 50))])
  = [(1800, 90); (4000, 50)].
Proof.
  destruct (monitor_keeps_the_last_hour 0
              [(0, (10, 20)); (1800, (90, 30)); (4000, (50, 50))]) as (H & _).
  - simpl. repeat split; discriminate.
  - rewrite H. reflexivity.
Defined.

Lemma last_cons_default (a : Q) (l : list Q) (d : Q) :
  List.last (a :: l) d = List.last l a.
Proof.
  revert a d. induction l as [|b l IH]; intros a d; [reflexivity|].
  change (List.last (a :: b :: l) d) with (List.last (b :: l) d).
  rewrite (IH b d), (IH b a). reflexivity.
Qed.

Lemma spaced_snoc gap prev l t :
  spaced gap prev l -> gap < t - List.last l prev -> spaced gap prev (l ++ [t]).
Proof.
  revert prev. induction l as [|a l IH]; intros prev Hs Ht; simpl in *.
  - split; [exact Ht | exact I].
  - destruct Hs as [H1 H2]. split; [exact H1|].
    apply IH; [exact H2|].
    destruct l as [|b l']; [exact Ht|].
    rewrite <- (last_cons_default a (b :: l') prev).
    change (List.last (a :: b :: l') prev) with (List.last (b :: l') prev).
    exact Ht.
Qed.

Lemma cleanup_calls_invariant (r0 : ResourceManager) (t0 : Q) (clocks : list Clock) :
  last_cleanup r0 = List.last (cleanups r0) t0 ->
  spaced (cleanup_interval r0 * 60) t0 (cleanups r0) ->
  let r := cleanup_calls r0 clocks in
  last_cleanup r = List.last (cleanups r) t0
  /\ spaced (cleanup_interval r0 * 60) t0 (cleanups r)
  /\ cleanup_interval r = cleanup_interval r0
  /\ max_concurrent_audio r = max_concurrent_audio r0
  /\ audio_queue_size r = audio_queue_size r0.
Proof.
  revert r0. induction clocks as [|c rest IH]; intros r0 Hl Hs; [repeat split; assumption|].
  cbn [cleanup_calls foldl]. fold (cleanup_calls (cleanup_if_needed c r0) rest).
  assert (H1 : last_cleanup (cleanup_if_needed c r0)
               = List.last (cleanups (cleanup_if_needed c r0)) t0
               /\ spaced (cleanup_interval r0 * 60) t0 (cleanups (cleanup_if_needed c r0))
               /\ cleanup_interval (cleanup_if_needed c r0) = cleanup_interval r0
               /\ max_concurrent_audio (cleanup_if_needed c r0) = max_concurrent_audio r0
               /\ audio_queue_size (cleanup_if_needed c r0) = audio_queue_size r0).
  { unfold cleanup_if_needed.
    destruct (Qltb (cleanup_interval r0 * 60) (now c - last_cleanup r0)) eqn:E;
      [|repeat split; assumption].
    cbn [last_cleanup cleanups cleanup_interval max_concurrent_audio audio_queue_size].
    split; [rewrite List.last_last; reflexivity|].
    split; [|repeat split; reflexivity].
    apply spaced_snoc; [exact Hs|]. rewrite <- Hl. apply Qltb_true, E. }
  destruct H1 as (A & B & C & D & E).
  specialize (IH (cleanup_if_needed c r0) A). rewrite C in IH.
  destruct (IH B) as (A' & B' & C' & D' & E').
  repeat split; try assumption; congruence.
Qed.

(** Cleanups are spaced: however often, and at whatever times,
    [cleanup_if_needed] is called on a new resource manager, the cleanups
    it performs lie more than the cleanup interval (thirty minutes by
    default) apart from each other and from the construction, and the
    recorded time of the last cleanup is the time of the latest one. *)
Theorem cleanups_are_spaced (c0 : Clock) (clocks : list Clock) :
  let r := cleanup_calls (ResourceManager_init c0) clocks in
  spaced 1800 (now c0) (cleanups r)
  /\ last_cleanup r = List.last (cleanups r) (now c0)
  /\ cleanup_interval r = 30
  /\ (forall t, t ∈ cleanups r -> exists c, c ∈ clocks /\ t = now c).
Proof.
  intros r.
  destruct (cleanup_calls_invariant (ResourceManager_init c0) (now c0) clocks)
    as (A & B & C & _); [reflexivity | exact I |].
  fold r in A, B, C. cbn [ResourceManager_init cleanup_interval] in B, C.
  split; [|split; [exact A|split; [exact C|]]].
  - assert (E : forall l prev, spaced (30 * 60) prev l -> spaced 1800 prev l).
    { induction l as [|a l IHl]; intros prev H; [exact I|].
      destruct H as [H1 H2]. split; [lra | apply IHl, H2]. }
    apply E, B.
  - assert (G : forall clocks r0 t,
               t ∈ cleanups (cleanup_calls r0 clocks) ->
               t ∈ cleanups r0 \/ exists c, c ∈ clocks /\ t = now c).
    { clear. induction clocks as [|c rest IH]; intros r0 t Ht; [left; exact Ht|].
      cbn [cleanup_calls foldl] in Ht.
      fold (cleanup_calls (cleanup_if_needed c r0) rest) in Ht.
      destruct (IH _ _ Ht) as [H|(c' & Hc' & ->)].
      - unfold cleanup_if_needed in H. destruct (Qltb _ _); [|left; exact H].
        cbn [cleanups] in H. apply elem_of_app in H as [H|H]; [left; exact H|].
        apply list_elem_of_singleton in H. right. exists c. split; [left | exact H].
      - right. exists c'. split; [right; exact Hc' | reflexivity]. }
    intros t Ht.
    destruct (G clocks (ResourceManager_init c0) t Ht) as [H|H]; [inversion H | exact H].
Qed.

Lemma cleanups_are_spaced_example :
  cleanups
    (cleanup_calls (ResourceManager_init noon)
       [one_hour_later; {| now := 5000; hour := 13; today := 0 |};
        {| now := 5401; hour := 13; today := 0 |}])
  = [3600; 5401].
Proof. vm_compute. reflexivity. Qed.

(** ** Learning *)

Local Close Scope Q_scope.

Lemma string_length_app (a b : string) :
  String.length (a ++ b)%string = String.length a + String.length b.
Proof. induction a as [|x a IH]; simpl; [reflexivity | rewrite IH; reflexivity]. Qed.

Lemma string_app_inj_r (a b s : string) :
  (a ++ s)%string = (b ++ s)%string -> a = b.
Proof.
  revert b. induction a as [|x a IH]; intros [|y b] H; simpl in H.
  - reflexivity.
  - exfalso. apply (f_equal String.length) in H. simpl in H.
    rewrite !string_length_app in H. simpl in H. lia.
  - exfalso. apply (f_equal String.length) in H. simpl in H.
    rewrite !string_length_app in H. simpl in H. lia.
  - injection H as -> H. f_equal. apply IH, H.
Qed.

Lemma pattern_key_inj a b h : pattern_key a h = pattern_key b h -> a = b.
Proof. unfold pattern_key. apply string_app_inj_r. Qed.

(** One iteration of the learning loop, seen from agent [k] and its key. *)
Lemma learn_one_other c m x k :
  x <> k ->
  bot_states (learn_one c m x) !! k = bot_states m !! k
  /\ manager_activity_patterns (learn_one c m x) !! pattern_key k (hour c)
     = manager_activity_patterns m !! pattern_key k (hour c).
Proof.
  intros Hne. unfold learn_one.
  destruct (bot_states m !! x) as [sx|]; [|split; reflexivity].
  destruct (0 <? conversation_count_today sx)%nat; [|split; reflexivity].
  cbv zeta. cbn [update_bot bot_states set_bot_states manager_activity_patterns
                 set_manager_activity_patterns].
  split.
  - apply lookup_alter_ne. exact Hne.
  - apply lookup_insert_ne. intros E. apply Hne. apply (pattern_key_inj _ _ _ E).
Qed.

Lemma learn_one_self c m k s :
  bot_states m !! k = Some s ->
  let key := pattern_key k (hour c) in
  let n := default 0 (manager_activity_patterns m !! key) in
  if (0 <? conversation_count_today s)%nat then
    bot_states (learn_one c m k) !! k = Some (learned_social (S n) s)
    /\ manager_activity_patterns (learn_one c m k) !! key = Some (S n)
  else
    bot_states (learn_one c m k) !! k = Some s
    /\ manager_activity_patterns (learn_one c m k) !! key
       = manager_activity_patterns m !! key.
Proof.
  intros Hs key n. unfold learn_one. rewrite Hs.
  destruct (0 <? conversation_count_today s)%nat; [|split; [exact Hs | reflexivity]].
  cbv zeta. cbn [update_bot bot_states set_bot_states manager_activity_patterns
                 set_manager_activity_patterns].
  fold key. fold n. split; [|apply lookup_insert_eq].
  rewrite lookup_alter_eq, Hs. simpl. f_equal.
  unfold _apply_learned_patterns, learned_social. fold key.
  rewrite lookup_insert_eq. reflexivity.
Qed.

Lemma learn_fold c l k :
  NoDup l ->
  forall m,
    (k ∉ l ->
     bot_states (foldl (learn_one c) m l) !! k = bot_states m !! k
     /\ manager_activity_patterns (foldl (learn_one c) m l) !! pattern_key k (hour c)
        = manager_activity_patterns m !! pattern_key k (hour c))
    /\ (k ∈ l ->
        bot_states (foldl (learn_one c) m l) !! k = bot_states (learn_one c m k) !! k
        /\ manager_activity_patterns (foldl (learn_one c) m l) !! pattern_key k (hour c)
           = manager_activity_patterns (learn_one c m k) !! pattern_key k (hour c)).
Proof.
  induction 1 as [|x l Hx Hnd IH]; intros m.
  - split; [intros _; split; reflexivity | intros H; inversion H].
  - cbn [foldl]. destruct (IH (learn_one c m x)) as [IHout IHin]. split.
    + intros Hk. rewrite not_elem_of_cons in Hk. destruct Hk as [Hne Hk].
      destruct (IHout Hk) as [A B].
      destruct (learn_one_other c m x k ltac:(congruence)) as [A' B'].
      split; congruence.
    + intros Hk. apply elem_of_cons in Hk as [->|Hk].
      * exact (IHout Hx).
      * assert (Hne : x <> k) by (intros ->; contradiction).
        destruct (IHin Hk) as [A B].
        destruct (learn_one_other c m x k Hne) as [A' B'].
        assert (E : bot_states (learn_one c (learn_one c m x) k) !! k
                    = bot_states (learn_one c m k) !! k
                    /\ manager_activity_patterns (learn_one c (learn_one c m x) k)
                       !! pattern_key k (hour c)
                       = manager_activity_patterns (learn_one c m k)
                         !! pattern_key k (hour c)).
        { destruct (bot_states m !! k) as [s|] eqn:Es.
          - pose proof (learn_one_self c m k s Es) as H1.
            assert (Es' : bot_states (learn_one c m x) !! k = Some s) by congruence.
            pose proof (learn_one_self c (learn_one c m x) k s Es') as H2.
            cbv zeta in H1, H2. rewrite B' in H2.
            destruct (0 <? conversation_count_today s)%nat;
              destruct H1 as [H1a H1b]; destruct H2 as [H2a H2b];
              split; congruence.
          - assert (Es' : bot_states (learn_one c m x) !! k = None) by congruence.
            unfold learn_one at 1 3 4 6. rewrite Es, Es'. split; congruence. }
        destruct E as [E1 E2]. split; congruence.
Qed.

(** One learning pass with a database: every agent that has talked today
    has the counter of its key, its id with the hour, raised by one, and
    its social factor adjusted by the new count: five up (to 100 at most)
    above ten, two down (to 0 at least) below three; every agent that has
    not talked today keeps its counter and its state. *)
Theorem learning_pass_counts_each_talkative_agent (c : Clock) (m : BotActivityManager)
    (k : string) (s : ActivityState) :
  memory_db m = true ->
  bot_states m !! k = Some s ->
  let m' := _learn_activity_patterns c m in
  let key := pattern_key k (hour c) in
  let n := default 0 (manager_activity_patterns m !! key) in
  ((0 < conversation_count_today s)%nat ->
   manager_activity_patterns m' !! key = Some (S n)
   /\ bot_states m' !! k = Some (learned_social (S n) s))
  /\ (conversation_count_today s = 0%nat ->
      manager_activity_patterns m' !! key = manager_activity_patterns m !! key
      /\ bot_states m' !! k = Some s).
Proof.
  intros Hdb Hs m' key n. unfold m', _learn_activity_patterns. rewrite Hdb. cbn [negb].
  assert (Hnd : NoDup (map_to_list (bot_states m)).*1) by apply NoDup_fst_map_to_list.
  assert (Hin : k ∈ (map_to_list (bot_states m)).*1).
  { apply list_elem_of_fmap. exists (k, s). split; [reflexivity|].
    apply elem_of_map_to_list, Hs. }
  destruct (learn_fold c _ k Hnd m) as [_ H]. destruct (H Hin) as [A B].
  fold key in B. rewrite A, B.
  pose proof (learn_one_self c m k s Hs) as H1. cbv zeta in H1. fold key in H1. fold n in H1.
  split.
  - intros Hpos. apply Nat.ltb_lt in Hpos. rewrite Hpos in H1.
    destruct H1 as [H1a H1b]. split; assumption.
  - intros Hz. rewrite Hz in H1. cbn in H1. destruct H1 as [H1a H1b]. split; assumption.
Qed.

Lemma learning_pass_counts_each_talkative_agent_witness :
  manager_activity_patterns (_learn_activity_patterns noon four_online_talking)
  !! pattern_key "a" (hour noon)
  = Some 1.
Proof.
  assert (Hs : exists s, bot_states four_online_talking !! "a"%string = Some s
                         /\ 0 < conversation_count_today s).
  { eexists. split; [vm_compute; reflexivity | vm_compute; lia]. }
  destruct Hs as (s & Hs & Hpos).
  destruct (learning_pass_counts_each_talkative_agent noon four_online_talking "a" s
              eq_refl Hs) as [H _].
  destruct (H Hpos) as [Hc _]. exact Hc.
Defined.
